(** * mempool-monitor: a shallow embedding of [mempool_monitor.py]

    The program is a single Python module with two classes:
    [SimpleWebSocket] (a hand-written WebSocket client over a raw socket) and
    [MempoolMonitor] (rule evaluation, webhook dispatch, subscription and the
    reconnect loop).  Every method is embedded as a Rocq function of the same
    name, statement by statement.

    - Decoded JSON is the type [value]: [int] is [Z], [float] is a
      binary64 [spec_float], [str] is held as its UTF-8 encoding, [dict] as
      its items in insertion order.
    - Objects are records; an attribute that may not exist yet is an
      [option].
    - Code is a function from a state to an [outcome] and a new state:
      a result, a raised exception, or a loop that never ends.
    - The outside world (sockets, HTTP, the log, entropy, the clock) is an
      explicit [world]: a trace of what the program did and the answers it
      will be given.
    - Library functions whose algorithms are not in this repository
      ([json.loads], [json.dumps], [float] of a [str], [repr] of a [float]
      or a [str], [str.upper], [urlparse], the argument checks of
      [Request] and [time.sleep]) are the fields of a [Runtime]; everything
      is stated for an arbitrary one.
    - The loops of [run] take fuel and return [None] when it runs out.

    [MempoolMonitor.init] takes the configuration as a dict;
    [load_config] builds it from the file system as the program sees it
    ([Files]), and [__init__] puts the two together.  Of the command line,
    the option loop of [main] is embedded, over the list [getopt]
    returned. *)

From Stdlib Require Import ZArith List String Ascii Bool Lia.
From Stdlib Require Import Strings.Byte DecimalString SpecFloat.
Import ListNotations.
Local Open Scope string_scope.
Local Open Scope list_scope.
Local Open Scope Z_scope.

(** ** Python values, exceptions and the effect monad *)

Module Py.

Set Warnings "-register-all".

(** The values [json.load] and [json.loads] produce.  A [str] is held as
    its UTF-8 encoding; a [dict] keeps its items in insertion order. *)
Inductive value : Type :=
| VNone
| VBool (b : bool)
| VInt (z : Z)
| VFloat (f : spec_float)
| VStr (s : string)
| VList (l : list value)
| VDict (d : list (string * value)).

Definition bytes := list byte.

(** The exception classes the program can meet.  All of them derive from
    [Exception] except [KeyboardInterrupt]. *)
Inductive exn : Type :=
| ImportError
| NameError (name : string)
| AttributeError
| TypeError
| ValueError
| OverflowError
| StructError
| UnicodeDecodeError
| JSONDecodeError
| KeyError
| OSError
| NotConnected              (* Exception("Not connected") *)
| HandshakeFailed (response : bytes)
| KeyboardInterrupt.

Definition is_Exception (e : exn) : bool :=
  match e with
  | KeyboardInterrupt => false
  | _ => true
  end.

(** What running a piece of code ends in: a result, a raised exception, or
    a loop that never ends. *)
Inductive outcome (A : Type) : Type :=
| Ok (a : A)
| Raise (e : exn)
| Hang.
Arguments Ok {A} a.
Arguments Raise {A} e.
Arguments Hang {A}.

(** Code that reads and writes a state [S].  The state after an exception
    keeps every assignment made before the [raise], as in Python. *)
Definition M (S A : Type) : Type := S -> outcome A * S.

Definition ret {S A} (a : A) : M S A := fun s => (Ok a, s).

Definition bind {S A B} (c : M S A) (k : A -> M S B) : M S B :=
  fun s =>
    match c s with
    | (Ok a, s') => k a s'
    | (Raise e, s') => (Raise e, s')
    | (Hang, s') => (Hang, s')
    end.

Definition raise {S A} (e : exn) : M S A := fun s => (Raise e, s).

Definition gets {S A} (f : S -> A) : M S A := fun s => (Ok (f s), s).

Definition modify {S} (f : S -> S) : M S unit := fun s => (Ok tt, f s).

Definition lift {S A} (o : outcome A) : M S A := fun s => (o, s).

(** Sequencing for code that touches no state. *)
Definition and_then {A B} (o : outcome A) (k : A -> outcome B) : outcome B :=
  match o with
  | Ok a => k a
  | Raise e => Raise e
  | Hang => Hang
  end.

(** [try: c except Exception as e: h e] *)
Definition try_except {S A} (c : M S A) (h : exn -> M S A) : M S A :=
  fun s =>
    match c s with
    | (Raise e, s') => if is_Exception e then h e s' else (Raise e, s')
    | r => r
    end.

(** Running code written for a part [T] of the state [S]. *)
Definition zoom {S T A} (get : S -> T) (set : T -> S -> S) (c : M T A) : M S A :=
  fun s => let (o, t') := c (get s) in (o, set t' s).

(** [for x in l: body x] *)
Fixpoint for_each {S A} (l : list A) (body : A -> M S unit) : M S unit :=
  match l with
  | [] => ret tt
  | x :: rest => bind (body x) (fun _ => for_each rest body)
  end.

End Py.

Export Py.

Declare Scope py_scope.
Delimit Scope py_scope with py.
Notation "x <- c ;; k" := (bind c (fun x => k))
  (at level 61, c at next level, right associativity) : py_scope.
Notation "c ;; k" := (bind c (fun _ => k))
  (at level 61, right associativity) : py_scope.
Notation "x <~ o ;; k" := (and_then o (fun x => k))
  (at level 61, o at next level, right associativity) : py_scope.
Local Open Scope py_scope.

(** ** The Python built-ins the program uses *)

Module Builtins.

(** What [urllib.parse.urlparse] returns, as far as the program reads it. *)
Record url_parts : Type := {
  u_scheme : string;
  u_hostname : option string;
  u_port : option Z;
  u_path : string;
  u_query : string
}.

(** Library functions whose algorithms are not part of this repository.
    Everything below is stated for an arbitrary [Runtime]. *)
Class Runtime : Type := {
  float_of_str : string -> option spec_float;  (* float(s); None: ValueError *)
  float_repr : spec_float -> string;           (* repr(x) of a float *)
  str_repr : string -> string;                 (* repr(s) of a str *)
  str_upper : string -> string;                (* s.upper() *)
  json_loads : string -> option value;         (* None: JSONDecodeError *)
  json_dumps : value -> string;
  urlparse : value -> outcome url_parts;
  request_check : value -> outcome unit;       (* the url check of urllib.request.Request *)
  sleep_check : value -> outcome unit          (* the argument check of time.sleep *)
}.

Definition dict := list (string * value).

(** [d.get(k)] on the items of a dict, for a [str] key. *)
Fixpoint dict_get (d : dict) (k : string) : option value :=
  match d with
  | [] => None
  | (k', v) :: rest => if String.eqb k' k then Some v else dict_get rest k
  end.

(** [bool(v)] *)
Definition truthy (v : value) : bool :=
  match v with
  | VNone => false
  | VBool b => b
  | VInt z => negb (z =? 0)
  | VFloat (S754_zero _) => false
  | VFloat _ => true
  | VStr s => negb (String.eqb s "")
  | VList [] => false
  | VList _ => true
  | VDict [] => false
  | VDict _ => true
  end.

(** [int == float], compared exactly as Python does. *)
Definition int_float_eqb (z : Z) (f : spec_float) : bool :=
  match f with
  | S754_zero _ => z =? 0
  | S754_finite s m e =>
      let mz := if s then Z.neg m else Z.pos m in
      if 0 <=? e then z =? mz * 2 ^ e else z * 2 ^ (- e) =? mz
  | _ => false
  end.

Definition is_nan (v : value) : bool :=
  match v with
  | VFloat S754_nan => true
  | _ => false
  end.

(** [a == b].  [bool], [int] and [float] compare as numbers.  Inside a list
    or a dict, CPython tests identity before equality, and the decoder's NaN
    is one shared object: two NaN items compare equal there. *)
Fixpoint py_eq (a b : value) {struct a} : bool :=
  match a, b with
  | VNone, VNone => true
  | VBool x, VBool y => Bool.eqb x y
  | VBool x, VInt y => (if x then 1 else 0) =? y
  | VInt x, VBool y => x =? (if y then 1 else 0)
  | VInt x, VInt y => x =? y
  | VBool x, VFloat y => int_float_eqb (if x then 1 else 0) y
  | VInt x, VFloat y => int_float_eqb x y
  | VFloat x, VBool y => int_float_eqb (if y then 1 else 0) x
  | VFloat x, VInt y => int_float_eqb y x
  | VFloat x, VFloat y => SFeqb x y
  | VStr x, VStr y => String.eqb x y
  | VList l1, VList l2 =>
      (fix items (l1 l2 : list value) {struct l1} : bool :=
         match l1, l2 with
         | [], [] => true
         | x :: xs, y :: ys =>
             ((is_nan x && is_nan y) || py_eq x y) && items xs ys
         | _, _ => false
         end) l1 l2
  | VDict d1, VDict d2 =>
      Nat.eqb (List.length d1) (List.length d2) &&
      (fix items (d : dict) {struct d} : bool :=
         match d with
         | [] => true
         | (k, v) :: rest =>
             match dict_get d2 k with
             | Some w => ((is_nan v && is_nan w) || py_eq v w) && items rest
             | None => false
             end
         end) d1
  | _, _ => false
  end.

(** Whether [hash(v)] succeeds: lists and dicts are unhashable. *)
Definition hashable (v : value) : bool :=
  match v with
  | VList _ | VDict _ => false
  | _ => true
  end.

(** [t in s] for strings: [t] occurs in [s] as a contiguous run. *)
Fixpoint substringb (t s : string) : bool :=
  String.prefix t s ||
  match s with
  | EmptyString => false
  | String _ s' => substringb t s'
  end.

Definition bytes_contains (pat data : bytes) : bool :=
  substringb (string_of_list_byte pat) (string_of_list_byte data).

(** [s.split(sep)] for a one-character separator. *)
Fixpoint split_on (sep : ascii) (s : string) : list string :=
  match s with
  | EmptyString => [EmptyString]
  | String a rest =>
      if Ascii.eqb a sep then EmptyString :: split_on sep rest
      else match split_on sep rest with
           | [] => [String a EmptyString]
           | h :: t => String a h :: t
           end
  end.

(** The characters of a [str]: each lead byte with its continuation bytes. *)
Definition is_continuation (a : ascii) : bool :=
  let n := N_of_ascii a in (N.leb 128 n && N.ltb n 192)%N.

Fixpoint utf8_chars (s : string) : list string :=
  match s with
  | EmptyString => []
  | String a rest =>
      match rest with
      | String b _ =>
          if is_continuation b then
            match utf8_chars rest with
            | h :: t => String a h :: t
            | [] => [String a EmptyString]
            end
          else String a EmptyString :: utf8_chars rest
      | EmptyString => [String a EmptyString]
      end
  end.

(** [iter(v)]: what a [for] loop over [v] visits. *)
Definition py_iter (v : value) : outcome (list value) :=
  match v with
  | VList l => Ok l
  | VDict d => Ok (map (fun kv => VStr (fst kv)) d)
  | VStr s => Ok (map VStr (utf8_chars s))
  | _ => Raise TypeError
  end.

(** [obj.get(k, default)]: only a dict has the method. *)
Definition py_get (obj : value) (k : string) (default : value) : outcome value :=
  match obj with
  | VDict d => Ok (match dict_get d k with Some v => v | None => default end)
  | _ => Raise AttributeError
  end.

(** [obj.get(k)] for a key that is itself a decoded value. *)
Definition py_get_by (obj : value) (k : value) : outcome value :=
  match obj with
  | VDict d =>
      match k with
      | VStr s => Ok (match dict_get d s with Some v => v | None => VNone end)
      | VList _ | VDict _ => Raise TypeError
      | _ => Ok VNone
      end
  | _ => Raise AttributeError
  end.

(** [key in data] for a [str] key. *)
Definition py_in (key : string) (data : value) : outcome bool :=
  match data with
  | VDict d => Ok (match dict_get d key with Some _ => true | None => false end)
  | VList l => Ok (existsb (fun x => py_eq x (VStr key)) l)
  | VStr s => Ok (substringb key s)
  | _ => Raise TypeError
  end.

(** [data[key]] for a [str] key. *)
Definition py_getitem (data : value) (key : string) : outcome value :=
  match data with
  | VDict d => match dict_get d key with Some v => Ok v | None => Raise KeyError end
  | _ => Raise TypeError
  end.

(** [t in s] where [s] is a [str]: the left operand must be a [str]. *)
Definition str_contains (t : value) (s : string) : outcome bool :=
  match t with
  | VStr t' => Ok (substringb t' s)
  | _ => Raise TypeError
  end.

(** A [set] of hashable values, as the list of its members in the order
    they were first added.  Python leaves the iteration order of a set
    unspecified; nothing proved below depends on it.  Membership tests
    identity before equality, like the containers above. *)
Definition same (a b : value) : bool := (is_nan a && is_nan b) || py_eq a b.

Definition set_mem (x : value) (s : list value) : outcome bool :=
  if hashable x then Ok (existsb (same x) s) else Raise TypeError.

Definition set_add (x : value) (s : list value) : outcome (list value) :=
  if hashable x then Ok (if existsb (same x) s then s else s ++ [x])
  else Raise TypeError.

(** [d[k] = v] on the items of a dict: an existing key keeps its place. *)
Fixpoint dict_set (d : dict) (k : string) (v : value) : dict :=
  match d with
  | [] => [(k, v)]
  | (k', v') :: rest =>
      if String.eqb k' k then (k, v) :: rest else (k', v') :: dict_set rest k v
  end.

(** [{**base, **extra}]: [extra] must be a mapping. *)
Definition dict_merge (base : dict) (extra : value) : outcome dict :=
  match extra with
  | VDict items => Ok (fold_left (fun acc kv => dict_set acc (fst kv) (snd kv)) items base)
  | _ => Raise TypeError
  end.

Definition is_list (v : value) : bool :=
  match v with VList _ => true | _ => false end.

Definition is_none (v : value) : bool :=
  match v with VNone => true | _ => false end.

Definition float_zero : spec_float := S754_zero false.
Definition float_one : spec_float := binary_normalize 53 1024 1 0 false.

(** [float(z)] for an int: rounded to nearest even, OverflowError past
    the largest double. *)
Definition float_of_int (z : Z) : outcome spec_float :=
  match binary_normalize 53 1024 z 0 false with
  | S754_infinity _ => Raise OverflowError
  | f => Ok f
  end.

Section WithRuntime.
Context {rt : Runtime}.

(** [float(v)] *)
Definition py_float (v : value) : outcome spec_float :=
  match v with
  | VNone => Raise TypeError
  | VBool b => Ok (if b then float_one else float_zero)
  | VInt z => float_of_int z
  | VFloat f => Ok f
  | VStr s => match float_of_str s with Some f => Ok f | None => Raise ValueError end
  | VList _ | VDict _ => Raise TypeError
  end.

(** [repr(v)] *)
Fixpoint py_repr (v : value) : string :=
  match v with
  | VNone => "None"
  | VBool true => "True"
  | VBool false => "False"
  | VInt z => NilZero.string_of_int (Z.to_int z)
  | VFloat f => float_repr f
  | VStr s => str_repr s
  | VList l => ("[" ++ String.concat ", " (map py_repr l) ++ "]")%string
  | VDict d =>
      ("{" ++ String.concat ", "
                (map (fun kv : string * value =>
                        let (k, v) := kv in str_repr k ++ ": " ++ py_repr v) d)
           ++ "}")%string
  end.

(** [str(v)] *)
Definition py_str (v : value) : string :=
  match v with
  | VStr s => s
  | _ => py_repr v
  end.

End WithRuntime.

End Builtins.

Export Builtins.

(** ** Dicts with keys of any hashable type *)

Module Dicts.

(** The items of a dict whose keys need not be [str], in insertion order:
    what [dict.update] builds when it is handed a sequence of pairs.  Keys
    are compared as the members of a set are. *)
Definition items := list (value * value).

(** [d.get(k)] *)
Fixpoint items_get (d : items) (k : value) : option value :=
  match d with
  | [] => None
  | (k', v) :: rest => if same k k' then Some v else items_get rest k
  end.

(** [d[k] = v]: a key already there keeps its place and its own key
    object; a new key goes to the end. *)
Fixpoint items_set (d : items) (k v : value) : items :=
  match d with
  | [] => [(k, v)]
  | (k', v') :: rest =>
      if same k k' then (k', v) :: rest else (k', v') :: items_set rest k v
  end.

(** A dict with [str] keys, as items. *)
Definition of_dict (d : dict) : items :=
  map (fun kv : string * value => (VStr (fst kv), snd kv)) d.

(** The items under [str] keys: all that [d.get("...")] can reach. *)
Definition str_items (d : items) : dict :=
  flat_map (fun kv : value * value =>
              match fst kv with
              | VStr k => [(k, snd kv)]
              | _ => []
              end) d.

(** One element of the sequence handed to [dict.update], read as a
    key/value pair: a sequence of length two.  A [str] is the sequence of
    its characters, a dict the sequence of its keys; a length other than
    two is a ValueError, an element that is no sequence a TypeError. *)
Definition pair_of (elem : value) : outcome (value * value) :=
  match elem with
  | VList [k; v] => Ok (k, v)
  | VList _ => Raise ValueError
  | VStr s =>
      match utf8_chars s with
      | [a; b] => Ok (VStr a, VStr b)
      | _ => Raise ValueError
      end
  | VDict [(k1, _); (k2, _)] => Ok (VStr k1, VStr k2)
  | VDict _ => Raise ValueError
  | _ => Raise TypeError
  end.

(** The pairs are inserted one by one: those before a bad element stay
    inserted.  A key that cannot be hashed is a TypeError. *)
Fixpoint update_pairs (elems : list value) : M items unit :=
  match elems with
  | [] => ret tt
  | elem :: rest =>
      kv <- lift (pair_of elem) ;;
      if hashable (fst kv)
      then modify (fun d => items_set d (fst kv) (snd kv)) ;; update_pairs rest
      else raise TypeError
  end.

(** [d.update(other)]: a dict is merged item by item; anything else is
    iterated as a sequence of pairs. *)
Definition update (other : value) : M items unit :=
  match other with
  | VDict d =>
      modify (fun c => fold_left (fun acc kv => items_set acc (VStr (fst kv)) (snd kv)) d c)
  | VList l => update_pairs l
  | VStr s => update_pairs (map VStr (utf8_chars s))
  | _ => raise TypeError
  end.

End Dicts.

Export Dicts.

(** ** The outside world: sockets, the log, HTTP, entropy *)

Module Net.

(** A connected TCP (or TLS) socket, seen from the program: the chunks in
    which the peer's bytes will arrive, oldest first, and everything the
    program has written.  When no chunk is left the peer has closed and
    [recv] returns no bytes, as it does for an empty chunk. *)
Record socket : Type := {
  inbox : list bytes;
  outbox : bytes
}.

Definition len (b : bytes) : Z := Z.of_nat (List.length b).

(** [sock.recv(n)]: at most [n] bytes of the next chunk. *)
Definition sock_recv (n : Z) (s : socket) : bytes * socket :=
  match inbox s with
  | [] => ([], s)
  | chunk :: rest =>
      if len chunk <=? n then (chunk, {| inbox := rest; outbox := outbox s |})
      else (firstn (Z.to_nat n) chunk,
            {| inbox := skipn (Z.to_nat n) chunk :: rest; outbox := outbox s |})
  end.

(** [sock.send(data)] *)
Definition sock_send (data : bytes) (s : socket) : socket :=
  {| inbox := inbox s; outbox := outbox s ++ data |}.

Inductive level : Type := INFO | WARNING | ERROR.

(** One constructor per logging call of the program, with the values its
    f-string interpolates. *)
Inductive message : Type :=
| MsgStarting
| MsgConfig (path : string)
| MsgConnecting (url : value)
| MsgConnected
| MsgSub (event : value)
| MsgTrigger (name : value)
| MsgWebhookNotFound (name : value)
| MsgWebhookStatus (name url : value) (status : Z)
| MsgWebhookFailed (name : value) (e : exn)
| MsgError (e : exn)
| MsgConnectionError (e : exn)
| MsgReconnecting (delay : value)
| MsgShuttingDown.

(** The request [urllib.request.urlopen] is given. *)
Record http_request : Type := {
  rq_url : value;
  rq_method : string;
  rq_headers : dict;
  rq_body : bytes;
  rq_timeout : value
}.

(** What the program does to the world, in order. *)
Inductive event : Type :=
| Logged (lv : level) (msg : message)
| Slept (seconds : value)
| Requested (rq : http_request).

(** The world: the trace so far and the answers still to come.  [dials]
    holds, for each future [sock.connect], the peer's chunks or the
    exception raised; [replies], for each future [urlopen], the HTTP
    status or the exception raised.  An exhausted list refuses with
    [OSError]. *)
Record world : Type := {
  trace : list event;
  dials : list (outcome (list bytes));
  replies : list (outcome Z);
  urandom : nat -> bytes;
  urandom_calls : nat;
  clock : Z
}.

Definition emit (e : event) (w : world) : world :=
  {| trace := trace w ++ [e]; dials := dials w; replies := replies w;
     urandom := urandom w; urandom_calls := urandom_calls w; clock := clock w |}.

Definition log (lv : level) (msg : message) : M world unit :=
  modify (emit (Logged lv msg)).

(** [sock.connect((host, port))] on a fresh socket. *)
Definition dial : M world socket :=
  fun w =>
    match dials w with
    | [] => (Raise OSError, w)
    | d :: rest =>
        let w' := {| trace := trace w; dials := rest; replies := replies w;
                     urandom := urandom w; urandom_calls := urandom_calls w;
                     clock := clock w |} in
        match d with
        | Ok chunks => (Ok {| inbox := chunks; outbox := [] |}, w')
        | Raise e => (Raise e, w')
        | Hang => (Hang, w')
        end
    end.

(** [urllib.request.urlopen(req, timeout=...)]: the response status. *)
Definition urlopen (rq : http_request) : M world Z :=
  fun w =>
    let w1 := emit (Requested rq) w in
    match replies w1 with
    | [] => (Raise OSError, w1)
    | r :: rest =>
        (r, {| trace := trace w1; dials := dials w1; replies := rest;
               urandom := urandom w1; urandom_calls := urandom_calls w1;
               clock := clock w1 |})
    end.

(** [os.urandom(n)] *)
Definition os_urandom (n : nat) : M world bytes :=
  fun w =>
    (Ok (firstn n (urandom w (urandom_calls w))),
     {| trace := trace w; dials := dials w; replies := replies w;
        urandom := urandom w; urandom_calls := S (urandom_calls w);
        clock := clock w |}).

(** [time.sleep(v)] *)
Definition time_sleep {rt : Runtime} (v : value) : M world unit :=
  lift (sleep_check v) ;; modify (emit (Slept v)).

End Net.

Export Net.

(** ** The file system *)

Module Files.

(** The one line [load_config] logs:
    [logger.error(f"Failed to load config: {e}")]. *)
Inductive load_message : Type :=
| MsgLoadFailed (e : exn).

(** The file system as [load_config] sees it, and what it has logged:
    whether a path exists; for each path the text that [open] and
    [json.load]'s [read] give, or what one of them raises. *)
Record files : Type := {
  present : string -> bool;
  contents : string -> outcome string;
  load_log : list (level * load_message)
}.

(** [os.path.exists(path)] *)
Definition path_exists (path : string) : M files bool :=
  gets (fun fs => present fs path).

(** [with open(path, "r") as f: f.read()] *)
Definition read_text (path : string) : M files string :=
  fun fs => (contents fs path, fs).

Definition log_load (lv : level) (msg : load_message) : M files unit :=
  modify (fun fs => {| present := present fs; contents := contents fs;
                       load_log := load_log fs ++ [(lv, msg)] |}).

End Files.

Export Files.

(** ** [struct], [base64] and UTF-8 *)

Module Codec.

Definition byte_val (b : byte) : Z := Z.of_N (Byte.to_N b).

Definition byte_of_Z (z : Z) : byte :=
  match Byte.of_N (Z.to_N (z mod 256)) with
  | Some b => b
  | None => x00
  end.

(** The [n] low-order bytes of [z], most significant first. *)
Fixpoint be_bytes (n : nat) (z : Z) : bytes :=
  match n with
  | O => []
  | S k => byte_of_Z (Z.shiftr z (8 * Z.of_nat k)) :: be_bytes k z
  end.

Definition be_value (bs : bytes) : Z :=
  fold_left (fun acc b => acc * 256 + byte_val b) bs 0.

(** [struct.pack("!BB", a, b)] and its wider forms; a field out of range
    is a [struct.error]. *)
Definition in_range (bits z : Z) : bool := (0 <=? z) && (z <? 2 ^ bits).

Definition pack_BB (a b : Z) : outcome bytes :=
  if in_range 8 a && in_range 8 b then Ok (be_bytes 1 a ++ be_bytes 1 b)
  else Raise StructError.

Definition pack_BBH (a b h : Z) : outcome bytes :=
  if in_range 8 a && in_range 8 b && in_range 16 h
  then Ok (be_bytes 1 a ++ be_bytes 1 b ++ be_bytes 2 h)
  else Raise StructError.

Definition pack_BBQ (a b q : Z) : outcome bytes :=
  if in_range 8 a && in_range 8 b && in_range 64 q
  then Ok (be_bytes 1 a ++ be_bytes 1 b ++ be_bytes 8 q)
  else Raise StructError.

(** [struct.unpack("!H", data)[0]] and [struct.unpack("!Q", data)[0]] *)
Definition unpack_H (data : bytes) : outcome Z :=
  if Nat.eqb (List.length data) 2 then Ok (be_value data) else Raise StructError.

Definition unpack_Q (data : bytes) : outcome Z :=
  if Nat.eqb (List.length data) 8 then Ok (be_value data) else Raise StructError.

(** [base64.b64encode] *)
Definition b64_alphabet : string :=
  "ABCDEFGHIJKLMNOPQRSTUVWXYZabcdefghijklmnopqrstuvwxyz0123456789+/".

Definition b64_char (n : Z) : ascii :=
  match String.get (Z.to_nat n) b64_alphabet with
  | Some c => c
  | None => "="%char
  end.

Fixpoint b64encode (data : bytes) : string :=
  match data with
  | [] => EmptyString
  | [a] =>
      let x := byte_val a in
      String (b64_char (Z.shiftr x 2))
        (String (b64_char (Z.shiftl (Z.land x 3) 4)) "==")
  | [a; b] =>
      let x := byte_val a in
      let y := byte_val b in
      String (b64_char (Z.shiftr x 2))
        (String (b64_char (Z.lor (Z.shiftl (Z.land x 3) 4) (Z.shiftr y 4)))
           (String (b64_char (Z.shiftl (Z.land y 15) 2)) "="))
  | a :: b :: c :: rest =>
      let x := byte_val a in
      let y := byte_val b in
      let z := byte_val c in
      String (b64_char (Z.shiftr x 2))
        (String (b64_char (Z.lor (Z.shiftl (Z.land x 3) 4) (Z.shiftr y 4)))
           (String (b64_char (Z.lor (Z.shiftl (Z.land y 15) 2) (Z.shiftr z 6)))
              (String (b64_char (Z.land z 63)) (b64encode rest))))
  end.

(** Whether a byte string is well-formed UTF-8, as the strict decoder
    judges it: no overlong form, no surrogate, nothing past U+10FFFF. *)
Definition between (lo hi : Z) (b : byte) : bool :=
  (lo <=? byte_val b) && (byte_val b <=? hi).

Fixpoint utf8_valid (bs : bytes) : bool :=
  match bs with
  | [] => true
  | b0 :: r0 =>
      if between 0 127 b0 then utf8_valid r0 else
      match r0 with
      | [] => false
      | b1 :: r1 =>
          if between 194 223 b0 then between 128 191 b1 && utf8_valid r1 else
          match r1 with
          | [] => false
          | b2 :: r2 =>
              let three :=
                (between 224 224 b0 && between 160 191 b1)
                || ((between 225 236 b0 || between 238 239 b0) && between 128 191 b1)
                || (between 237 237 b0 && between 128 159 b1) in
              if between 224 239 b0 then three && between 128 191 b2 && utf8_valid r2 else
              match r2 with
              | [] => false
              | b3 :: r3 =>
                  let four :=
                    (between 240 240 b0 && between 144 191 b1)
                    || (between 241 243 b0 && between 128 191 b1)
                    || (between 244 244 b0 && between 128 143 b1) in
                  four && between 128 191 b2 && between 128 191 b3 && utf8_valid r3
              end
          end
      end
  end.

(** [data.encode("utf-8")]: a [str] is held as its encoding. *)
Definition encode_utf8 (s : string) : bytes := list_byte_of_string s.

(** [payload.decode("utf-8")] *)
Definition decode_utf8 (b : bytes) : outcome string :=
  if utf8_valid b then Ok (string_of_list_byte b) else Raise UnicodeDecodeError.

End Codec.

Export Codec.

(** ** class SimpleWebSocket *)

Module SimpleWebSocket.

(** The object's attributes.  [host], [port], [path] and [is_ssl] do not
    exist until [_parse_url] assigns them: reading one that is [None] here
    is an AttributeError. *)
Record t : Type := {
  url : value;
  sock : option socket;
  connected : bool;
  host : option (option string);
  port : option Z;
  path : option string;
  is_ssl : option bool
}.

(** [__init__] *)
Definition init (u : value) : t :=
  {| url := u; sock := None; connected := false;
     host := None; port := None; path := None; is_ssl := None |}.

Definition set_sock (s : option socket) (ws : t) : t :=
  {| url := url ws; sock := s; connected := connected ws;
     host := host ws; port := port ws; path := path ws; is_ssl := is_ssl ws |}.

Definition set_connected (c : bool) (ws : t) : t :=
  {| url := url ws; sock := sock ws; connected := c;
     host := host ws; port := port ws; path := path ws; is_ssl := is_ssl ws |}.

Definition set_host (h : option string) (ws : t) : t :=
  {| url := url ws; sock := sock ws; connected := connected ws;
     host := Some h; port := port ws; path := path ws; is_ssl := is_ssl ws |}.

Definition set_port (p : Z) (ws : t) : t :=
  {| url := url ws; sock := sock ws; connected := connected ws;
     host := host ws; port := Some p; path := path ws; is_ssl := is_ssl ws |}.

Definition set_path (p : string) (ws : t) : t :=
  {| url := url ws; sock := sock ws; connected := connected ws;
     host := host ws; port := port ws; path := Some p; is_ssl := is_ssl ws |}.

Definition set_is_ssl (b : bool) (ws : t) : t :=
  {| url := url ws; sock := sock ws; connected := connected ws;
     host := host ws; port := port ws; path := path ws; is_ssl := Some b |}.

(** Reading an attribute that may not have been assigned yet. *)
Definition attr {A} (f : t -> option A) : M t A :=
  fun ws => match f ws with
            | Some a => (Ok a, ws)
            | None => (Raise AttributeError, ws)
            end.

(** [self.sock.recv(n)] and [self.sock.send(data)] *)
Definition recv_bytes (n : Z) : M t bytes :=
  s <- attr sock ;;
  let (chunk, s') := sock_recv n s in
  modify (set_sock (Some s')) ;; ret chunk.

Definition send_bytes (data : bytes) : M t unit :=
  s <- attr sock ;;
  modify (set_sock (Some (sock_send data s))).

(** The names [urllib.parse] binds for [from urllib.parse import ...]:
    its public interface.  No release of the module binds [parses]. *)
Definition urllib_parse : list string :=
  ["urlparse"; "urlunparse"; "urljoin"; "urldefrag"; "urlsplit";
   "urlunsplit"; "urlencode"; "parse_qs"; "parse_qsl"; "quote";
   "quote_plus"; "quote_from_bytes"; "unquote"; "unquote_plus";
   "unquote_to_bytes"; "DefragResult"; "ParseResult"; "SplitResult";
   "DefragResultBytes"; "ParseResultBytes"; "SplitResultBytes"].

(** [from module import n1, n2, ...] *)
Definition import_from {S} (module : list string) (names : list string) : M S unit :=
  if forallb (fun n => existsb (String.eqb n) module) names
  then ret tt else raise ImportError.

(** Reading a name that is bound in no enclosing scope. *)
Definition unbound_name {S A} (name : string) : M S A := raise (NameError name).

Section WithRuntime.
Context {rt : Runtime}.

(** [_parse_url].  The function assigns [parsed_q] and then reads
    [parsed], a name bound neither in the function, nor at module level,
    nor among the built-ins. *)
Definition _parse_url : M t unit :=
  import_from urllib_parse ["urlparse"; "parses"] ;;
  u <- gets url ;;
  parsed_q <- lift (urlparse u) ;;
  bind (unbound_name "parsed") (fun parsed : url_parts =>
  modify (set_host (u_hostname parsed)) ;;
  modify (set_port
            match u_port parsed with
            | Some p => if p =? 0 then (if String.eqb (u_scheme parsed) "wss" then 443 else 80)
                        else p
            | None => if String.eqb (u_scheme parsed) "wss" then 443 else 80
            end) ;;
  modify (set_path (if String.eqb (u_path parsed) "" then "/" else u_path parsed)) ;;
  (if negb (String.eqb (u_query parsed) "")
   then p <- attr path ;; modify (set_path (p ++ "?" ++ u_query parsed)%string)
   else ret tt) ;;
  modify (set_is_ssl (String.eqb (u_scheme parsed) "wss"))).

(** [_create_websocket_key] *)
Definition _create_websocket_key : M world string :=
  raw <- os_urandom 16 ;;
  ret (b64encode raw).

Definition CRLF : string := String (ascii_of_nat 13) (String (ascii_of_nat 10) EmptyString).

(** [while b"\r\n\r\n" not in response: response += sock.recv(1024)].
    Each read takes a chunk, or 1024 bytes of one; once the peer has closed
    every read is empty and the loop spins for ever. *)
Fixpoint read_response (fuel : nat) (response : bytes) (s : socket)
  : outcome bytes * socket :=
  if bytes_contains (list_byte_of_string (CRLF ++ CRLF)) response then (Ok response, s)
  else match fuel with
       | O => (Hang, s)
       | S n => let (chunk, s') := sock_recv 1024 s in
                read_response n (response ++ chunk) s'
       end.

(** Reads that can still return bytes: one per chunk and per 1024 bytes. *)
Definition pending_reads (s : socket) : nat :=
  fold_right (fun chunk n => S (List.length chunk / 1024) + n)%nat O (inbox s).

(** On the pair of the object and the world. *)
Definition on_ws {A} (c : M t A) : M (t * world) A :=
  zoom fst (fun ws s => (ws, snd s)) c.

Definition on_world {A} (c : M world A) : M (t * world) A :=
  zoom snd (fun w s => (fst s, w)) c.

(** [connect] *)
Definition connect : M (t * world) unit :=
  on_ws _parse_url ;;
  (* Create socket *)
  ssl <- on_ws (attr is_ssl) ;;
  h <- on_ws (attr host) ;;
  (if ssl
   then match h with
        | Some _ => ret tt
        | None => raise ValueError   (* wrap_socket: no server_hostname to check *)
        end
   else ret tt) ;;
  p <- on_ws (attr port) ;;
  match h with
  | Some _ => ret tt
  | None => raise TypeError          (* sock.connect((None, port)) *)
  end ;;
  s <- on_world dial ;;
  on_ws (modify (set_sock (Some s))) ;;
  (* Send WebSocket handshake *)
  key <- on_world _create_websocket_key ;;
  pth <- on_ws (attr path) ;;
  let headers :=
    [("GET " ++ pth ++ " HTTP/1.1")%string;
     ("Host: " ++ match h with Some x => x | None => "None" end)%string;
     "Upgrade: websocket";
     "Connection: Upgrade";
     ("Sec-WebSocket-Key: " ++ key)%string;
     "Sec-WebSocket-Version: 13";
     "";
     ""] in
  on_ws (send_bytes (encode_utf8 (String.concat CRLF headers))) ;;
  (* Read response *)
  response <- on_ws (s <- attr sock ;;
                     let (r, s') := read_response (pending_reads s) [] s in
                     modify (set_sock (Some s')) ;; lift r) ;;
  (* Check response *)
  if negb (bytes_contains (list_byte_of_string "101 Switching Protocols") response)
  then raise (HandshakeFailed (firstn 200 response))
  else on_ws (modify (set_connected true)).

(** [send] *)
Definition send (data : string) : M t unit :=
  c <- gets connected ;;
  if negb c then raise NotConnected else
  (* WebSocket text frame *)
  let payload := encode_utf8 data in
  let length := len payload in
  header <- lift (if length <=? 125 then pack_BB 0x81 length
                  else if length <=? 65535 then pack_BBH 0x81 126 length
                  else pack_BBQ 0x81 127 length) ;;
  send_bytes (header ++ payload).

(** The payload loop of [recv]:
    [while len(payload) < length: chunk = recv(length - len(payload));
       if not chunk: break; payload += chunk].
    Every pass but the last takes a whole chunk, so [fuel] passes are
    enough when [fuel] exceeds the number of chunks. *)
Fixpoint read_payload (fuel : nat) (length : Z) (payload : bytes) (s : socket)
  : bytes * socket :=
  match fuel with
  | O => (payload, s)
  | S n =>
      if len payload <? length then
        let (chunk, s') := sock_recv (length - len payload) s in
        match chunk with
        | [] => (payload, s')
        | _ => read_payload n length (payload ++ chunk) s'
        end
      else (payload, s)
  end.

(** [recv] *)
Definition recv : M t string :=
  c <- gets connected ;;
  if negb c then raise NotConnected else
  (* Read header *)
  header <- recv_bytes 2 ;;
  match header with
  | b0 :: b1 :: _ =>
      let opcode := Z.land (byte_val b0) 0x0f in
      let length := Z.land (byte_val b1) 0x7f in
      length <- (if length =? 126 then d <- recv_bytes 2 ;; lift (unpack_H d)
                 else if length =? 127 then d <- recv_bytes 8 ;; lift (unpack_Q d)
                 else ret length) ;;
      (* Read payload *)
      payload <- (s <- attr sock ;;
                  let (p, s') := read_payload (S (S (List.length (inbox s)))) length [] s in
                  modify (set_sock (Some s')) ;; ret p) ;;
      (* Text frame *)
      if opcode =? 0x81 then lift (decode_utf8 payload)
      (* Close frame *)
      else if opcode =? 0x88 then modify (set_connected false) ;; ret ""
      else ret ""
  | _ => ret ""
  end.

(** [close].  The bare [except:] catches every exception. *)
Definition close : M t unit :=
  s <- gets sock ;;
  match s with
  | Some _ =>
      (fun ws =>
         match (b <- lift (pack_BB 0x88 0) ;; send_bytes b) ws with
         | (Raise _, ws') => (Ok tt, ws')
         | r => r
         end) ;;
      modify (set_sock None)
  | None => ret tt
  end ;;
  modify (set_connected false).

End WithRuntime.

End SimpleWebSocket.

(** ** Module-level constants *)

Definition DEFAULT_CONFIG : dict :=
  [("mempool_url", VStr "wss://mempool.space/api/v1/ws");
   ("webhooks", VDict []);
   ("triggers", VList []);
   ("reconnect_delay", VInt 5)].

(** Map websocket message keys to canonical event names. *)
Definition EVENT_MAP : list (string * string) :=
  [("blocks", "block");
   ("mempool", "mempool");
   ("txs", "tx");
   ("transactions", "tx")].

(** The attributes of the module [datetime] (what [import datetime]
    binds): its constants and classes.  [now] is a method of the class
    [datetime.datetime], not an attribute of the module. *)
Definition datetime_module : list string :=
  ["MAXYEAR"; "MINYEAR"; "UTC"; "date"; "datetime"; "datetime_CAPI";
   "sys"; "time"; "timedelta"; "timezone"; "tzinfo"].

(** [module.name] *)
Definition module_attr {S} (module : list string) (name : string) : M S unit :=
  if existsb (String.eqb name) module then ret tt else raise AttributeError.

(** ** class MempoolMonitor *)

Module MempoolMonitor.

Record t : Type := {
  config_path : string;
  config : dict;
  ws : option SimpleWebSocket.t;
  running : bool;
  subscriptions : list value
}.

(** [__init__], with the dict [load_config] returned. *)
Definition init (path : string) (cfg : dict) : t :=
  {| config_path := path; config := cfg; ws := None;
     running := false; subscriptions := [] |}.

Definition set_ws (x : option SimpleWebSocket.t) (m : t) : t :=
  {| config_path := config_path m; config := config m; ws := x;
     running := running m; subscriptions := subscriptions m |}.

Definition set_running (b : bool) (m : t) : t :=
  {| config_path := config_path m; config := config m; ws := ws m;
     running := b; subscriptions := subscriptions m |}.

Definition set_subscriptions (s : list value) (m : t) : t :=
  {| config_path := config_path m; config := config m; ws := ws m;
     running := running m; subscriptions := s |}.

Section Loading.
Context {rt : Runtime}.

(** [json.load(f)]: the text of the file, decoded. *)
Definition json_load (path : string) : M files value :=
  text <- read_text path ;;
  match json_loads text with
  | Some v => ret v
  | None => raise JSONDecodeError
  end.

(** [load_config].  The state is the local [config] and the file system:
    what [update] inserted before it raised is still in [config] when the
    handler has run. *)
Definition load_config (config_path : string) : M files items :=
  fun fs =>
    let body : M (items * files) unit :=
      found <- zoom snd (fun f s => (fst s, f)) (path_exists config_path) ;;
      if found then
        try_except
          (loaded <- zoom snd (fun f s => (fst s, f)) (json_load config_path) ;;
           zoom fst (fun c s => (c, snd s)) (update loaded))
          (fun e => zoom snd (fun f s => (fst s, f)) (log_load ERROR (MsgLoadFailed e)))
      else ret tt in
    match body (of_dict DEFAULT_CONFIG, fs) with
    | (Ok _, (config, fs')) => (Ok config, fs')
    | (Raise e, (_, fs')) => (Raise e, fs')
    | (Hang, (_, fs')) => (Hang, fs')
    end.

(** [__init__]: the monitor reads its configuration by [str] keys only,
    so its [config] holds the items under such keys. *)
Definition __init__ (config_path : string) : M files t :=
  cfg <- load_config config_path ;;
  ret (init config_path (str_items cfg)).

End Loading.

(** The monitor and the world it runs in. *)
Definition st : Type := t * world.

Definition on_self {A} (c : M t A) : M st A :=
  zoom fst (fun m s => (m, snd s)) c.

Definition on_world {A} (c : M world A) : M st A :=
  zoom snd (fun w s => (fst s, w)) c.

(** [self.ws.<method>(...)]: a monitor without a socket object has
    [self.ws is None], which has no methods. *)
Definition on_ws {A} (c : M SimpleWebSocket.t A) : M st A :=
  fun s =>
    match ws (fst s) with
    | None => (Raise AttributeError, s)
    | Some x => let (o, x') := c x in (o, (set_ws (Some x') (fst s), snd s))
    end.

Definition on_ws_world {A} (c : M (SimpleWebSocket.t * world) A) : M st A :=
  fun s =>
    match ws (fst s) with
    | None => (Raise AttributeError, s)
    | Some x => let (o, r) := c (x, snd s) in (o, (set_ws (Some (fst r)) (fst s), snd r))
    end.

(** [self.config.get(k, default)] *)
Definition config_get (k : string) (default : value) : M st value :=
  gets (fun s => match dict_get (config (fst s)) k with
                 | Some v => v
                 | None => default
                 end).

Definition info (msg : message) : M st unit := on_world (log INFO msg).
Definition warning (msg : message) : M st unit := on_world (log WARNING msg).
Definition error (msg : message) : M st unit := on_world (log ERROR msg).

(** The loop of [get_nested]. *)
Fixpoint descend (keys : list string) (val : value) : value :=
  match keys with
  | [] => val
  | key :: rest =>
      match val with
      | VDict d =>
          if truthy val
          then descend rest (match dict_get d key with Some v => v | None => VNone end)
          else VNone
      | _ => VNone
      end
  end.

(** [get_nested]: a path that is falsy returns the object; a truthy path
    that is no [str] has no [split]. *)
Definition get_nested (obj : value) (path : value) : outcome value :=
  if negb (truthy path) then Ok obj else
  match path with
  | VStr p => Ok (descend (split_on "."%char p) obj)
  | _ => Raise AttributeError
  end.

Section WithRuntime.
Context {rt : Runtime}.

(** [float(value) if value else 0]: the int 0 compares with a float as
    the float zero does. *)
Definition float_or_zero (v : value) : outcome spec_float :=
  if truthy v then py_float v else Ok float_zero.

(** [evaluate_rule] *)
Definition evaluate_rule (rule : value) (event_data : value) : outcome bool :=
  field <~ py_get rule "field" (VStr "") ;;
  value <~ get_nested event_data field ;;
  op <~ py_get rule "operator" (VStr "==") ;;
  target <~ py_get rule "value" VNone ;;
  if py_eq op (VStr "exists") then Ok (negb (is_none value))
  else if py_eq op (VStr "contains") then
    str_contains target (if truthy value then py_str value else "")
  else if py_eq op (VStr "==") then Ok (py_eq value target)
  else if py_eq op (VStr "!=") then Ok (negb (py_eq value target))
  else if py_eq op (VStr ">") then
    l <~ float_or_zero value ;; r <~ py_float target ;; Ok (SFltb r l)
  else if py_eq op (VStr "<") then
    l <~ float_or_zero value ;; r <~ py_float target ;; Ok (SFltb l r)
  else if py_eq op (VStr ">=") then
    l <~ float_or_zero value ;; r <~ py_float target ;; Ok (SFleb r l)
  else if py_eq op (VStr "<=") then
    l <~ float_or_zero value ;; r <~ py_float target ;; Ok (SFleb l r)
  else Ok false.

(** [send_webhook] *)
Definition send_webhook (webhook_name : value) (payload : value) : M st unit :=
  hooks <- config_get "webhooks" (VDict []) ;;
  webhook <- lift (py_get_by hooks webhook_name) ;;
  if negb (truthy webhook) then warning (MsgWebhookNotFound webhook_name) else
  url <- lift (py_get webhook "url" VNone) ;;
  m <- lift (py_get webhook "method" (VStr "POST")) ;;
  method <- match m with
            | VStr s => ret (str_upper s)
            | _ => raise AttributeError
            end ;;
  headers <- lift (py_get webhook "headers" (VDict [])) ;;
  let data := encode_utf8 (json_dumps payload) in
  all_headers <- lift (dict_merge [("Content-Type", VStr "application/json")] headers) ;;
  lift (request_check url) ;;
  try_except
    (timeout <- lift (py_get webhook "timeout" (VInt 10)) ;;
     status <- on_world (urlopen {| rq_url := url; rq_method := method;
                                    rq_headers := all_headers; rq_body := data;
                                    rq_timeout := timeout |}) ;;
     info (MsgWebhookStatus webhook_name url status))
    (fun e => error (MsgWebhookFailed webhook_name e)).

(** The body of the loop of [handle_event], for one rule.  The arguments
    of the call to [send_webhook] are evaluated inside the [try], left to
    right, before the call. *)
Definition handle_rule (event_type : string) (event_data : value) (rule : value)
  : M st unit :=
  ev <- lift (py_get rule "event" VNone) ;;
  if negb (py_eq ev (VStr event_type)) then ret tt (* continue *) else
  matched <- lift (evaluate_rule rule event_data) ;;
  if matched then
    name <- lift (py_get rule "name" VNone) ;;
    info (MsgTrigger name) ;;
    try_except
      (hook <- lift (py_get rule "webhook" VNone) ;;
       name' <- lift (py_get rule "name" VNone) ;;
       module_attr datetime_module "now" ;;
       timestamp <- gets (fun s => clock (snd s)) ;;
       send_webhook hook
         (VDict [("event", VStr event_type);
                 ("rule", name');
                 ("data", event_data);
                 ("timestamp", VInt timestamp)]))
      (fun e => ret tt)
  else ret tt.

(** [handle_event] *)
Definition handle_event (event_type : string) (event_data : value) : M st unit :=
  triggers <- config_get "triggers" (VList []) ;;
  rules <- lift (py_iter triggers) ;;
  for_each rules (handle_rule event_type event_data).

(** [subscribe] *)
Definition subscribe (event : value) : M st unit :=
  subs <- gets (fun s => subscriptions (fst s)) ;;
  known <- lift (set_mem event subs) ;;
  if known then ret tt else
  let msg := json_dumps (VDict [("action", VStr "want"); ("data", VList [event])]) in
  on_ws (SimpleWebSocket.send msg) ;;
  subs' <- gets (fun s => subscriptions (fst s)) ;;
  added <- lift (set_add event subs') ;;
  on_self (modify (set_subscriptions added)) ;;
  info (MsgSub event).

(** [events = set(); for rule in triggers: events.add(rule.get("event"))] *)
Fixpoint collect_events (rules : list value) (events : list value)
  : outcome (list value) :=
  match rules with
  | [] => Ok events
  | rule :: rest =>
      ev <~ py_get rule "event" VNone ;;
      events' <~ set_add ev events ;;
      collect_events rest events'
  end.

(** The rest of [connect], from the line after [self.ws.connect()]. *)
Definition on_connected : M st unit :=
  on_self (modify (set_running true)) ;;
  info MsgConnected ;;
  (* Subscribe to events from triggers *)
  triggers <- config_get "triggers" (VList []) ;;
  rules <- lift (py_iter triggers) ;;
  events <- lift (collect_events rules []) ;;
  for_each events subscribe.

(** [connect] *)
Definition connect : M st unit :=
  default <- lift (py_getitem (VDict DEFAULT_CONFIG) "mempool_url") ;;
  url <- config_get "mempool_url" default ;;
  info (MsgConnecting url) ;;
  on_self (modify (set_ws (Some (SimpleWebSocket.init url)))) ;;
  on_ws_world SimpleWebSocket.connect ;;
  on_connected.

(** The routing of one decoded message in [run]:
    [for key, event_type in EVENT_MAP.items(): if key in data: ...] *)
Definition route (data : value) : M st unit :=
  for_each EVENT_MAP (fun entry =>
    let (key, event_type) := entry in
    present <- lift (py_in key data) ;;
    if present then
      event_data <- lift (py_getitem data key) ;;
      handle_event event_type
        (if is_list event_data then VDict [(key, event_data)] else event_data)
    else ret tt).

(** What the inner loop of [run] does with a received text:
    [if msg: data = json.loads(msg); for key, event_type in ...] *)
Definition on_message (msg : string) : M st unit :=
  if negb (String.eqb msg "")
  then match json_loads msg with
       | Some data => route data
       | None => raise JSONDecodeError
       end
  else ret tt.

(** One pass of the inner loop of [run]: the [try] and its handler.
    [true] goes round again, [false] is the [break]. *)
Definition receive_once : M st bool :=
  try_except
    (msg <- on_ws SimpleWebSocket.recv ;;
     on_message msg ;;
     ret true)
    (fun e => error (MsgError e) ;; ret false).

(** [self.running and self.ws.connected] *)
Definition still_receiving : M st bool :=
  r <- gets (fun s => running (fst s)) ;;
  if r then on_ws (gets SimpleWebSocket.connected) else ret false.

(** [while self.running and self.ws.connected: ...].  [None]: the loop
    was still going when the fuel ran out. *)
Fixpoint receive_loop (fuel : nat) (s : st) : option (outcome unit * st) :=
  match fuel with
  | O => None
  | S n =>
      match still_receiving s with
      | (Ok true, s1) =>
          match receive_once s1 with
          | (Ok true, s2) => receive_loop n s2
          | (Ok false, s2) => Some (Ok tt, s2)
          | (Raise e, s2) => Some (Raise e, s2)
          | (Hang, s2) => Some (Hang, s2)
          end
      | (Ok false, s1) => Some (Ok tt, s1)
      | (Raise e, s1) => Some (Raise e, s1)
      | (Hang, s1) => Some (Hang, s1)
      end
  end.

(** The handler of the outer [try] of [run]. *)
Definition on_connection_error (reconnect_delay : value) (e : exn) : M st unit :=
  error (MsgConnectionError e) ;;
  info (MsgReconnecting reconnect_delay) ;;
  on_world (time_sleep reconnect_delay).

(** [while self.running: try: ... except Exception as e: ...] *)
Fixpoint run_loop (fuel : nat) (reconnect_delay : value) (s : st)
  : option (outcome unit * st) :=
  match fuel with
  | O => None
  | S n =>
      if running (fst s) then
        let attempt :=
          match connect s with
          | (Ok _, s1) => receive_loop n s1
          | (Raise e, s1) => Some (Raise e, s1)
          | (Hang, s1) => Some (Hang, s1)
          end in
        match attempt with
        | None => None
        | Some (Ok _, s2) => run_loop n reconnect_delay s2
        | Some (Raise e, s2) =>
            if is_Exception e then
              match on_connection_error reconnect_delay e s2 with
              | (Ok _, s3) => run_loop n reconnect_delay s3
              | (Raise e', s3) => Some (Raise e', s3)
              | (Hang, s3) => Some (Hang, s3)
              end
            else Some (Raise e, s2)
        | Some (Hang, s2) => Some (Hang, s2)
        end
      else Some (Ok tt, s)
  end.

(** [run] *)
Definition run (fuel : nat) (s : st) : option (outcome unit * st) :=
  match (info MsgStarting ;;
         path <- gets (fun s => config_path (fst s)) ;;
         info (MsgConfig path) ;;
         config_get "reconnect_delay" (VInt 5)) s with
  | (Ok reconnect_delay, s1) => run_loop fuel reconnect_delay s1
  | (Raise e, s1) => Some (Raise e, s1)
  | (Hang, s1) => Some (Hang, s1)
  end.

End WithRuntime.

End MempoolMonitor.

(** ** [main] *)

(** The option loop of [main]:
    [for opt, arg in opts: if opt in ("-c", "--config"): config_path = arg],
    over the list [getopt.getopt(sys.argv[1:], "c:", ["config="])]
    returned; [None] when it raised GetoptError, which leaves the default. *)
Definition config_path_of (opts : option (list (string * string))) : string :=
  match opts with
  | Some l =>
      fold_left (fun config_path oa =>
                   if String.eqb (fst oa) "-c" || String.eqb (fst oa) "--config"
                   then snd oa else config_path)
                l "config.json"
  | None => "config.json"
  end.

(** [main], for the configuration path read from the command line and
    the dict [load_config] returns for it. *)
Definition main {rt : Runtime} (fuel : nat) (config_path : string) (cfg : dict)
  (w : world) : option (outcome unit * MempoolMonitor.st) :=
  match MempoolMonitor.run fuel (MempoolMonitor.init config_path cfg, w) with
  | Some (Raise KeyboardInterrupt, s) =>
      Some ((MempoolMonitor.info MsgShuttingDown ;;
             MempoolMonitor.on_self (modify (MempoolMonitor.set_running false)) ;;
             x <- gets (fun s => MempoolMonitor.ws (fst s)) ;;
             match x with
             | Some _ => MempoolMonitor.on_ws SimpleWebSocket.close
             | None => ret tt
             end) s)
  | r => r
  end.

(** * Vocabulary of the statements *)

(** ** Sample inputs *)

(** One runtime, to state closed examples.  Every example that mentions it
    is also proved for an arbitrary runtime. *)
Definition example_runtime : Runtime :=
  {| float_of_str := fun _ => None;
     float_repr := fun _ => "nan";
     str_repr := fun s => s;
     str_upper := fun s => s;
     json_loads := fun _ => None;
     json_dumps := fun _ => "{}";
     urlparse := fun _ => Raise ValueError;
     request_check := fun _ => Ok tt;
     sleep_check := fun _ => Ok tt |}.

(** A world in which nothing has happened and nothing answers. *)
Definition quiet_world : world :=
  {| trace := []; dials := []; replies := [];
     urandom := fun _ => []; urandom_calls := O; clock := 0 |}.

(** A connected [SimpleWebSocket] whose peer will send [chunks]. *)
Definition wire (chunks : list bytes) : SimpleWebSocket.t :=
  SimpleWebSocket.set_connected true
    (SimpleWebSocket.set_sock (Some {| inbox := chunks; outbox := [] |})
       (SimpleWebSocket.init (VStr "ws://feed.example/"))).

(** The bytes [send s] writes on a connected socket. *)
Definition written_by_send (s : string) : bytes :=
  match SimpleWebSocket.sock (snd (SimpleWebSocket.send s (wire []))) with
  | Some sk => outbox sk
  | None => []
  end.

(** [n] copies of the letter a. *)
Fixpoint letters (n : nat) : string :=
  match n with
  | O => EmptyString
  | S k => String "a"%char (letters k)
  end.

(** ** Frames of code on a [SimpleWebSocket] *)

(** The code leaves [connected] as it found it. *)
Definition keeps_connected {A} (c : M SimpleWebSocket.t A) : Prop :=
  forall ws, SimpleWebSocket.connected (snd (c ws)) = SimpleWebSocket.connected ws.

(** The code, when it returns, returns the empty string. *)
Definition returns_no_text (c : M SimpleWebSocket.t string) : Prop :=
  forall ws, match fst (c ws) with
             | Ok msg => msg = ""
             | _ => True
             end.

(** ** Rules *)

(** [rule.get("field", "")] for a rule with the items [d]. *)
Definition rule_field (d : dict) : value :=
  match dict_get d "field" with
  | Some path => path
  | None => VStr ""
  end.

(** The text the operator [contains] searches: the string form of the
    resolved value, or the empty string when the value is falsy. *)
Definition searched_text {rt : Runtime} (resolved : value) : string :=
  if truthy resolved then py_str resolved else "".

(** The rule [{"field": "n", "operator": "contains", "value": "0"}] and the
    payload [{"n": 0}]. *)
Definition contains_zero_rule : value :=
  VDict [("field", VStr "n"); ("operator", VStr "contains"); ("value", VStr "0")].

Definition zero_payload : value := VDict [("n", VInt 0)].

(** ** What a run leaves in the world *)

(** The HTTP requests issued so far. *)
Definition requests (w : world) : list http_request :=
  flat_map (fun e => match e with Requested rq => [rq] | _ => [] end) (trace w).

(** The messages logged so far at a given level. *)
Definition same_level (a b : level) : bool :=
  match a, b with
  | INFO, INFO | WARNING, WARNING | ERROR, ERROR => true
  | _, _ => false
  end.

Definition logged (lv : level) (w : world) : list message :=
  flat_map (fun e => match e with
                     | Logged lv' msg => if same_level lv lv' then [msg] else []
                     | _ => []
                     end) (trace w).

(** What [handle_event] does for one rule, read off the code: the rule's
    event is compared, the rule is evaluated, and a match is logged.
    Nothing else happens: the dispatch that follows raises AttributeError
    while its arguments are evaluated, and the handler discards it. *)
Definition rule_effect {rt : Runtime} (event_type : string) (event_data rule : value)
  (s : MempoolMonitor.st) : outcome unit * MempoolMonitor.st :=
  match py_get rule "event" VNone with
  | Ok ev =>
      if py_eq ev (VStr event_type) then
        match MempoolMonitor.evaluate_rule rule event_data with
        | Ok true =>
            (Ok tt,
             (fst s,
              emit (Logged INFO
                      (MsgTrigger (match py_get rule "name" VNone with
                                   | Ok n => n
                                   | _ => VNone
                                   end)))
                   (snd s)))
        | Ok false => (Ok tt, s)
        | Raise e => (Raise e, s)
        | Hang => (Hang, s)
        end
      else (Ok tt, s)
  | Raise e => (Raise e, s)
  | Hang => (Hang, s)
  end.

(** A monitor as [__init__] leaves it, for a configuration with the given
    triggers and webhooks. *)
Definition monitor_with (triggers : list value) (webhooks : dict) : MempoolMonitor.t :=
  MempoolMonitor.init "config.json"
    [("mempool_url", VStr "wss://mempool.space/api/v1/ws");
     ("webhooks", VDict webhooks);
     ("triggers", VList triggers);
     ("reconnect_delay", VInt 5)].

(** A rule on the category "block" that matches when [field] is present. *)
Definition block_rule (name field webhook : string) : value :=
  VDict [("name", VStr name); ("event", VStr "block"); ("field", VStr field);
         ("operator", VStr "exists"); ("webhook", VStr webhook)].

(** The rule [{"name": "deep", "event": "block", "field": "extras",
    "operator": ">", "value": 1, "webhook": "hook"}]. *)
Definition extras_rule : value :=
  VDict [("name", VStr "deep"); ("event", VStr "block"); ("field", VStr "extras");
         ("operator", VStr ">"); ("value", VInt 1); ("webhook", VStr "hook")].

(** The block [{"height": 5, "extras": {"reward": 1}}]. *)
Definition a_block : value :=
  VDict [("height", VInt 5); ("extras", VDict [("reward", VInt 1)])].

(** The endpoint [{"url": "http://hooks.example/block"}]. *)
Definition a_hook : value := VDict [("url", VStr "http://hooks.example/block")].

(** What [handle_event] keeps: the monitor, the requests issued, the
    replies still to come, and the warnings logged. *)
Definition dispatch_footprint (s : MempoolMonitor.st)
  : MempoolMonitor.t * list http_request * list (outcome Z) * list message :=
  (fst s, requests (snd s), replies (snd s), logged WARNING (snd s)).

(** ** Subscriptions *)

(** The category is in the monitor's subscription set. *)
Definition subscribed (e : value) (m : MempoolMonitor.t) : Prop :=
  set_mem e (MempoolMonitor.subscriptions m) = Ok true.

(** A monitor whose socket object has been replaced, as [connect] does
    before each handshake. *)
Definition with_socket (x : SimpleWebSocket.t) (s : MempoolMonitor.st) : MempoolMonitor.st :=
  (MempoolMonitor.set_ws (Some x) (fst s), snd s).

(** The monitor of the example: one rule on the category "block", and a
    connected socket whose peer is silent. *)
Definition first_connection : MempoolMonitor.st :=
  with_socket (wire []) (monitor_with [block_rule "tall" "height" "hook"] [], quiet_world).

(** ** Routing *)

(** The events a decoded object gives rise to: for each key of the
    category map that the object holds, in the order of the map, the
    category and the payload handed to [handle_event] (a list is wrapped
    in an object under its own key). *)
Definition routed_events (d : dict) : list (string * value) :=
  flat_map (fun entry : string * string =>
              let (key, category) := entry in
              match dict_get d key with
              | Some v => [(category, if is_list v then VDict [(key, v)] else v)]
              | None => []
              end)
           EVENT_MAP.

(** The monitor of the routing example: one rule on the category
    "block" that matches any payload holding the field "block". *)
Definition block_watcher : MempoolMonitor.st :=
  (monitor_with [block_rule "seen" "block" "hook"] [], quiet_world).

(** ** The supervisor loop *)

(** The two lines [run] logs before its loop. *)
Definition announced (path : string) (w : world) : world :=
  emit (Logged INFO (MsgConfig path)) (emit (Logged INFO MsgStarting) w).


(** The URL [connect] reads from the configuration. *)
Definition feed_url (m : MempoolMonitor.t) : value :=
  match dict_get (MempoolMonitor.config m) "mempool_url" with
  | Some v => v
  | None => VStr "wss://mempool.space/api/v1/ws"
  end.

(** ** Frames *)

(** The header of a text frame for a payload of [n] bytes: the length
    inline up to 125, in 16 bits up to 65535, in 64 bits above. *)
Definition text_header (n : Z) : bytes :=
  if n <=? 125 then [x81; byte_of_Z n]
  else if n <=? 65535 then [x81; x7e] ++ be_bytes 2 n
  else [x81; x7f] ++ be_bytes 8 n.

(** The end of the HTTP response headers. *)
Definition terminator : bytes :=
  list_byte_of_string (SimpleWebSocket.CRLF ++ SimpleWebSocket.CRLF).

(** The operators [evaluate_rule] knows. *)
Definition known_operators : list string :=
  ["exists"; "contains"; "=="; "!="; ">"; "<"; ">="; "<="].

(** The payload [{"a": {"b": 5}}]. *)
Definition nested_payload : value := VDict [("a", VDict [("b", VInt 5)])].

(** The subscription request for a category. *)
Definition want_message {rt : Runtime} (e : value) : string :=
  json_dumps (VDict [("action", VStr "want"); ("data", VList [e])]).

(** A monitor whose flag has been set by hand, for a configuration with
    no rules. *)
Definition started_monitor : MempoolMonitor.t :=
  MempoolMonitor.set_running true (monitor_with [] []).

(** The rule [{"field": "height", "operator": "~="}]. *)
Definition odd_rule : value :=
  VDict [("field", VStr "height"); ("operator", VStr "~=")].

(** ** Frames, byte by byte *)

(** The frame [send] writes for a text: the header for its length, then
    its UTF-8 encoding. *)
Definition frame_of (s : string) : bytes :=
  text_header (len (encode_utf8 s)) ++ encode_utf8 s.

(** The width in bytes of the extended length field that the second byte
    of a header announces, if it announces one. *)
Definition length_field_width (b1 : byte) : option nat :=
  if Z.land (byte_val b1) 0x7f =? 126 then Some 2%nat
  else if Z.land (byte_val b1) 0x7f =? 127 then Some 8%nat
  else None.

(** A monitor whose flag is set and whose socket object is [x]. *)
Definition receiving (x : SimpleWebSocket.t) : MempoolMonitor.t :=
  MempoolMonitor.set_ws (Some x) started_monitor.

(** ** Rules, once more *)

(** [rule.get("value")] for a rule with the items [d]. *)
Definition rule_target (d : dict) : value :=
  match dict_get d "value" with
  | Some v => v
  | None => VNone
  end.

(** The operators that compare as numbers. *)
Definition numeric_operators : list string := [">"; "<"; ">="; "<="].

(** ** Endpoints *)

(** [self.config.get("webhooks", {})] *)
Definition configured_hooks (m : MempoolMonitor.t) : value :=
  match dict_get (MempoolMonitor.config m) "webhooks" with
  | Some v => v
  | None => VDict []
  end.

(** The request [send_webhook] builds for an endpoint that configures
    nothing but its URL: POST, the JSON payload, the one header, and a
    timeout of ten seconds. *)
Definition plain_request {rt : Runtime} (url payload : value) : http_request :=
  {| rq_url := url;
     rq_method := str_upper "POST";
     rq_headers := [("Content-Type", VStr "application/json")];
     rq_body := encode_utf8 (json_dumps payload);
     rq_timeout := VInt 10 |}.

(** The world once [urlopen] has taken the next reply. *)
Definition answered (w : world) : world :=
  {| trace := trace w; dials := dials w; replies := tl (replies w);
     urandom := urandom w; urandom_calls := urandom_calls w; clock := clock w |}.

(** The world after a list of events, in order. *)
Definition emit_all (es : list event) (w : world) : world :=
  fold_left (fun w e => emit e w) es w.

(** ** Matches *)

(** Whether [handle_event] finds that a rule matches an event: the
    rule's event is compared first, and the rule is evaluated only when
    it is the event's. *)
Definition rule_matches {rt : Runtime} (event_type : string) (event_data rule : value)
  : outcome bool :=
  ev <~ py_get rule "event" VNone ;;
  if py_eq ev (VStr event_type)
  then MempoolMonitor.evaluate_rule rule event_data
  else Ok false.

(** The line logged for a rule that matched. *)
Definition match_line (rule : value) : event :=
  Logged INFO (MsgTrigger (match py_get rule "name" VNone with
                           | Ok n => n
                           | _ => VNone
                           end)).

(** The lines logged for a list of rules: one per rule that matches, in
    the order of the rules. *)
Definition match_lines {rt : Runtime} (event_type : string) (event_data : value)
  (rules : list value) : list event :=
  flat_map (fun rule => match rule_matches event_type event_data rule with
                        | Ok true => [match_line rule]
                        | _ => []
                        end) rules.

(** ** Categories *)




(** ** The supervisor, once more *)

(** [self.config.get("reconnect_delay", 5)] *)
Definition reconnect_delay_of (m : MempoolMonitor.t) : value :=
  match dict_get (MempoolMonitor.config m) "reconnect_delay" with
  | Some v => v
  | None => VInt 5
  end.

(** ** Loading the configuration *)

(** The file system after [load_config] has logged a failure. *)
Definition load_failed (e : exn) (fs : files) : files :=
  {| present := present fs; contents := contents fs;
     load_log := load_log fs ++ [(ERROR, MsgLoadFailed e)] |}.

(** A decoded value that is not iterable: null, a boolean, a number. *)
Definition is_scalar (v : value) : bool :=
  match v with
  | VNone | VBool _ | VInt _ | VFloat _ => true
  | _ => false
  end.

(** An option that names the configuration file. *)
Definition names_config (oa : string * string) : bool :=
  String.eqb (fst oa) "-c" || String.eqb (fst oa) "--config".

(** ** Sample inputs, once more *)

(** A runtime whose [json.loads] decodes every text to [v]. *)
Definition decoding_runtime (v : value) : Runtime :=
  {| float_of_str := fun _ => None;
     float_repr := fun _ => "nan";
     str_repr := fun s => s;
     str_upper := fun s => s;
     json_loads := fun _ => Some v;
     json_dumps := fun _ => "{}";
     urlparse := fun _ => Raise ValueError;
     request_check := fun _ => Ok tt;
     sleep_check := fun _ => Ok tt |}.

(** A runtime whose [time.sleep] takes numbers only. *)
Definition strict_runtime : Runtime :=
  {| float_of_str := fun _ => None;
     float_repr := fun _ => "nan";
     str_repr := fun s => s;
     str_upper := fun s => s;
     json_loads := fun _ => None;
     json_dumps := fun _ => "{}";
     urlparse := fun _ => Raise ValueError;
     request_check := fun _ => Ok tt;
     sleep_check := fun v => match v with
                             | VInt _ | VFloat _ | VBool _ => Ok tt
                             | _ => Raise TypeError
                             end |}.

(** A file system that holds one file, "config.json", with some text. *)
Definition a_disk : files :=
  {| present := fun path => String.eqb path "config.json";
     contents := fun path =>
                   if String.eqb path "config.json" then Ok "{...}" else Raise OSError;
     load_log := [] |}.

(** The object [{"reconnect_delay": 30, "webhooks": {"hook": {...}}}]. *)
Definition a_config : dict :=
  [("reconnect_delay", VInt 30); ("webhooks", VDict [("hook", a_hook)])].

(** A world whose server answers the next request with 200. *)
Definition answering_world : world :=
  {| trace := []; dials := []; replies := [Ok 200];
     urandom := fun _ => []; urandom_calls := O; clock := 0 |}.

(** A world whose entropy source delivers sixteen bytes at a time. *)
Definition seeded_world : world :=
  {| trace := []; dials := []; replies := [];
     urandom := fun n => repeat (byte_of_Z (Z.of_nat n)) 16;
     urandom_calls := O; clock := 0 |}.

(** A monitor whose flag is set and whose delay is the string "5". *)
Definition misconfigured_monitor : MempoolMonitor.t :=
  MempoolMonitor.set_running true
    (MempoolMonitor.init "config.json" [("reconnect_delay", VStr "5")]).

(** Two rules on the category "block", one on "tx". *)
Definition three_rules : list value :=
  [block_rule "tall" "height" "hook";
   VDict [("name", VStr "paid"); ("event", VStr "tx"); ("field", VStr "fee");
          ("operator", VStr "exists"); ("webhook", VStr "hook")];
   block_rule "deep" "extras" "hook"].

(** The rule [{"field": "height", "operator": ">"}], which has no value. *)
Definition valueless_rule : dict :=
  [("field", VStr "height"); ("operator", VStr ">")].

(** The rule [{"field": "fee", "operator": "<", "value": 1}]. *)
Definition cheap_rule : dict :=
  [("field", VStr "fee"); ("operator", VStr "<"); ("value", VInt 1)].

(** The rule [{"field": "fee"}]. *)
Definition bare_rule : dict := [("field", VStr "fee")].

(** * Properties *)

(** ** SimpleWebSocket: the handshake never starts *)

Section Handshake.
Context {rt : Runtime}.

Lemma import_of_parses_fails (S : Type) (s : S) :
  SimpleWebSocket.import_from SimpleWebSocket.urllib_parse ["urlparse"; "parses"] s
  = (Raise ImportError, s).
Proof. reflexivity. Qed.

Lemma parse_url_raises (ws : SimpleWebSocket.t) :
  SimpleWebSocket._parse_url ws = (Raise ImportError, ws).
Proof.
  unfold SimpleWebSocket._parse_url, bind.
  rewrite import_of_parses_fails. reflexivity.
Qed.

Lemma ws_connect_raises (ws : SimpleWebSocket.t) (w : world) :
  SimpleWebSocket.connect (ws, w) = (Raise ImportError, (ws, w)).
Proof.
  unfold SimpleWebSocket.connect, bind, SimpleWebSocket.on_ws, zoom.
  cbn [fst snd]. rewrite parse_url_raises. reflexivity.
Qed.

(** C3: for every URL, and for every state of the object and of the
    world, [_parse_url] raises ImportError, so [connect] raises it too,
    before any socket is opened or any byte is sent: the object and the
    world are left as they were, and a new object stays unconnected. *)
Theorem connect_always_raises (u : value) (ws : SimpleWebSocket.t) (w : world) :
  SimpleWebSocket._parse_url ws = (Raise ImportError, ws)
  /\ SimpleWebSocket.connect (ws, w) = (Raise ImportError, (ws, w))
  /\ SimpleWebSocket.connected
       (fst (snd (SimpleWebSocket.connect (SimpleWebSocket.init u, w)))) = false.
Proof.
  split; [apply parse_url_raises |].
  split; [apply ws_connect_raises |].
  rewrite ws_connect_raises. reflexivity.
Qed.

End Handshake.

(** ** SimpleWebSocket: what [recv] makes of a frame *)

Section Frames.

Import SimpleWebSocket.

(** The opcode [recv] computes is the low nibble of the first byte, at
    most 15: it is never 0x81 and never 0x88. *)
Lemma opcode_is_a_nibble (b : byte) :
  (Z.land (byte_val b) 0x0f =? 0x81) = false
  /\ (Z.land (byte_val b) 0x0f =? 0x88) = false.
Proof.
  assert (H : 0 <= Z.land (byte_val b) 0x0f < 16).
  { change 0x0f with (Z.ones 4). rewrite Z.land_ones by lia.
    apply Z.mod_pos_bound. lia. }
  split; apply Z.eqb_neq; lia.
Qed.

Lemma keeps_bind {A B} (c : M t A) (k : A -> M t B) :
  keeps_connected c -> (forall a, keeps_connected (k a)) -> keeps_connected (bind c k).
Proof.
  intros Hc Hk ws. unfold bind. specialize (Hc ws).
  destruct (c ws) as [[a | e |] ws']; simpl in *; try assumption.
  rewrite Hk. assumption.
Qed.

Lemma keeps_ret {A} (a : A) : keeps_connected (ret a).
Proof. intro ws. reflexivity. Qed.

Lemma keeps_raise {A} (e : exn) : keeps_connected (@raise t A e).
Proof. intro ws. reflexivity. Qed.

Lemma keeps_lift {A} (o : outcome A) : keeps_connected (lift o).
Proof. intro ws. reflexivity. Qed.

Lemma keeps_gets {A} (f : t -> A) : keeps_connected (gets f).
Proof. intro ws. reflexivity. Qed.

Lemma keeps_attr {A} (f : t -> option A) : keeps_connected (attr f).
Proof. intro ws. unfold attr. destruct (f ws); reflexivity. Qed.

Lemma keeps_set_sock (x : option socket) : keeps_connected (modify (set_sock x)).
Proof. intro ws. reflexivity. Qed.

Lemma keeps_recv_bytes (n : Z) : keeps_connected (recv_bytes n).
Proof.
  unfold recv_bytes. apply keeps_bind; [apply keeps_attr | intros s].
  destruct (sock_recv n s).
  apply keeps_bind; [apply keeps_set_sock | intro; apply keeps_ret].
Qed.

Create HintDb frames.
#[local] Hint Resolve keeps_ret keeps_raise keeps_lift keeps_gets keeps_attr
  keeps_set_sock keeps_recv_bytes : frames.

(** One step through a sequence: the first statement by a lemma of the
    database, the rest under its binder. *)
Ltac keeps_step := apply keeps_bind; [solve [auto with frames] | intros ?].

Lemma no_text_bind {A} (c : M t A) (k : A -> M t string) :
  (forall a, returns_no_text (k a)) -> returns_no_text (bind c k).
Proof.
  intros Hk ws. unfold bind.
  destruct (c ws) as [[a | e |] ws']; simpl; try exact I.
  apply Hk.
Qed.

Lemma no_text_ret : returns_no_text (ret "").
Proof. intro ws. reflexivity. Qed.

Lemma no_text_raise (e : exn) : returns_no_text (raise e).
Proof. intro ws. exact I. Qed.

(** Whatever the socket holds, [recv] leaves [connected] alone: the
    branch that clears it tests the nibble against 0x88. *)
Lemma recv_keeps_connected : keeps_connected recv.
Proof.
  unfold recv.
  apply keeps_bind; [auto with frames | intros c].
  destruct (negb c); [auto with frames |].
  apply keeps_bind; [auto with frames | intros header].
  destruct header as [| b0 [| b1 rest]]; auto with frames.
  apply keeps_bind.
  - destruct (_ =? 126); [| destruct (_ =? 127)].
    + keeps_step. auto with frames.
    + keeps_step. auto with frames.
    + auto with frames.
  - intros length. apply keeps_bind.
    + apply keeps_bind; [auto with frames | intros s].
      destruct (read_payload _ _ _ _).
      keeps_step. auto with frames.
    + intros payload. destruct (opcode_is_a_nibble b0) as [H1 H2].
      rewrite H1, H2. auto with frames.
Qed.

(** Whatever the socket holds, [recv] returns the empty string when it
    returns: the branch that decodes the payload tests the nibble against
    0x81. *)
Lemma recv_returns_no_text : returns_no_text recv.
Proof.
  unfold recv.
  apply no_text_bind. intros c.
  destruct (negb c); [apply no_text_raise |].
  apply no_text_bind. intros header.
  destruct header as [| b0 [| b1 rest]]; try apply no_text_ret.
  apply no_text_bind. intros length.
  apply no_text_bind. intros payload.
  destruct (opcode_is_a_nibble b0) as [H1 H2]. rewrite H1, H2.
  apply no_text_ret.
Qed.

(** [send] on a connected socket writes one text frame: the header for
    the length of the payload, then the payload. *)
Lemma send_writes_frame (s : string) (ws : t) (sk : socket) :
  connected ws = true ->
  sock ws = Some sk ->
  len (encode_utf8 s) < 2 ^ 64 ->
  send s ws
  = (Ok tt,
     set_sock (Some (sock_send (text_header (len (encode_utf8 s)) ++ encode_utf8 s) sk)) ws).
Proof.
  intros Hc Hs Hlen. unfold send, bind at 1, gets. rewrite Hc. cbn [negb].
  assert (H0 : 0 <= len (encode_utf8 s)) by (unfold len; lia).
  set (n := len (encode_utf8 s)) in *.
  unfold text_header, bind, lift, send_bytes, attr, bind, modify.
  destruct (n <=? 125) eqn:H125; [| destruct (n <=? 65535) eqn:H16].
  - apply Z.leb_le in H125.
    unfold pack_BB, in_range.
    replace ((0 <=? n) && (n <? 2 ^ 8)) with true
      by (symmetry; apply andb_true_iff; split; [apply Z.leb_le | apply Z.ltb_lt]; lia).
    cbn [andb]. rewrite Hs.
    replace (be_bytes 1 n) with [byte_of_Z n]
      by (cbn [be_bytes]; rewrite Z.shiftr_0_r; reflexivity).
    reflexivity.
  - apply Z.leb_le in H16.
    unfold pack_BBH, in_range.
    replace ((0 <=? n) && (n <? 2 ^ 16)) with true
      by (symmetry; apply andb_true_iff; split; [apply Z.leb_le | apply Z.ltb_lt]; lia).
    cbn [andb]. rewrite Hs. reflexivity.
  - unfold pack_BBQ, in_range.
    replace ((0 <=? n) && (n <? 2 ^ 64)) with true
      by (symmetry; apply andb_true_iff; split; [apply Z.leb_le | apply Z.ltb_lt]; lia).
    cbn [andb]. rewrite Hs. reflexivity.
Qed.

(** The header is two bytes long up to 125 bytes of payload, four up to
    65535, ten above. *)
Lemma text_header_length (n : Z) :
  List.length (text_header n)
  = if n <=? 125 then 2%nat else if n <=? 65535 then 4%nat else 10%nat.
Proof.
  unfold text_header.
  destruct (n <=? 125); [| destruct (n <=? 65535)]; reflexivity.
Qed.

(** X1: the length encoding of [send] is the least that fits.  On a
    connected socket [send] appends one frame to what was written: the
    header for the length of the payload, which is two bytes long for a
    payload of up to 125 bytes, four up to 65535, ten above, and then the
    payload. *)
Theorem length_encoding_is_minimal (s : string) (ws : t) (sk : socket) :
  connected ws = true ->
  sock ws = Some sk ->
  len (encode_utf8 s) < 2 ^ 64 ->
  send s ws
  = (Ok tt,
     set_sock (Some (sock_send (text_header (len (encode_utf8 s)) ++ encode_utf8 s) sk)) ws)
  /\ List.length (text_header (len (encode_utf8 s)))
     = (if len (encode_utf8 s) <=? 125 then 2%nat
        else if len (encode_utf8 s) <=? 65535 then 4%nat else 10%nat).
Proof.
  intros Hc Hs Hlen. split.
  - apply send_writes_frame; assumption.
  - apply text_header_length.
Qed.

(** The headers at the lengths where the width changes. *)
Lemma header_widths :
  text_header 125 = [x81; x7d]
  /\ text_header 126 = [x81; x7e; x00; x7e]
  /\ text_header 65535 = [x81; x7e; xff; xff]
  /\ text_header 65536 = [x81; x7f; x00; x00; x00; x00; x00; x01; x00; x00].
Proof. repeat split. Qed.

(** The payload loop of [recv] has fuel to spare: one more pass changes
    nothing once the fuel exceeds the number of chunks. *)
Lemma read_payload_step (n : nat) (L : Z) (p : bytes) (s : socket) :
  read_payload (S n) L p s
  = if len p <? L then
      let (chunk, s') := sock_recv (L - len p) s in
      match chunk with
      | [] => (p, s')
      | _ => read_payload n L (p ++ chunk) s'
      end
    else (p, s).
Proof. reflexivity. Qed.

Lemma read_payload_full (n : nat) (L : Z) (p : bytes) (s : socket) :
  (len p <? L) = false -> read_payload n L p s = (p, s).
Proof.
  intros H. destruct n; [reflexivity |]. rewrite read_payload_step, H. reflexivity.
Qed.

Lemma read_payload_fuel (n : nat) (L : Z) (p : bytes) (s : socket) :
  (List.length (inbox s) < n)%nat ->
  read_payload n L p s = read_payload (S n) L p s.
Proof.
  revert p s. induction n as [| n IH]; intros p s Hn; [lia |].
  rewrite (read_payload_step (S n)), (read_payload_step n).
  destruct (len p <? L) eqn:Hlt; [| reflexivity].
  unfold sock_recv. destruct s as [box out]. cbn [inbox outbox] in *.
  destruct box as [| c rest]; [reflexivity |].
  cbn [List.length] in Hn.
  destruct (len c <=? L - len p) eqn:Hfit.
  - destruct c as [| b c]; [reflexivity |].
    apply IH. cbn [inbox]. lia.
  - destruct (firstn _ c) as [| b c'] eqn:Hfirst; [reflexivity |].
    rewrite <- Hfirst.
    assert (Hfull : (len (p ++ firstn (Z.to_nat (L - len p)) c) <? L) = false).
    { apply Z.ltb_ge. unfold len in *. apply Z.leb_gt in Hfit. apply Z.ltb_lt in Hlt.
      rewrite length_app, firstn_length_le by lia. lia. }
    rewrite !read_payload_full by exact Hfull. reflexivity.
Qed.

(** The response loop of [connect]: once the peer has closed, it spins;
    and the fuel [connect] gives it covers every read that can still
    return bytes. *)
Lemma read_response_step (n : nat) (r : bytes) (s : socket) :
  read_response n r s
  = if bytes_contains terminator r then (Ok r, s)
    else match n with
         | O => (Hang, s)
         | S k => let (chunk, s') := sock_recv 1024 s in
                  read_response k (r ++ chunk) s'
         end.
Proof. destruct n; reflexivity. Qed.

Lemma read_response_spins (n : nat) (r : bytes) (s : socket) :
  inbox s = [] ->
  bytes_contains terminator r = false ->
  read_response n r s = (Hang, s).
Proof.
  intros Hbox Hnot. induction n as [| n IH]; rewrite read_response_step, Hnot.
  - reflexivity.
  - unfold sock_recv. rewrite Hbox, app_nil_r. exact IH.
Qed.

Lemma pending_after_read (s : socket) (k : nat) :
  (pending_reads s <= S k)%nat ->
  inbox s <> [] ->
  (pending_reads (snd (sock_recv 1024 s)) <= k)%nat.
Proof.
  destruct s as [box out]. unfold pending_reads, sock_recv. cbn [inbox outbox].
  destruct box as [| c rest]; [intros _ H; contradiction | intros H _].
  cbn [fold_right] in H.
  destruct (len c <=? 1024) eqn:Hfit; cbn [snd inbox fold_right].
  - lia.
  - apply Z.leb_gt in Hfit. unfold len in Hfit.
    change (Z.to_nat 1024) with 1024%nat.
    rewrite length_skipn.
    assert (Hdiv : (List.length c / 1024 = 1 + (List.length c - 1024) / 1024)%nat).
    { replace (List.length c) with (1 * 1024 + (List.length c - 1024))%nat at 1 by lia.
      rewrite Nat.div_add_l by lia. reflexivity. }
    lia.
Qed.

Lemma read_response_fuel (n : nat) (r : bytes) (s : socket) :
  (pending_reads s <= n)%nat ->
  read_response n r s = read_response (S n) r s.
Proof.
  revert r s. induction n as [| n IH]; intros r s Hn.
  - destruct (bytes_contains terminator r) eqn:Hterm.
    + rewrite !read_response_step, Hterm. reflexivity.
    + assert (Hbox : inbox s = []).
      { destruct s as [[| c rest] out]; [reflexivity |].
        unfold pending_reads in Hn. cbn in Hn. lia. }
      rewrite !read_response_spins by assumption. reflexivity.
  - rewrite (read_response_step (S n)), (read_response_step (S (S n))).
    destruct (bytes_contains terminator r); [reflexivity |].
    destruct (inbox s) as [| c rest] eqn:Hbox.
    + unfold sock_recv. rewrite Hbox. apply IH.
      unfold pending_reads. rewrite Hbox. cbn. lia.
    + pose proof (pending_after_read s n Hn) as Hless.
      destruct (sock_recv 1024 s) as [chunk s']. apply IH. apply Hless.
      rewrite Hbox. discriminate.
Qed.

(** What [send] writes for a one-letter text. *)
Lemma send_writes_text_frame :
  written_by_send "a" = [x81; x01; x61].
Proof. reflexivity. Qed.

(** C1, at the failing input "a": [send] writes the frame 81 01 61, and
    [recv] reads the whole frame off the socket and returns the empty
    string, not "a". *)
Theorem roundtrip_loses_the_text :
  written_by_send "a" = [x81; x01; x61]
  /\ recv (wire [written_by_send "a"]) = (Ok "", wire []).
Proof.
  split.
  - apply send_writes_text_frame.
  - rewrite send_writes_text_frame. reflexivity.
Qed.

(** The same at the lengths where the header changes width. *)
Lemma roundtrip_loses_the_text_at_each_width :
  Forall (fun n => recv (wire [written_by_send (letters (Z.to_nat n))]) = (Ok "", wire []))
         [125; 126; 65535; 65536].
Proof.
  repeat constructor; vm_compute; reflexivity.
Qed.

(** However the frame is cut into chunks, no text comes back. *)
Lemma roundtrip_never_returns_text (s : string) (chunks : list bytes) :
  match fst (recv (wire chunks)) with
  | Ok msg => msg = ""
  | _ => True
  end.
Proof. apply recv_returns_no_text. Qed.

(** C5, at the failing input 88 00 (a close frame with no payload):
    [recv] returns the empty string and the object is still connected. *)
Theorem close_frame_leaves_connected :
  recv (wire [[x88; x00]]) = (Ok "", wire [])
  /\ connected (snd (recv (wire [[x88; x00]]))) = true.
Proof.
  split; reflexivity.
Qed.

End Frames.

(** ** Strings *)

Lemma prefix_iff_append (t s : string) :
  String.prefix t s = true <-> exists post, s = (t ++ post)%string.
Proof.
  revert s. induction t as [| a t IH]; intros s; simpl.
  - split; [intros _; exists s; reflexivity | intros _; destruct s; reflexivity].
  - destruct s as [| b s]; simpl.
    + split; [discriminate | intros [post H]; discriminate].
    + destruct (ascii_dec a b) as [-> | Hab].
      * rewrite IH. split; intros [post H]; exists post.
        -- now rewrite H.
        -- now injection H.
      * split; [discriminate | intros [post H]].
        injection H as H _. congruence.
Qed.

(** [substringb t s] holds exactly when [t] occurs in [s]. *)
Lemma substringb_iff (t s : string) :
  substringb t s = true <-> exists pre post, s = (pre ++ t ++ post)%string.
Proof.
  induction s as [| b s IH]; cbn [substringb].
  - rewrite orb_false_r, prefix_iff_append. split.
    + intros [post H]. exists EmptyString, post. exact H.
    + intros [pre [post H]]. destruct pre; [exists post; exact H | discriminate].
  - rewrite orb_true_iff, prefix_iff_append, IH. split.
    + intros [[post H] | [pre [post H]]].
      * exists EmptyString, post. exact H.
      * exists (String b pre), post. simpl. now rewrite H.
    + intros [pre [post H]]. destruct pre as [| c pre].
      * left. exists post. exact H.
      * right. exists pre, post. simpl in H. now injection H.
Qed.

(** ** RuleEngine: the operator [contains] *)

Section Contains.
Context {rt : Runtime}.

Import MempoolMonitor.

(** With the operator [contains], [evaluate_rule] is the test
    [target in text], whatever else the rule holds. *)
Lemma evaluate_contains (d : dict) (payload resolved : value) :
  dict_get d "operator" = Some (VStr "contains") ->
  get_nested payload (rule_field d) = Ok resolved ->
  evaluate_rule (VDict d) payload
  = str_contains (match dict_get d "value" with Some v => v | None => VNone end)
                 (searched_text resolved).
Proof.
  intros Hop Hres. unfold rule_field in Hres. unfold evaluate_rule. simpl.
  rewrite Hres, Hop. reflexivity.
Qed.

(** C9, as amended: for a rule with operator [contains] whose field
    resolves, [evaluate_rule] returns true exactly when the rule's value
    is a [str] that occurs in the searched text, the string form of the
    resolved value, or the empty string when that value is falsy; and when
    the rule's value is no [str], it raises TypeError. *)
Theorem contains_iff_substring (d : dict) (payload resolved : value) :
  dict_get d "operator" = Some (VStr "contains") ->
  get_nested payload (rule_field d) = Ok resolved ->
  (evaluate_rule (VDict d) payload = Ok true
   <-> exists t pre post,
         dict_get d "value" = Some (VStr t)
         /\ searched_text resolved = (pre ++ t ++ post)%string)
  /\ ((forall t, dict_get d "value" <> Some (VStr t))
      -> evaluate_rule (VDict d) payload = Raise TypeError).
Proof.
  intros Hop Hres. rewrite (evaluate_contains d payload resolved Hop Hres).
  split.
  - split.
    + destruct (dict_get d "value") as [[| | | | t | |] |]; simpl; try discriminate.
      intros H. injection H as H. apply substringb_iff in H.
      destruct H as [pre [post H]]. exists t, pre, post. split; [reflexivity | exact H].
    + intros [t [pre [post [Hv Ht]]]]. rewrite Hv. simpl. f_equal.
      apply substringb_iff. exists pre, post. exact Ht.
  - intros Hno. destruct (dict_get d "value") as [[| | | | t | |] |]; simpl;
      try reflexivity.
    exfalso. apply (Hno t). reflexivity.
Qed.

(** X3: with the operator [exists], the rule holds exactly when the
    field resolves to something other than None. *)
Theorem exists_iff_present (d : dict) (payload resolved : value) :
  dict_get d "operator" = Some (VStr "exists") ->
  get_nested payload (rule_field d) = Ok resolved ->
  evaluate_rule (VDict d) payload = Ok (negb (is_none resolved)).
Proof.
  intros Hop Hres. unfold rule_field in Hres. unfold evaluate_rule. simpl.
  rewrite Hres, Hop. reflexivity.
Qed.

(** X4: an operator that is none of the eight evaluates to false. *)
Theorem unknown_operator_is_false (d : dict) (payload resolved op : value) :
  dict_get d "operator" = Some op ->
  get_nested payload (rule_field d) = Ok resolved ->
  Forall (fun k => py_eq op (VStr k) = false) known_operators ->
  evaluate_rule (VDict d) payload = Ok false.
Proof.
  intros Hop Hres Hnone. unfold rule_field in Hres. unfold evaluate_rule. simpl.
  rewrite Hres. cbn [and_then]. rewrite Hop. cbn [and_then].
  unfold known_operators in Hnone.
  repeat match goal with
         | H : Forall _ (_ :: _) |- _ => inversion H as [| ? ? ?Heq ?Hrest]; subst; clear H
         end.
  repeat match goal with
         | H : py_eq op (VStr _) = false |- _ => rewrite H; clear H
         end.
  reflexivity.
Qed.

(** X2: dotted paths.  In [{"a": {"b": 5}}], "a.b" resolves to 5, and
    "a.c" and "x.y" resolve to None. *)
Theorem get_nested_examples :
  get_nested nested_payload (VStr "a.b") = Ok (VInt 5)
  /\ get_nested nested_payload (VStr "a.c") = Ok VNone
  /\ get_nested nested_payload (VStr "x.y") = Ok VNone.
Proof. repeat split. Qed.

(** A falsy value is searched as the empty string: 0, False, 0.0, the
    empty string, list and dict, like None. *)
Lemma contains_searches_nothing_in_zero :
  evaluate_rule contains_zero_rule zero_payload = Ok false
  /\ get_nested zero_payload (VStr "n") = Ok (VInt 0)
  /\ substringb (py_str (VStr "0")) (py_str (VInt 0)) = true.
Proof. repeat split. Qed.

End Contains.

(** The witness of [contains_iff_substring]: the rule
    [{"field": "n", "operator": "contains", "value": "0"}] on [{"n": "105"}]. *)
Lemma contains_iff_substring_witness :
  (@MempoolMonitor.evaluate_rule example_runtime contains_zero_rule
     (VDict [("n", VStr "105")]) = Ok true
   <-> exists t pre post,
         dict_get [("field", VStr "n"); ("operator", VStr "contains"); ("value", VStr "0")]
                  "value" = Some (VStr t)
         /\ @searched_text example_runtime (VStr "105") = (pre ++ t ++ post)%string)
  /\ ((forall t, dict_get [("field", VStr "n"); ("operator", VStr "contains");
                           ("value", VStr "0")] "value" <> Some (VStr t))
      -> @MempoolMonitor.evaluate_rule example_runtime contains_zero_rule
           (VDict [("n", VStr "105")]) = Raise TypeError).
Proof.
  apply (@contains_iff_substring example_runtime); reflexivity.
Defined.

(** C9, the counterexample: the rule
    [{"field": "n", "operator": "contains", "value": "0"}] on the payload
    [{"n": 0}].  The field resolves to 0, whose string form "0" contains
    the rule's "0", yet [evaluate_rule] returns false. *)
Lemma contains_counterexample :
  @MempoolMonitor.evaluate_rule example_runtime contains_zero_rule zero_payload = Ok false
  /\ MempoolMonitor.get_nested zero_payload (VStr "n") = Ok (VInt 0)
  /\ substringb (@py_str example_runtime (VStr "0")) (@py_str example_runtime (VInt 0)) = true.
Proof. apply (@contains_searches_nothing_in_zero example_runtime). Qed.

(** ** NotificationDispatcher: what [handle_event] does *)

Section Dispatch.
Context {rt : Runtime}.

Import MempoolMonitor.

(** [datetime.now] is no attribute of the module. *)
Lemma datetime_has_no_now (S : Type) (s : S) :
  module_attr datetime_module "now" s = (Raise AttributeError, s).
Proof. reflexivity. Qed.

(** The [try] block around the dispatch: whatever the rule, the event and
    the state, it ends in the handler, and the state is as before. *)
Lemma dispatch_is_dropped (event_type : string) (event_data : value) (d : dict) (s : st) :
  try_except
    (hook <- lift (py_get (VDict d) "webhook" VNone) ;;
     name' <- lift (py_get (VDict d) "name" VNone) ;;
     module_attr datetime_module "now" ;;
     timestamp <- gets (fun s => clock (snd s)) ;;
     send_webhook hook
       (VDict [("event", VStr event_type); ("rule", name');
               ("data", event_data); ("timestamp", VInt timestamp)]))
    (fun e => ret tt) s
  = (Ok tt, s).
Proof. reflexivity. Qed.

(** [handle_rule] does what [rule_effect] says. *)
Lemma handle_rule_effect (event_type : string) (event_data rule : value) (s : st) :
  handle_rule event_type event_data rule s = rule_effect event_type event_data rule s.
Proof.
  unfold handle_rule, rule_effect.
  destruct rule as [| b | z | f | x | l | d]; try reflexivity.
  destruct s as [m w].
  unfold bind at 1. cbn [lift py_get].
  destruct (py_eq _ (VStr event_type)); cbn [negb]; [| reflexivity].
  unfold bind at 1. cbn [lift].
  destruct (evaluate_rule (VDict d) event_data) as [[|] | e |]; try reflexivity.
Qed.

Lemma rule_effect_keeps_requests (event_type : string) (event_data rule : value) (s : st) :
  fst (snd (rule_effect event_type event_data rule s)) = fst s
  /\ requests (snd (snd (rule_effect event_type event_data rule s))) = requests (snd s)
  /\ replies (snd (snd (rule_effect event_type event_data rule s))) = replies (snd s)
  /\ logged WARNING (snd (snd (rule_effect event_type event_data rule s)))
     = logged WARNING (snd s).
Proof.
  unfold rule_effect.
  destruct (py_get rule "event" VNone) as [ev | e |]; try (repeat split; reflexivity).
  destruct (py_eq ev (VStr event_type)); try (repeat split; reflexivity).
  destruct (evaluate_rule rule event_data) as [[|] | e |]; try (repeat split; reflexivity).
  cbn [fst snd]. unfold requests, logged, emit. cbn [trace replies].
  rewrite !flat_map_app. cbn. rewrite !app_nil_r. repeat split; reflexivity.
Qed.

(** A loop keeps what each of its passes keeps. *)
Lemma for_each_keeps {S A B} (f : S -> B) (body : A -> M S unit) (l : list A) :
  (forall x s, f (snd (body x s)) = f s) ->
  forall s, f (snd (for_each l body s)) = f s.
Proof.
  intros Hbody. induction l as [| x l IH]; intros s; [reflexivity |].
  cbn [for_each]. unfold bind. specialize (Hbody x s).
  destruct (body x s) as [[[] | e |] s']; cbn [snd] in *; try assumption.
  rewrite IH. assumption.
Qed.

Lemma handle_event_footprint (event_type : string) (event_data : value) (s : st) :
  dispatch_footprint (snd (handle_event event_type event_data s)) = dispatch_footprint s.
Proof.
  unfold handle_event, bind at 1, config_get, gets.
  unfold bind at 1. unfold lift at 1.
  destruct (py_iter _) as [rules | e |]; try reflexivity.
  apply for_each_keeps. intros rule s'. rewrite handle_rule_effect.
  unfold dispatch_footprint.
  destruct (rule_effect_keeps_requests event_type event_data rule s') as [H1 [H2 [H3 H4]]].
  rewrite H1, H2, H3, H4. reflexivity.
Qed.

(** [handle_event] issues no HTTP request, whatever the event, the rules
    and the endpoints: the requests of the world and the replies still to
    come are after the call what they were before it. *)
Lemma handle_event_sends_no_request (event_type : string) (event_data : value) (s : st) :
  requests (snd (snd (handle_event event_type event_data s))) = requests (snd s)
  /\ replies (snd (snd (handle_event event_type event_data s))) = replies (snd s).
Proof.
  pose proof (handle_event_footprint event_type event_data s) as H.
  unfold dispatch_footprint in H. injection H as _ Hrq Hrp _.
  split; assumption.
Qed.

(** Nor does it log a warning: nothing is ever reported. *)
Lemma handle_event_logs_no_warning (event_type : string) (event_data : value) (s : st) :
  logged WARNING (snd (snd (handle_event event_type event_data s)))
  = logged WARNING (snd s).
Proof.
  pose proof (handle_event_footprint event_type event_data s) as H.
  unfold dispatch_footprint in H. injection H as _ _ _ Hw. exact Hw.
Qed.

(** C6, at a failing input: one rule that matches, its endpoint
    configured, a server ready to answer 200.  The match is logged and
    nothing else happens: no request, the reply still waiting. *)
Theorem matched_rule_is_not_dispatched :
  handle_event "block" a_block
    (monitor_with [block_rule "tall" "height" "hook"] [("hook", a_hook)],
     {| trace := []; dials := []; replies := [Ok 200];
        urandom := fun _ => []; urandom_calls := O; clock := 0 |})
  = (Ok tt,
     (monitor_with [block_rule "tall" "height" "hook"] [("hook", a_hook)],
      {| trace := [Logged INFO (MsgTrigger (VStr "tall"))]; dials := [];
         replies := [Ok 200];
         urandom := fun _ => []; urandom_calls := O; clock := 0 |})).
Proof. reflexivity. Qed.

(** Called by itself, [send_webhook] reports an endpoint that is not
    configured. *)
Lemma send_webhook_reports_missing_endpoint (payload : value) (m : t) (w : world) :
  dict_get (config m) "webhooks" = Some (VDict []) ->
  send_webhook (VStr "nowhere") payload (m, w)
  = (Ok tt, (m, emit (Logged WARNING (MsgWebhookNotFound (VStr "nowhere"))) w)).
Proof.
  intros H. unfold send_webhook, bind at 1, config_get, gets. cbn [fst].
  rewrite H. reflexivity.
Qed.

(** C10, at a failing input: two rules that match, the first naming an
    endpoint that does not exist.  Both matches are logged, in order, and
    the missing endpoint is not reported: no warning is logged. *)
Theorem missing_endpoint_is_not_reported :
  handle_event "block" a_block
    (monitor_with [block_rule "first" "height" "nowhere";
                   block_rule "second" "height" "hook"] [("hook", a_hook)],
     quiet_world)
  = (Ok tt,
     (monitor_with [block_rule "first" "height" "nowhere";
                    block_rule "second" "height" "hook"] [("hook", a_hook)],
      {| trace := [Logged INFO (MsgTrigger (VStr "first"));
                   Logged INFO (MsgTrigger (VStr "second"))];
         dials := []; replies := [];
         urandom := fun _ => []; urandom_calls := O; clock := 0 |})).
Proof. reflexivity. Qed.

(** X6: once a rule's event has been read and the rule evaluated,
    nothing the dispatch does can raise out of [handle_rule]: whatever
    the endpoint, the pass over this rule ends normally and the loop goes
    on to the next rule. *)
Theorem dispatch_failures_stay_inside (event_type : string) (event_data rule ev : value)
  (matched : bool) (s : st) :
  py_get rule "event" VNone = Ok ev ->
  evaluate_rule rule event_data = Ok matched ->
  fst (handle_rule event_type event_data rule s) = Ok tt.
Proof.
  intros Hev Hmatch. rewrite handle_rule_effect. unfold rule_effect.
  rewrite Hev, Hmatch. destruct (py_eq ev (VStr event_type)), matched; reflexivity.
Qed.

(** ** RuleEngine errors in [handle_event] *)

(** An error in one rule ends the loop over the rules. *)
Lemma rule_error_ends_the_loop (event_type : string) (event_data rule : value)
  (rest : list value) (e : exn) (s : st) :
  fst (rule_effect event_type event_data rule s) = Raise e ->
  for_each (rule :: rest) (handle_rule event_type event_data) s = (Raise e, s).
Proof.
  intros H. cbn [for_each]. unfold bind. rewrite handle_rule_effect.
  unfold rule_effect in *.
  destruct (py_get rule "event" VNone) as [ev | e' |]; cbn [fst] in H; try discriminate.
  - destruct (py_eq ev (VStr event_type)); cbn [fst] in H; try discriminate.
    destruct (evaluate_rule rule event_data) as [[|] | e' |]; cbn [fst] in H;
      try discriminate.
    injection H as ->. reflexivity.
  - injection H as ->. reflexivity.
Qed.

(** The rule [extras_rule] compares a field that holds an object. *)
Lemma extras_rule_raises : evaluate_rule extras_rule a_block = Raise TypeError.
Proof. reflexivity. Qed.

(** C4, at a failing input: the first rule compares a field that holds an
    object, the second would match.  [float] raises TypeError in the
    first rule; the error leaves [handle_event] and [route], the second
    rule is not evaluated (nothing is logged), and the same event with the
    second rule alone logs its match. *)
Theorem rule_error_skips_the_other_rules :
  handle_event "block" a_block
    (monitor_with [extras_rule; block_rule "tall" "height" "hook"] [("hook", a_hook)],
     quiet_world)
  = (Raise TypeError,
     (monitor_with [extras_rule; block_rule "tall" "height" "hook"] [("hook", a_hook)],
      quiet_world))
  /\ route (VDict [("blocks", a_block)])
       (monitor_with [extras_rule; block_rule "tall" "height" "hook"] [("hook", a_hook)],
        quiet_world)
     = (Raise TypeError,
        (monitor_with [extras_rule; block_rule "tall" "height" "hook"] [("hook", a_hook)],
         quiet_world))
  /\ trace (snd (snd (handle_event "block" a_block
                        (monitor_with [block_rule "tall" "height" "hook"]
                                      [("hook", a_hook)],
                         quiet_world))))
     = [Logged INFO (MsgTrigger (VStr "tall"))].
Proof. repeat split. Qed.

(** The handler of the inner loop of [run] turns such an error into the
    [break] that ends the connection. *)
Lemma receive_handler_breaks (body : M st bool) (e : exn) (s s' : st) :
  body s = (Raise e, s') ->
  is_Exception e = true ->
  try_except body (fun e => error (MsgError e) ;; ret false) s
  = (Ok false, (fst s', emit (Logged ERROR (MsgError e)) (snd s'))).
Proof.
  intros Hbody Hexn. unfold try_except. rewrite Hbody, Hexn.
  destruct s' as [m w]. reflexivity.
Qed.

End Dispatch.

(** ** ConnectionSupervisor: subscriptions across connections *)

Section Subscriptions.
Context {rt : Runtime}.

Import MempoolMonitor.

Lemma SFeqb_refl (f : spec_float) : f <> S754_nan -> SFeqb f f = true.
Proof.
  intros Hnan. unfold SFeqb, SFcompare.
  destruct f as [s | s | | s m e]; try reflexivity.
  - destruct s; reflexivity.
  - contradiction.
  - rewrite Z.compare_refl.
    change (Pos.compare_cont Eq m m) with (Pos.compare m m).
    rewrite Pos.compare_refl. destruct s; reflexivity.
Qed.

(** A hashable value is a member of any set it was added to. *)
Lemma same_refl (v : value) : hashable v = true -> same v v = true.
Proof.
  unfold same. destruct v as [| b | z | f | x | l | d]; simpl; try discriminate;
    intros _.
  - reflexivity.
  - destruct b; reflexivity.
  - apply Z.eqb_refl.
  - destruct f as [s | s | | s m e]; try reflexivity;
      apply SFeqb_refl; discriminate.
  - apply String.eqb_refl.
Qed.

(** A category that is in the set is not requested again: [subscribe]
    returns at once and nothing is written. *)
Lemma subscribe_known (e : value) (s : st) :
  subscribed e (fst s) -> subscribe e s = (Ok tt, s).
Proof.
  unfold subscribed, subscribe, bind at 1, gets. intros H.
  unfold bind at 1, lift. rewrite H. reflexivity.
Qed.

(** When [subscribe] returns, the configuration is as before, what was
    in the set still is, and the category is in it. *)
Lemma subscribe_returns (e : value) (s s' : st) :
  subscribe e s = (Ok tt, s') ->
  config (fst s') = config (fst s)
  /\ (forall x, subscribed x (fst s) -> subscribed x (fst s'))
  /\ subscribed e (fst s').
Proof.
  destruct s as [m w]. unfold subscribe, subscribed, bind at 1, gets. cbn [fst].
  unfold bind at 1, lift, set_mem.
  destruct (hashable e) eqn:Hh; [| discriminate].
  destruct (existsb (same e) (subscriptions m)) eqn:Hin.
  - unfold ret. intros H. injection H as <-. cbn [fst].
    repeat split; [intros x Hx; exact Hx | now rewrite Hin].
  - unfold bind at 1, on_ws. cbn [fst snd].
    destruct (ws m) as [x |]; [| discriminate].
    destruct (SimpleWebSocket.send _ x) as [[[] | e' |] x']; try discriminate.
    unfold bind at 1, gets. cbn [fst].
    unfold bind at 1, lift, set_add. cbn [subscriptions set_ws].
    rewrite Hh, Hin. cbn.
    intros H. injection H as <-. cbn [fst config subscriptions set_subscriptions].
    repeat split.
    + intros y. destruct (hashable y); [| discriminate].
      intros Hy. injection Hy as Hy. rewrite existsb_app, Hy. reflexivity.
    + rewrite existsb_app. cbn. rewrite (same_refl e Hh), orb_true_r. reflexivity.
Qed.

(** The same for the loop over the categories. *)
Lemma subscribe_all_returns (events : list value) (s s' : st) :
  for_each events subscribe s = (Ok tt, s') ->
  config (fst s') = config (fst s)
  /\ (forall x, subscribed x (fst s) -> subscribed x (fst s'))
  /\ (forall e, In e events -> subscribed e (fst s')).
Proof.
  revert s. induction events as [| e events IH]; intros s; cbn [for_each].
  - unfold ret. intros H. injection H as <-.
    repeat split; try tauto. intros e [].
  - unfold bind. destruct (subscribe e s) as [[[] | e' |] s1] eqn:Hsub; try discriminate.
    intros Hrest. apply subscribe_returns in Hsub. apply IH in Hrest.
    destruct Hsub as [Hc1 [Hmono1 He]]. destruct Hrest as [Hc2 [Hmono2 Hall]].
    repeat split.
    + congruence.
    + intros x Hx. apply Hmono2, Hmono1, Hx.
    + intros x [<- | Hx]; [apply Hmono2, He | apply Hall, Hx].
Qed.

(** Over categories that are all in the set, the loop does nothing. *)
Lemma subscribe_all_known (events : list value) (s : st) :
  (forall e, In e events -> subscribed e (fst s)) ->
  for_each events subscribe s = (Ok tt, s).
Proof.
  induction events as [| e events IH]; intros Hall; cbn [for_each]; [reflexivity |].
  unfold bind. rewrite subscribe_known by (apply Hall; left; reflexivity).
  apply IH. intros x Hx. apply Hall. right. exact Hx.
Qed.

(** C7: the subscription set is never reset.  Once the rest of [connect]
    has run to its end on one connection, running it on a new socket
    object (the next connection) writes nothing to that socket: the
    categories are derived again, each is found in the set, and no
    subscription request is sent.  Only the flag and the log change. *)
Theorem second_connection_subscribes_nothing (s0 s1 : st) (next : SimpleWebSocket.t) :
  on_connected s0 = (Ok tt, s1) ->
  on_connected (with_socket next s1)
  = (Ok tt,
     (set_running true (set_ws (Some next) (fst s1)),
      emit (Logged INFO MsgConnected) (snd s1))).
Proof.
  destruct s0 as [m0 w0]. destruct s1 as [m1 w1].
  unfold on_connected, with_socket.
  unfold bind at 1. cbn [on_self zoom modify fst snd].
  unfold bind at 1. cbn [info on_world zoom log modify fst snd].
  unfold bind at 1, config_get, gets. cbn [fst config set_running].
  unfold bind at 1, lift.
  destruct (py_iter _) as [rules | e |] eqn:Hrules; try discriminate.
  unfold bind at 1, lift.
  destruct (collect_events rules []) as [events | e |] eqn:Hevents; try discriminate.
  intros Hfirst. apply subscribe_all_returns in Hfirst.
  cbn [fst config set_running] in Hfirst. destruct Hfirst as [Hcfg [_ Hall]].
  unfold bind at 1. cbn [on_self zoom modify fst snd].
  unfold bind at 1. cbn [info on_world zoom log modify fst snd].
  unfold bind at 1. cbn [fst config set_running set_ws].
  rewrite Hcfg, Hrules.
  unfold bind at 1, lift. rewrite Hevents.
  apply subscribe_all_known. intros e He. apply Hall in He. exact He.
Qed.

(** A category that is not in the set is requested: one text frame
    with the request is written to the socket, the category enters the
    set, and the subscription is logged. *)
Lemma subscribe_sends_a_frame (e : value) (m : t) (w : world)
  (x : SimpleWebSocket.t) (sk : socket) :
  ws m = Some x ->
  SimpleWebSocket.connected x = true ->
  SimpleWebSocket.sock x = Some sk ->
  set_mem e (subscriptions m) = Ok false ->
  len (encode_utf8 (want_message e)) < 2 ^ 64 ->
  subscribe e (m, w)
  = (Ok tt,
     (set_subscriptions (subscriptions m ++ [e])
        (set_ws (Some (SimpleWebSocket.set_sock
                         (Some (sock_send
                                  (text_header (len (encode_utf8 (want_message e)))
                                   ++ encode_utf8 (want_message e)) sk)) x)) m),
      emit (Logged INFO (MsgSub e)) w)).
Proof.
  intros Hws Hc Hsk Hnew Hlen.
  unfold subscribe, bind at 1, gets. cbn [fst].
  unfold bind at 1, lift. rewrite Hnew.
  unfold bind at 1, on_ws. cbn [fst snd]. rewrite Hws.
  fold (want_message e).
  rewrite (send_writes_frame (want_message e) x sk Hc Hsk Hlen).
  unfold bind at 1, gets. cbn [fst subscriptions set_ws].
  unfold set_mem in Hnew. unfold bind at 1, lift, set_add.
  destruct (hashable e); [| discriminate].
  injection Hnew as Hnew. rewrite Hnew. reflexivity.
Qed.

(** The first connection of the example: the flag is set, one frame with
    the request for "block" is written, and "block" enters the set. *)
Lemma first_connection_subscribes :
  len (encode_utf8 (want_message (VStr "block"))) < 2 ^ 64 ->
  on_connected first_connection
  = (Ok tt,
     (set_subscriptions [VStr "block"]
        (set_ws (Some (SimpleWebSocket.set_sock
                         (Some (sock_send
                                  (text_header (len (encode_utf8 (want_message (VStr "block"))))
                                   ++ encode_utf8 (want_message (VStr "block")))
                                  {| inbox := []; outbox := [] |}))
                         (wire [])))
           (set_running true (fst first_connection))),
      emit (Logged INFO (MsgSub (VStr "block")))
        (emit (Logged INFO MsgConnected) quiet_world))).
Proof.
  intros Hlen. unfold on_connected.
  unfold bind at 1. cbn [on_self zoom modify fst snd first_connection with_socket].
  unfold bind at 1. cbn [info on_world zoom log modify fst snd].
  unfold bind at 1, config_get, gets. cbn [fst config set_running set_ws monitor_with init dict_get String.eqb Ascii.eqb Bool.eqb].
  unfold bind at 1, lift. cbn [py_iter].
  unfold bind at 1, lift.
  change (collect_events [block_rule "tall" "height" "hook"] [])
    with (@Ok (list value) [VStr "block"]).
  cbn [for_each]. unfold bind at 1.
  rewrite (subscribe_sends_a_frame (VStr "block") _ _ (wire [])
             {| inbox := []; outbox := [] |}); try reflexivity.
  exact Hlen.
Qed.

End Subscriptions.

(** The witness of [second_connection_subscribes_nothing]: the monitor
    with one rule on "block", connected once, then given a new socket. *)
Lemma second_connection_subscribes_nothing_witness :
  @MempoolMonitor.on_connected example_runtime
    (with_socket (wire [])
       (snd (@MempoolMonitor.on_connected example_runtime first_connection)))
  = (Ok tt,
     (MempoolMonitor.set_running true
        (MempoolMonitor.set_ws (Some (wire []))
           (fst (snd (@MempoolMonitor.on_connected example_runtime first_connection)))),
      emit (Logged INFO MsgConnected)
        (snd (snd (@MempoolMonitor.on_connected example_runtime first_connection))))).
Proof.
  apply (@second_connection_subscribes_nothing example_runtime first_connection).
  reflexivity.
Defined.

(** ** EventRouter *)

Section Routing.
Context {rt : Runtime}.

Import MempoolMonitor.

(** For a decoded object, [route] calls [handle_event] once per routed
    event, in order, and does nothing else. *)
Lemma route_calls_handle_event (d : dict) (s : st) :
  route (VDict d) s
  = for_each (routed_events d) (fun ev => handle_event (fst ev) (snd ev)) s.
Proof.
  unfold route, routed_events, EVENT_MAP. cbn [for_each flat_map py_in].
  destruct (dict_get d "blocks") as [v1 |] eqn:H1;
  destruct (dict_get d "mempool") as [v2 |] eqn:H2;
  destruct (dict_get d "txs") as [v3 |] eqn:H3;
  destruct (dict_get d "transactions") as [v4 |] eqn:H4;
  cbn [app for_each fst snd];
  unfold bind, lift, ret, py_getitem;
  rewrite ?H1, ?H2, ?H3, ?H4;
  repeat match goal with
         | |- context [handle_event ?c ?p ?x] =>
             destruct (handle_event c p x) as [[[] | ? |] ?]
         end;
  reflexivity.
Qed.

(** A message that holds none of the keys of the category map routes
    nothing. *)
Lemma unknown_keys_route_nothing (d : dict) :
  (forall key, In key (map fst EVENT_MAP) -> dict_get d key = None) ->
  routed_events d = [].
Proof.
  intros H. unfold routed_events, EVENT_MAP. cbn [flat_map].
  rewrite !H by (cbn; tauto). reflexivity.
Qed.

(** The message [{"blocks": [...]}] routes one event. *)
Lemma blocks_message_routes_one_event (l : list value) :
  routed_events [("blocks", VList l)] = [("block", VDict [("blocks", VList l)])].
Proof. reflexivity. Qed.

(** C8, as amended: the key the category map knows is "blocks", not
    "block".  The message [{"blocks": [...]}] is routed as category
    "block" with payload [{"blocks": [...]}]; a decoded object holding
    none of the keys "blocks", "mempool", "txs", "transactions" routes no
    event and leaves the monitor and the world as they were; and [route]
    hands [handle_event] exactly the routed events of the object. *)
Theorem route_follows_event_map (d : dict) (l : list value) (s : st) :
  route (VDict [("blocks", VList l)]) s
  = handle_event "block" (VDict [("blocks", VList l)]) s
  /\ ((forall key, In key (map fst EVENT_MAP) -> dict_get d key = None)
      -> routed_events d = [] /\ route (VDict d) s = (Ok tt, s))
  /\ route (VDict d) s
     = for_each (routed_events d) (fun ev => handle_event (fst ev) (snd ev)) s.
Proof.
  split; [| split].
  - rewrite route_calls_handle_event, blocks_message_routes_one_event.
    cbn [for_each fst snd]. unfold bind.
    destruct (handle_event _ _ s) as [[[] | e |] s']; reflexivity.
  - intros H. split; [apply unknown_keys_route_nothing, H |].
    rewrite route_calls_handle_event, (unknown_keys_route_nothing d H). reflexivity.
  - apply route_calls_handle_event.
Qed.

(** The message [{"block": [1]}] on a monitor with a rule for the
    category "block": the message routes nothing, while the event the
    claim describes would have matched the rule. *)
Lemma block_key_is_not_routed :
  route (VDict [("block", VList [VInt 1])]) block_watcher = (Ok tt, block_watcher)
  /\ trace (snd (snd (handle_event "block" (VDict [("block", VList [VInt 1])])
                        block_watcher)))
     = [Logged INFO (MsgTrigger (VStr "seen"))].
Proof. split; reflexivity. Qed.

End Routing.

(** The witness of [route_follows_event_map]: the object [{"block": [1]}]
    holds no key of the category map. *)
Lemma route_follows_event_map_witness :
  routed_events [("block", VList [VInt 1])] = []
  /\ @MempoolMonitor.route example_runtime (VDict [("block", VList [VInt 1])]) block_watcher
     = (Ok tt, block_watcher).
Proof.
  apply (proj1 (proj2 (@route_follows_event_map example_runtime
                         [("block", VList [VInt 1])] [] block_watcher))).
  intros key Hkey. cbn in Hkey.
  destruct Hkey as [<- | [<- | [<- | [<- | []]]]]; reflexivity.
Defined.

(** C8, the counterexample: the message [{"block": [1]}], on a monitor
    with a rule for the category "block".  [route] returns with the state
    unchanged: no event is routed.  Had the message been routed as
    category "block" with itself as payload, the rule would have matched
    and the match would be in the log. *)
Lemma block_message_counterexample :
  @MempoolMonitor.route example_runtime (VDict [("block", VList [VInt 1])]) block_watcher
  = (Ok tt, block_watcher)
  /\ trace (snd (snd (@MempoolMonitor.handle_event example_runtime "block"
                        (VDict [("block", VList [VInt 1])]) block_watcher)))
     = [Logged INFO (MsgTrigger (VStr "seen"))].
Proof. apply (@block_key_is_not_routed example_runtime). Qed.

(** ** ConnectionSupervisor: the loop of [run] *)

Section Supervisor.
Context {rt : Runtime}.

Import MempoolMonitor.

(** [MempoolMonitor.connect] creates the socket object, logs the attempt,
    and raises what [SimpleWebSocket.connect] raises: nothing after the
    handshake runs, no category is subscribed. *)
Lemma monitor_connect_raises (m : t) (w : world) :
  connect (m, w)
  = (Raise ImportError,
     (set_ws (Some (SimpleWebSocket.init (feed_url m))) m,
      emit (Logged INFO (MsgConnecting (feed_url m))) w)).
Proof.
  unfold connect.
  change (py_getitem (VDict DEFAULT_CONFIG) "mempool_url")
    with (@Ok value (VStr "wss://mempool.space/api/v1/ws")).
  unfold bind, lift, config_get, gets, info, on_world, on_self, zoom, on_ws_world.
  cbn [fst snd log modify ws set_ws]. rewrite ws_connect_raises. reflexivity.
Qed.

(** With the flag clear, the outer loop of [run] ends before its first
    pass. *)
Lemma run_loop_stops_when_flag_clear (fuel : nat) (delay : value) (s : st) :
  running (fst s) = false ->
  run_loop (S fuel) delay s = Some (Ok tt, s).
Proof. intros H. cbn [run_loop]. rewrite H. reflexivity. Qed.

(** What [run] does before its loop: two lines of log, and the delay
    read from the configuration. *)
Lemma run_prologue (fuel : nat) (m : t) (w : world) :
  run fuel (m, w)
  = run_loop fuel
      (match dict_get (config m) "reconnect_delay" with
       | Some v => v
       | None => VInt 5
       end)
      (m, announced (config_path m) w).
Proof. reflexivity. Qed.

(** C2, at the failing input, which is every input: [__init__] leaves the
    flag false and nothing sets it before the loop tests it.  On a new
    monitor, whatever the configuration and the world, [run] logs its two
    opening lines and returns: no connection is attempted, no frame is
    read, and no shutdown signal was needed. *)
Theorem run_returns_at_once (path : string) (cfg : dict) (w : world) (fuel : nat) :
  run (S fuel) (init path cfg, w) = Some (Ok tt, (init path cfg, announced path w)).
Proof.
  rewrite run_prologue. apply run_loop_stops_when_flag_clear. reflexivity.
Qed.

(** So does the program: started, it logs two lines and ends. *)
Lemma main_returns_at_once (path : string) (cfg : dict) (w : world) (fuel : nat) :
  main (S fuel) path cfg w = Some (Ok tt, (init path cfg, announced path w)).
Proof.
  unfold main. rewrite run_prologue, run_loop_stops_when_flag_clear; reflexivity.
Qed.




End Supervisor.

(** ** Witnesses *)

(** The witness of [length_encoding_is_minimal]: the text "a" on a
    connected socket. *)
Lemma length_encoding_is_minimal_witness :
  SimpleWebSocket.send "a" (wire [])
  = (Ok tt,
     SimpleWebSocket.set_sock
       (Some (sock_send (text_header (len (encode_utf8 "a")) ++ encode_utf8 "a")
                {| inbox := []; outbox := [] |}))
       (wire []))
  /\ List.length (text_header (len (encode_utf8 "a")))
     = (if len (encode_utf8 "a") <=? 125 then 2%nat
        else if len (encode_utf8 "a") <=? 65535 then 4%nat else 10%nat).
Proof.
  apply (length_encoding_is_minimal "a" (wire []) {| inbox := []; outbox := [] |});
    reflexivity.
Defined.

(** The witness of [exists_iff_present]: a rule on the field "height" of
    a block that has one. *)
Lemma exists_iff_present_witness :
  @MempoolMonitor.evaluate_rule example_runtime (block_rule "tall" "height" "hook") a_block
  = Ok (negb (is_none (VInt 5))).
Proof.
  apply (@exists_iff_present example_runtime); reflexivity.
Defined.

(** The witness of [unknown_operator_is_false]: the operator "~=". *)
Lemma unknown_operator_is_false_witness :
  @MempoolMonitor.evaluate_rule example_runtime odd_rule a_block = Ok false.
Proof.
  apply (@unknown_operator_is_false example_runtime _ a_block (VInt 5) (VStr "~="));
    [reflexivity | reflexivity | repeat constructor].
Defined.

(** The witness of [dispatch_failures_stay_inside]: a matching rule whose
    endpoint does not exist. *)
Lemma dispatch_failures_stay_inside_witness :
  fst (@MempoolMonitor.handle_rule example_runtime "block" a_block
         (block_rule "first" "height" "nowhere")
         (monitor_with [] [], quiet_world))
  = Ok tt.
Proof.
  apply (@dispatch_failures_stay_inside example_runtime "block" a_block
           (block_rule "first" "height" "nowhere") (VStr "block") true);
    reflexivity.
Defined.


(** * More of the code *)

(** ** SimpleWebSocket: closing, and reading a frame read by read *)

Section Sockets.

Import SimpleWebSocket.

Lemma close_result (ws : t) :
  close ws = (Ok tt, set_connected false (set_sock None ws)).
Proof. destruct ws as [u [sk |] c h p pa ssl]; reflexivity. Qed.

Lemma byte_val_bound (b : byte) : 0 <= byte_val b < 256.
Proof. unfold byte_val. pose proof (Byte.to_N_bounded b). lia. Qed.

Lemma byte_val_of_Z (z : Z) : byte_val (byte_of_Z z) = z mod 256.
Proof.
  unfold byte_val, byte_of_Z.
  assert (H : 0 <= z mod 256 < 256) by (apply Z.mod_pos_bound; lia).
  destruct (Byte.of_N (Z.to_N (z mod 256))) as [b |] eqn:Hb.
  - apply Byte.to_of_N in Hb. rewrite Hb. lia.
  - apply Byte.of_N_None_iff in Hb. lia.
Qed.

(** [struct.unpack] undoes [struct.pack]: the big-endian value of the
    [k] low-order bytes of [z] is [z] modulo 256^k. *)
Lemma be_value_of_be_bytes (k : nat) (z acc : Z) :
  fold_left (fun a b => a * 256 + byte_val b) (be_bytes k z) acc
  = acc * 256 ^ Z.of_nat k + z mod 256 ^ Z.of_nat k.
Proof.
  revert acc. induction k as [| k IH]; intros acc.
  - cbn [be_bytes fold_left]. change (256 ^ Z.of_nat 0) with 1.
    rewrite Z.mod_1_r. lia.
  - cbn [be_bytes fold_left]. rewrite IH, byte_val_of_Z.
    rewrite Z.shiftr_div_pow2 by lia.
    replace (2 ^ (8 * Z.of_nat k)) with (256 ^ Z.of_nat k)
      by (change 256 with (2 ^ 8); rewrite <- Z.pow_mul_r by lia; reflexivity).
    rewrite Nat2Z.inj_succ, Z.pow_succ_r by lia.
    assert (Hpos : 0 < 256 ^ Z.of_nat k) by (apply Z.pow_pos_nonneg; lia).
    rewrite (Z.mul_comm 256 (256 ^ Z.of_nat k)).
    rewrite (Z.rem_mul_r z (256 ^ Z.of_nat k) 256) by lia.
    ring.
Qed.

Lemma be_bytes_length (k : nat) (z : Z) : List.length (be_bytes k z) = k.
Proof. induction k as [| k IH]; cbn [be_bytes List.length]; congruence. Qed.

Lemma unpack_H_of_be_bytes (z : Z) :
  0 <= z < 2 ^ 16 -> unpack_H (be_bytes 2 z) = Ok z.
Proof.
  intros Hz. unfold unpack_H, be_value. rewrite be_bytes_length. cbn [Nat.eqb].
  rewrite be_value_of_be_bytes. change (256 ^ Z.of_nat 2) with (2 ^ 16).
  rewrite Z.mod_small by lia. reflexivity.
Qed.

Lemma unpack_Q_of_be_bytes (z : Z) :
  0 <= z < 2 ^ 64 -> unpack_Q (be_bytes 8 z) = Ok z.
Proof.
  intros Hz. unfold unpack_Q, be_value. rewrite be_bytes_length. cbn [Nat.eqb].
  rewrite be_value_of_be_bytes. change (256 ^ Z.of_nat 8) with (2 ^ 64).
  rewrite Z.mod_small by lia. reflexivity.
Qed.

(** A read that the next chunk fits in takes the chunk; a read shorter
    than the chunk takes its first bytes and leaves the rest in front. *)
Lemma sock_recv_whole (n : Z) (chunk : bytes) (rest : list bytes) (out : bytes) :
  len chunk <= n ->
  sock_recv n {| inbox := chunk :: rest; outbox := out |}
  = (chunk, {| inbox := rest; outbox := out |}).
Proof.
  intros H. unfold sock_recv. cbn [inbox outbox].
  apply Z.leb_le in H. rewrite H. reflexivity.
Qed.

Lemma sock_recv_part (n : Z) (pre post : bytes) (rest : list bytes) (out : bytes) :
  len pre = n ->
  post <> [] ->
  sock_recv n {| inbox := (pre ++ post) :: rest; outbox := out |}
  = (pre, {| inbox := post :: rest; outbox := out |}).
Proof.
  intros <- Hpost. unfold sock_recv. cbn [inbox outbox].
  assert (Hlong : (len (pre ++ post) <=? len pre) = false).
  { apply Z.leb_gt. unfold len. rewrite length_app.
    destruct post; [contradiction | cbn [List.length]; lia]. }
  rewrite Hlong. unfold len. rewrite Nat2Z.id.
  rewrite firstn_app, Nat.sub_diag, firstn_all, skipn_app, Nat.sub_diag, skipn_all.
  cbn [firstn skipn app]. rewrite app_nil_r. reflexivity.
Qed.

Lemma recv_bytes_on (n : Z) (ws : t) (sk : socket) :
  sock ws = Some sk ->
  recv_bytes n ws
  = (Ok (fst (sock_recv n sk)), set_sock (Some (snd (sock_recv n sk))) ws).
Proof.
  intros H. unfold recv_bytes, bind, attr. rewrite H.
  destruct (sock_recv n sk). reflexivity.
Qed.

(** The payload loop on a payload that arrives in one chunk. *)
Lemma read_payload_one_chunk (fuel : nat) (payload : bytes) (rest : list bytes)
  (out : bytes) :
  payload <> [] ->
  read_payload (S (S fuel)) (len payload) []
    {| inbox := payload :: rest; outbox := out |}
  = (payload, {| inbox := rest; outbox := out |}).
Proof.
  intros Hne. rewrite read_payload_step.
  assert (Hlt : (len [] <? len payload) = true).
  { apply Z.ltb_lt. unfold len. destruct payload; [contradiction | cbn; lia]. }
  rewrite Hlt. change (len payload - len []) with (len payload - 0).
  rewrite Z.sub_0_r, sock_recv_whole by lia.
  destruct payload as [| b p]; [contradiction |].
  cbn [app]. apply read_payload_full. apply Z.ltb_irrefl.
Qed.

Lemma low_seven_bits (n : Z) : 0 <= n < 128 -> Z.land n 0x7f = n.
Proof.
  intros H. change 0x7f with (Z.ones 7). rewrite Z.land_ones by lia.
  apply Z.mod_small. change (2 ^ 7) with 128. lia.
Qed.

(** What [recv] does once it knows the length, when the payload is the
    next chunk: it takes the chunk and returns the empty string. *)
Lemma payload_is_dropped (b0 : byte) (payload : bytes) (rest : list bytes)
  (out : bytes) (ws : t) :
  payload <> [] ->
  sock ws = Some {| inbox := payload :: rest; outbox := out |} ->
  (payload0 <- (s <- attr sock ;;
                let (p, s') := read_payload (S (S (List.length (inbox s))))
                                 (len payload) [] s in
                modify (set_sock (Some s')) ;; ret p) ;;
   if Z.land (byte_val b0) 0x0f =? 0x81 then lift (decode_utf8 payload0)
   else if Z.land (byte_val b0) 0x0f =? 0x88 then modify (set_connected false) ;; ret ""
   else ret "") ws
  = (Ok "", set_sock (Some {| inbox := rest; outbox := out |}) ws).
Proof.
  intros Hne Hsock. unfold bind, attr. rewrite Hsock. cbn [inbox].
  rewrite read_payload_one_chunk by exact Hne.
  destruct (opcode_is_a_nibble b0) as [H1 H2]. rewrite H1, H2. reflexivity.
Qed.

Lemma recv_frame (payload : bytes) (rest : list bytes) :
  len payload < 2 ^ 64 ->
  recv (wire ((text_header (len payload) ++ payload) :: rest)) = (Ok "", wire rest).
Proof.
  intros Hlen.
  assert (H0 : 0 <= len payload) by (unfold len; lia).
  destruct payload as [| b p]; [reflexivity |].
  set (payload := b :: p) in *.
  assert (Hne : payload <> []) by discriminate.
  unfold text_header.
  destruct (len payload <=? 125) eqn:H125; [| destruct (len payload <=? 65535) eqn:H16].
  - apply Z.leb_le in H125.
    unfold recv, bind at 1, gets. cbn [wire connected set_connected negb].
    unfold bind at 1.
    rewrite (recv_bytes_on 2 _ {| inbox := ([x81; byte_of_Z (len payload)] ++ payload) :: rest;
                                  outbox := [] |}) by reflexivity.
    rewrite (sock_recv_part 2 [x81; byte_of_Z (len payload)] payload)
      by (reflexivity || assumption).
    cbn [fst snd].
    rewrite byte_val_of_Z, Z.mod_small, low_seven_bits by lia.
    replace (len payload =? 126) with false by (symmetry; apply Z.eqb_neq; lia).
    replace (len payload =? 127) with false by (symmetry; apply Z.eqb_neq; lia).
    unfold bind at 1, ret at 1.
    rewrite (payload_is_dropped x81 payload rest []) by (assumption || reflexivity).
    reflexivity.
  - apply Z.leb_gt in H125. apply Z.leb_le in H16.
    unfold recv, bind at 1, gets. cbn [wire connected set_connected negb].
    unfold bind at 1.
    rewrite (recv_bytes_on 2 _ {| inbox := (([x81; x7e] ++ be_bytes 2 (len payload)) ++ payload) :: rest;
                                  outbox := [] |}) by reflexivity.
    rewrite <- app_assoc.
    rewrite (sock_recv_part 2 [x81; x7e] (be_bytes 2 (len payload) ++ payload))
      by (reflexivity || discriminate).
    cbn [fst snd].
    change (Z.land (byte_val x7e) 0x7f =? 126) with true. cbv iota.
    unfold bind at 1. unfold bind at 1.
    rewrite (recv_bytes_on 2 _ {| inbox := (be_bytes 2 (len payload) ++ payload) :: rest;
                                  outbox := [] |}) by reflexivity.
    rewrite (sock_recv_part 2 (be_bytes 2 (len payload)) payload)
      by (reflexivity || assumption).
    cbn [fst snd]. unfold lift at 1.
    rewrite unpack_H_of_be_bytes by (change (2 ^ 16) with 65536; lia).
    rewrite (payload_is_dropped x81 payload rest []) by (assumption || reflexivity).
    reflexivity.
  - apply Z.leb_gt in H125. apply Z.leb_gt in H16.
    unfold recv, bind at 1, gets. cbn [wire connected set_connected negb].
    unfold bind at 1.
    rewrite (recv_bytes_on 2 _ {| inbox := (([x81; x7f] ++ be_bytes 8 (len payload)) ++ payload) :: rest;
                                  outbox := [] |}) by reflexivity.
    rewrite <- app_assoc.
    rewrite (sock_recv_part 2 [x81; x7f] (be_bytes 8 (len payload) ++ payload))
      by (reflexivity || discriminate).
    cbn [fst snd].
    change (Z.land (byte_val x7f) 0x7f =? 126) with false.
    change (Z.land (byte_val x7f) 0x7f =? 127) with true. cbv iota.
    unfold bind at 1. unfold bind at 1.
    rewrite (recv_bytes_on 8 _ {| inbox := (be_bytes 8 (len payload) ++ payload) :: rest;
                                  outbox := [] |}) by reflexivity.
    rewrite (sock_recv_part 8 (be_bytes 8 (len payload)) payload)
      by (reflexivity || assumption).
    cbn [fst snd]. unfold lift at 1.
    rewrite unpack_Q_of_be_bytes by lia.
    rewrite (payload_is_dropped x81 payload rest []) by (assumption || reflexivity).
    reflexivity.
Qed.

(** X7: [close] always returns normally and leaves the object without
    a socket and unconnected, whatever state it was in; closing again
    changes nothing; and from then on [send] and [recv] raise
    "Not connected" and leave the object as it is. *)
Theorem close_leaves_nothing_open (ws : t) (s : string) :
  close ws = (Ok tt, set_connected false (set_sock None ws))
  /\ close (snd (close ws)) = (Ok tt, snd (close ws))
  /\ send s (snd (close ws)) = (Raise NotConnected, snd (close ws))
  /\ recv (snd (close ws)) = (Raise NotConnected, snd (close ws)).
Proof.
  rewrite close_result. cbn [snd].
  split; [reflexivity |].
  split; [rewrite close_result; reflexivity |].
  split; reflexivity.
Qed.

(** X8: the length [recv] decodes is the length [send] encoded.  For
    every text, [send] writes the header for its length and then its
    encoding, and a [recv] that finds this frame in front of whatever
    else the peer sent takes exactly the frame, header and payload, and
    leaves the rest unread; what it returns is the empty string. *)
Theorem recv_takes_exactly_the_frame_sent (s : string) (rest : list bytes) :
  len (encode_utf8 s) < 2 ^ 64 ->
  written_by_send s = frame_of s
  /\ recv (wire (written_by_send s :: rest)) = (Ok "", wire rest).
Proof.
  intros Hlen.
  assert (Hw : written_by_send s = frame_of s).
  { unfold written_by_send.
    rewrite (send_writes_frame s (wire []) {| inbox := []; outbox := [] |})
      by (reflexivity || exact Hlen).
    reflexivity. }
  split; [exact Hw |].
  rewrite Hw. unfold frame_of. apply recv_frame. exact Hlen.
Qed.

(** X9: [recv] takes each read for complete.  A first read of one byte
    is thrown away: [recv] returns the empty string and the byte is gone.
    And when the header announces a 16-bit or a 64-bit length and the
    read of that field returns only its first bytes (the rest coming in
    a later read), [recv] raises [struct.error]. *)
Theorem short_reads_break_the_framing (b0 b1 : byte) (tail : bytes)
  (more : list bytes) (width : nat) :
  length_field_width b1 = Some width ->
  (0 < List.length tail < width)%nat ->
  recv (wire ([b0] :: more)) = (Ok "", wire more)
  /\ fst (recv (wire ((b0 :: b1 :: tail) :: more))) = Raise StructError.
Proof.
  intros Hwidth Htail. split; [reflexivity |].
  assert (Hne : tail <> []) by (destruct tail; [cbn in Htail; lia | discriminate]).
  unfold recv, bind at 1, gets. cbn [wire connected set_connected negb].
  unfold bind at 1.
  rewrite (recv_bytes_on 2 _ {| inbox := ([b0; b1] ++ tail) :: more; outbox := [] |})
    by reflexivity.
  rewrite (sock_recv_part 2 [b0; b1] tail) by (reflexivity || assumption).
  cbn [fst snd]. unfold length_field_width in Hwidth.
  destruct (Z.land (byte_val b1) 0x7f =? 126) eqn:H126;
    [| destruct (Z.land (byte_val b1) 0x7f =? 127) eqn:H127; [| discriminate]];
    injection Hwidth as <-.
  - unfold bind at 1. unfold bind at 1.
    rewrite (recv_bytes_on 2 _ {| inbox := tail :: more; outbox := [] |}) by reflexivity.
    rewrite sock_recv_whole by (unfold len; lia).
    cbn [fst snd]. unfold lift at 1, unpack_H.
    replace (Nat.eqb (List.length tail) 2) with false
      by (symmetry; apply Nat.eqb_neq; lia).
    reflexivity.
  - unfold bind at 1. unfold bind at 1.
    rewrite (recv_bytes_on 8 _ {| inbox := tail :: more; outbox := [] |}) by reflexivity.
    rewrite sock_recv_whole by (unfold len; lia).
    cbn [fst snd]. unfold lift at 1, unpack_Q.
    replace (Nat.eqb (List.length tail) 8) with false
      by (symmetry; apply Nat.eqb_neq; lia).
    reflexivity.
Qed.

(** On a socket whose peer has closed, [recv] returns the empty string
    and changes nothing. *)
Lemma recv_after_peer_closed (x : t) (sk : socket) :
  connected x = true -> sock x = Some sk -> inbox sk = [] ->
  recv x = (Ok "", x).
Proof.
  intros Hc Hs Hbox. destruct x as [u s c h p pa ssl]. cbn in Hc, Hs. subst.
  destruct sk as [box out]. cbn in Hbox. subst. reflexivity.
Qed.

End Sockets.

(** ** The receive loop on a connection the peer has closed *)

Section ClosedPeer.
Context {rt : Runtime}.

Import MempoolMonitor.

Lemma set_ws_same (m : t) (x : SimpleWebSocket.t) :
  ws m = Some x -> set_ws (Some x) m = m.
Proof. intros H. destruct m. cbn in H. subst. reflexivity. Qed.

Lemma receive_once_after_peer_closed (m : t) (w : world) (x : SimpleWebSocket.t)
  (sk : socket) :
  ws m = Some x ->
  SimpleWebSocket.connected x = true ->
  SimpleWebSocket.sock x = Some sk ->
  inbox sk = [] ->
  receive_once (m, w) = (Ok true, (m, w)).
Proof.
  intros Hws Hc Hs Hbox.
  unfold receive_once, try_except, bind at 1, on_ws. cbn [fst snd].
  rewrite Hws, (recv_after_peer_closed x sk Hc Hs Hbox), (set_ws_same m x Hws).
  reflexivity.
Qed.

(** X10: a connection the peer has closed is never noticed.  Once the
    peer has closed, every [recv] returns the empty string at once and
    leaves [connected] set, so the inner loop of [run] goes round for
    ever, reading nothing: no amount of fuel sees it end, and nothing is
    logged. *)
Theorem closed_peer_is_never_noticed (fuel : nat) (m : t) (w : world)
  (x : SimpleWebSocket.t) (sk : socket) :
  running m = true ->
  ws m = Some x ->
  SimpleWebSocket.connected x = true ->
  SimpleWebSocket.sock x = Some sk ->
  inbox sk = [] ->
  SimpleWebSocket.recv x = (Ok "", x)
  /\ receive_once (m, w) = (Ok true, (m, w))
  /\ receive_loop fuel (m, w) = None.
Proof.
  intros Hrun Hws Hc Hs Hbox.
  split; [apply (recv_after_peer_closed x sk Hc Hs Hbox) |].
  split; [apply (receive_once_after_peer_closed m w x sk Hws Hc Hs Hbox) |].
  induction fuel as [| fuel IH]; [reflexivity |].
  cbn [receive_loop].
  assert (Hstill : still_receiving (m, w) = (Ok true, (m, w))).
  { unfold still_receiving, bind, gets, on_ws. cbn [fst snd].
    rewrite Hrun. cbn [fst snd]. rewrite Hws, Hc, (set_ws_same m x Hws). reflexivity. }
  rewrite Hstill, (receive_once_after_peer_closed m w x sk Hws Hc Hs Hbox).
  exact IH.
Qed.

End ClosedPeer.

(** ** get_nested: dotted paths *)

Section Paths.

Import MempoolMonitor.

Lemma split_on_nonempty (sep : ascii) (s : string) : split_on sep s <> [].
Proof.
  destruct s as [| a s]; cbn [split_on]; [discriminate |].
  destruct (Ascii.eqb a sep); [discriminate |].
  destruct (split_on sep s); discriminate.
Qed.

(** Splitting at a separator: the parts of [p], then the parts of [q]. *)
Lemma split_on_app (sep : ascii) (p q : string) :
  split_on sep (p ++ String sep q) = split_on sep p ++ split_on sep q.
Proof.
  induction p as [| a p IH]; cbn [String.append split_on].
  - rewrite Ascii.eqb_refl. reflexivity.
  - destruct (Ascii.eqb a sep); rewrite IH; [reflexivity |].
    pose proof (split_on_nonempty sep p) as Hne.
    destruct (split_on sep p) as [| h t]; [contradiction | reflexivity].
Qed.

Lemma descend_none (keys : list string) : descend keys VNone = VNone.
Proof. destruct keys; reflexivity. Qed.

(** Descending along two lists of keys in a row. *)
Lemma descend_app (k1 k2 : list string) (val : value) :
  descend (k1 ++ k2) val = descend k2 (descend k1 val).
Proof.
  revert val. induction k1 as [| key k1 IH]; intros val; [reflexivity |].
  cbn [app descend].
  destruct val as [| b | z | f | s | l | d]; try (symmetry; apply descend_none).
  destruct (truthy (VDict d)); [apply IH | symmetry; apply descend_none].
Qed.

Lemma nonempty_is_truthy (p : string) : p <> "" -> truthy (VStr p) = true.
Proof. intros H. destruct p; [contradiction | reflexivity]. Qed.

(** X11: dotted paths compose.  Resolving the path [p.q] is resolving
    [p] and then resolving [q] in what [p] gave, for every object and
    every two paths that are not empty. *)
Theorem get_nested_composes (obj : value) (p q : string) :
  p <> "" -> q <> "" ->
  get_nested obj (VStr (p ++ "." ++ q))
  = (v <~ get_nested obj (VStr p) ;; get_nested v (VStr q)).
Proof.
  intros Hp Hq. unfold get_nested.
  rewrite (nonempty_is_truthy p Hp), (nonempty_is_truthy q Hq).
  assert (Hpq : truthy (VStr (p ++ "." ++ q)) = true).
  { apply nonempty_is_truthy. destruct p; discriminate. }
  rewrite Hpq. cbn [negb and_then].
  change ("." ++ q)%string with (String "."%char q).
  rewrite split_on_app, descend_app. reflexivity.
Qed.

(** X12: only objects are descended into.  In anything that is not a
    non-empty JSON object (a list, a string, a number, true, false, null,
    the empty object) every path that is not empty resolves to None: a
    list is never indexed. *)
Theorem get_nested_descends_objects_only (obj : value) (p : string) :
  p <> "" ->
  (forall d, obj = VDict d -> d = []) ->
  get_nested obj (VStr p) = Ok VNone.
Proof.
  intros Hp Hobj. unfold get_nested. rewrite (nonempty_is_truthy p Hp). cbn [negb].
  pose proof (split_on_nonempty "."%char p) as Hne.
  destruct (split_on "."%char p) as [| key keys]; [contradiction |].
  cbn [descend].
  destruct obj as [| b | z | f | s | l | d]; try reflexivity.
  rewrite (Hobj d eq_refl). reflexivity.
Qed.

End Paths.

(** ** evaluate_rule: the comparisons *)

Section Comparisons.
Context {rt : Runtime}.

Import MempoolMonitor.

(** [float(value) if value else 0] returns or raises an [Exception]. *)
Lemma float_or_zero_raises_exceptions (v : value) :
  match float_or_zero v with
  | Ok _ => True
  | Raise e => is_Exception e = true
  | Hang => False
  end.
Proof.
  unfold float_or_zero. destruct (truthy v); [| exact I].
  destruct v as [| b | z | f | s | l | d]; cbn [py_float]; try exact I; try reflexivity.
  - unfold float_of_int. destruct (binary_normalize _ _ _ _ _); try exact I. reflexivity.
  - destruct (float_of_str s); [exact I | reflexivity].
Qed.

(** What [evaluate_rule] computes for a numeric operator. *)
Lemma evaluate_numeric (d : dict) (payload resolved : value) (op : string) :
  In op numeric_operators ->
  dict_get d "operator" = Some (VStr op) ->
  get_nested payload (rule_field d) = Ok resolved ->
  evaluate_rule (VDict d) payload
  = (l <~ float_or_zero resolved ;;
     r <~ py_float (rule_target d) ;;
     Ok (if String.eqb op ">" then SFltb r l
         else if String.eqb op "<" then SFltb l r
         else if String.eqb op ">=" then SFleb r l
         else SFleb l r)).
Proof.
  intros Hin Hop Hres. unfold rule_field in Hres. unfold rule_target.
  unfold evaluate_rule. cbn [py_get and_then]. rewrite Hres. cbn [and_then].
  rewrite Hop.
  destruct Hin as [<- | [<- | [<- | [<- | []]]]]; reflexivity.
Qed.

(** X13: a numeric rule needs a value.  With one of the operators
    [>], [<], [>=], [<=] and no value (or the value null), [evaluate_rule]
    raises for every event: the rule never evaluates to true or false. *)
Theorem numeric_rule_needs_a_value (d : dict) (payload resolved : value) (op : string) :
  In op numeric_operators ->
  dict_get d "operator" = Some (VStr op) ->
  rule_target d = VNone ->
  get_nested payload (rule_field d) = Ok resolved ->
  exists e, evaluate_rule (VDict d) payload = Raise e /\ is_Exception e = true.
Proof.
  intros Hin Hop Htarget Hres.
  rewrite (evaluate_numeric d payload resolved op Hin Hop Hres), Htarget.
  pose proof (float_or_zero_raises_exceptions resolved) as Hl.
  destruct (float_or_zero resolved) as [l | e |]; cbn [and_then py_float].
  - exists TypeError. split; reflexivity.
  - exists e. split; [reflexivity | exact Hl].
  - contradiction.
Qed.

(** X14: a field that is absent counts as zero.  When the field
    resolves to None, or to anything else that is falsy, a numeric rule
    compares 0 with its value: with a positive value, [<] and [<=] hold
    and [>] and [>=] do not, so a rule "field below a threshold" matches
    every event that lacks the field. *)
Theorem absent_field_counts_as_zero (d : dict) (payload resolved : value)
  (m : positive) (e : Z) :
  get_nested payload (rule_field d) = Ok resolved ->
  truthy resolved = false ->
  py_float (rule_target d) = Ok (S754_finite false m e) ->
  (dict_get d "operator" = Some (VStr "<") -> evaluate_rule (VDict d) payload = Ok true)
  /\ (dict_get d "operator" = Some (VStr "<=") -> evaluate_rule (VDict d) payload = Ok true)
  /\ (dict_get d "operator" = Some (VStr ">") -> evaluate_rule (VDict d) payload = Ok false)
  /\ (dict_get d "operator" = Some (VStr ">=") -> evaluate_rule (VDict d) payload = Ok false).
Proof.
  intros Hres Hfalsy Htarget.
  assert (Hzero : float_or_zero resolved = Ok float_zero)
    by (unfold float_or_zero; rewrite Hfalsy; reflexivity).
  assert (Hnum : forall op, In op numeric_operators ->
                 dict_get d "operator" = Some (VStr op) ->
                 evaluate_rule (VDict d) payload
                 = Ok (if String.eqb op ">" then SFltb (S754_finite false m e) float_zero
                       else if String.eqb op "<" then SFltb float_zero (S754_finite false m e)
                       else if String.eqb op ">=" then SFleb (S754_finite false m e) float_zero
                       else SFleb float_zero (S754_finite false m e))).
  { intros op Hin Hop.
    rewrite (evaluate_numeric d payload resolved op Hin Hop Hres), Hzero, Htarget.
    reflexivity. }
  repeat split; intros Hop;
    (rewrite (Hnum _ (or_introl eq_refl) Hop)
     || rewrite (Hnum _ (or_intror (or_introl eq_refl)) Hop)
     || rewrite (Hnum _ (or_intror (or_intror (or_introl eq_refl))) Hop)
     || rewrite (Hnum _ (or_intror (or_intror (or_intror (or_introl eq_refl)))) Hop));
    reflexivity.
Qed.

(** X15: equality is the default, and None equals None.  A rule
    with no operator compares the resolved field with its value by [==],
    as a rule with the operator "==" does, and "!=" is the negation of
    that.  So a rule that names neither an operator nor a value matches
    every event in which its field is absent. *)
Theorem equality_is_the_default_operator (d : dict) (payload resolved : value) :
  get_nested payload (rule_field d) = Ok resolved ->
  (dict_get d "operator" = None
   -> evaluate_rule (VDict d) payload = Ok (py_eq resolved (rule_target d)))
  /\ (dict_get d "operator" = Some (VStr "==")
      -> evaluate_rule (VDict d) payload = Ok (py_eq resolved (rule_target d)))
  /\ (dict_get d "operator" = Some (VStr "!=")
      -> evaluate_rule (VDict d) payload = Ok (negb (py_eq resolved (rule_target d))))
  /\ (dict_get d "operator" = None -> dict_get d "value" = None -> resolved = VNone
      -> evaluate_rule (VDict d) payload = Ok true).
Proof.
  intros Hres. unfold rule_field in Hres. unfold rule_target.
  repeat split; intros Hop; unfold evaluate_rule; cbn [py_get and_then];
    rewrite Hres; cbn [and_then]; rewrite Hop; try reflexivity.
  intros Hvalue ->. rewrite Hvalue. reflexivity.
Qed.

End Comparisons.

(** ** send_webhook, called by itself *)

Section Webhooks.
Context {rt : Runtime}.

Import MempoolMonitor.

Lemma requests_emit_logged (lv : level) (msg : message) (w : world) :
  requests (emit (Logged lv msg) w) = requests w.
Proof.
  unfold requests, emit. cbn [trace]. rewrite flat_map_app. cbn. apply app_nil_r.
Qed.

Lemma requests_emit_requested (rq : http_request) (w : world) :
  requests (emit (Requested rq) w) = requests w ++ [rq].
Proof.
  unfold requests, emit. cbn [trace]. rewrite flat_map_app. reflexivity.
Qed.

(** X16: an endpoint that is not configured is reported and nothing
    else happens.  When the name is not among the configured endpoints,
    or is configured as something falsy (null, the empty object),
    [send_webhook] logs the warning "Webhook ... not found" and returns:
    no request is built or sent. *)
Theorem unknown_endpoint_is_only_warned (name : string) (hooks : dict)
  (payload : value) (m : t) (w : world) :
  configured_hooks m = VDict hooks ->
  (forall v, dict_get hooks name = Some v -> truthy v = false) ->
  send_webhook (VStr name) payload (m, w)
  = (Ok tt, (m, emit (Logged WARNING (MsgWebhookNotFound (VStr name))) w)).
Proof.
  intros Hhooks Hfalsy. unfold configured_hooks in Hhooks.
  unfold send_webhook, bind at 1, config_get, gets. cbn [fst].
  rewrite Hhooks. unfold bind at 1, lift. cbn [py_get_by].
  destruct (dict_get hooks name) as [v |] eqn:Hv; [| reflexivity].
  rewrite (Hfalsy v eq_refl). reflexivity.
Qed.

(** X17: what is sent to an endpoint that configures only its URL, and
    what becomes of the answer.  One request is issued: POST (upper-cased),
    the payload as JSON in UTF-8, the header Content-Type:
    application/json, a timeout of 10.  A status is logged at INFO; an
    exception of the request is logged at ERROR and not raised: either
    way [send_webhook] returns normally and the monitor is unchanged. *)
Theorem plain_endpoint_request (name : string) (url payload : value) (hooks : dict)
  (m : t) (w : world) (reply : outcome Z) (rest : list (outcome Z)) :
  configured_hooks m = VDict hooks ->
  dict_get hooks name = Some (VDict [("url", url)]) ->
  request_check url = Ok tt ->
  replies w = reply :: rest ->
  (forall status, reply = Ok status ->
     send_webhook (VStr name) payload (m, w)
     = (Ok tt,
        (m, emit (Logged INFO (MsgWebhookStatus (VStr name) url status))
              (answered (emit (Requested (plain_request url payload)) w)))))
  /\ (forall e, reply = Raise e -> is_Exception e = true ->
        send_webhook (VStr name) payload (m, w)
        = (Ok tt,
           (m, emit (Logged ERROR (MsgWebhookFailed (VStr name) e))
                 (answered (emit (Requested (plain_request url payload)) w))))).
Proof.
  intros Hhooks Hname Hcheck Hreplies. unfold configured_hooks in Hhooks.
  assert (Hstart : send_webhook (VStr name) payload (m, w)
                   = try_except
                       (status <- on_world (urlopen (plain_request url payload)) ;;
                        info (MsgWebhookStatus (VStr name) url status))
                       (fun e => error (MsgWebhookFailed (VStr name) e)) (m, w)).
  { unfold send_webhook, bind at 1, config_get, gets. cbn [fst].
    rewrite Hhooks. unfold bind at 1, lift at 1. cbn [py_get_by]. rewrite Hname.
    cbn [truthy negb].
    unfold bind at 1, lift at 1. cbn [py_get dict_get String.eqb Ascii.eqb Bool.eqb].
    unfold bind at 1, lift at 1. cbn [py_get dict_get String.eqb Ascii.eqb Bool.eqb].
    unfold bind at 1, ret at 1.
    unfold bind at 1, lift at 1. cbn [py_get dict_get String.eqb Ascii.eqb Bool.eqb].
    unfold bind at 1, lift at 1. cbn [dict_merge fold_left].
    unfold bind at 1, lift at 1. rewrite Hcheck.
    reflexivity. }
  rewrite Hstart.
  unfold try_except, bind, on_world, zoom, urlopen, info, error. cbn [fst snd].
  cbn [emit replies trace]. rewrite Hreplies.
  split.
  - intros status ->. unfold answered, log, modify, emit. cbn. rewrite Hreplies. reflexivity.
  - intros e -> He. rewrite He. unfold answered, log, modify, emit. cbn.
    rewrite Hreplies. reflexivity.
Qed.

(** X18: the footprint of [send_webhook], for every name, payload,
    configuration and world.  The monitor is left as it was; at most one
    request is issued; and when [send_webhook] raises an [Exception],
    nothing was sent and no reply was used up: a failure of the request
    itself is logged, not raised. *)
Theorem send_webhook_footprint (name payload : value) (m : t) (w : world) :
  fst (snd (send_webhook name payload (m, w))) = m
  /\ (requests (snd (snd (send_webhook name payload (m, w)))) = requests w
      \/ exists rq, requests (snd (snd (send_webhook name payload (m, w))))
                    = requests w ++ [rq])
  /\ (forall e, fst (send_webhook name payload (m, w)) = Raise e ->
        is_Exception e = true ->
        requests (snd (snd (send_webhook name payload (m, w)))) = requests w
        /\ replies (snd (snd (send_webhook name payload (m, w)))) = replies w).
Proof.
  set (P := fun r : outcome unit * st =>
              fst (snd r) = m
              /\ (requests (snd (snd r)) = requests w
                  \/ exists rq, requests (snd (snd r)) = requests w ++ [rq])
              /\ (forall e, fst r = Raise e -> is_Exception e = true ->
                    requests (snd (snd r)) = requests w
                    /\ replies (snd (snd r)) = replies w)).
  change (P (send_webhook name payload (m, w))).
  assert (Hsame : forall o, P (o, (m, w))).
  { intros o. unfold P. cbn [fst snd]. repeat split. left. reflexivity. }
  assert (Hlogged : forall lv msg, P (Ok tt, (m, emit (Logged lv msg) w))).
  { intros lv msg. unfold P. cbn [fst snd]. rewrite requests_emit_logged.
    repeat split; try (left; reflexivity); intros; discriminate. }
  unfold send_webhook, bind at 1, config_get, gets. cbn [fst].
  unfold bind at 1, lift at 1.
  destruct (py_get_by _ name) as [webhook | e0 |]; try apply Hsame.
  destruct (truthy webhook); cbn [negb]; [| apply Hlogged].
  unfold bind at 1, lift at 1.
  destruct (py_get webhook "url" VNone) as [url | e0 |]; try apply Hsame.
  unfold bind at 1, lift at 1.
  destruct (py_get webhook "method" (VStr "POST")) as [meth | e0 |];
    try apply Hsame.
  unfold bind at 1.
  destruct meth as [| b | z | f | s | l | d]; try apply Hsame.
  unfold ret at 1.
  unfold bind at 1, lift at 1.
  destruct (py_get webhook "headers" (VDict [])) as [headers | e0 |];
    try apply Hsame.
  unfold bind at 1, lift at 1.
  destruct (dict_merge _ headers) as [all_headers | e0 |]; try apply Hsame.
  unfold bind at 1, lift at 1.
  destruct (request_check url) as [[] | e0 |]; try apply Hsame.
  unfold try_except, bind at 1, lift at 1.
  destruct (py_get webhook "timeout" (VInt 10)) as [timeout | e0 |].
  - unfold bind, on_world, zoom, urlopen, info, error, log, modify. cbn [fst snd].
    set (rq := {| rq_url := url; rq_method := str_upper s; rq_headers := all_headers;
                  rq_body := encode_utf8 (json_dumps payload); rq_timeout := timeout |}).
    assert (Hsent : forall o w', requests w' = requests w ++ [rq] ->
                                 (forall e, o = Raise e -> is_Exception e = false) ->
                                 P (o, (m, w'))).
    { intros o w' Hrq Ho. unfold P. cbn [fst snd]. split; [reflexivity |].
      split; [right; exists rq; exact Hrq |].
      intros e He Hexn. rewrite (Ho e He) in Hexn. discriminate. }
    destruct (replies (emit (Requested rq) w)) as [| [status | e0 |] rest] eqn:Hreplies;
      cbn [fst snd is_Exception];
      try destruct (is_Exception e0) eqn:He0; cbn [fst snd];
      apply Hsent.
    all: try (cbn [snd]; rewrite ?requests_emit_logged; unfold requests;
              cbn [trace emit]; rewrite flat_map_app; reflexivity).
    all: intros e He; try discriminate.
    injection He as <-. exact He0.
  - destruct (is_Exception e0) eqn:He0; cbn [fst snd].
    + apply Hlogged.
    + apply Hsame.
  - apply Hsame.
Qed.

End Webhooks.

(** ** handle_event over a list of rules *)

Section Matches.
Context {rt : Runtime}.

Import MempoolMonitor.

(** One pass of the loop, for a rule that can be compared and
    evaluated: a match is logged, and nothing else changes. *)
Lemma handle_rule_logs_a_match (event_type : string) (event_data rule : value)
  (b : bool) (s : st) :
  rule_matches event_type event_data rule = Ok b ->
  handle_rule event_type event_data rule s
  = (Ok tt, (fst s, emit_all (if b then [match_line rule] else []) (snd s))).
Proof.
  intros Hb. rewrite handle_rule_effect. unfold rule_effect.
  unfold rule_matches in Hb. destruct s as [m w].
  destruct (py_get rule "event" VNone) as [ev | e |]; cbn [and_then] in Hb;
    try discriminate.
  destruct (py_eq ev (VStr event_type)).
  - rewrite Hb. destruct b; reflexivity.
  - injection Hb as <-. reflexivity.
Qed.

Lemma handle_rules_log_matches (event_type : string) (event_data : value)
  (rules : list value) (m : t) (w : world) :
  Forall (fun rule => exists b, rule_matches event_type event_data rule = Ok b) rules ->
  for_each rules (handle_rule event_type event_data) (m, w)
  = (Ok tt, (m, emit_all (match_lines event_type event_data rules) w)).
Proof.
  intros Hall. revert w. induction Hall as [| rule rules [b Hb] _ IH]; intros w.
  - reflexivity.
  - cbn [for_each]. unfold bind.
    rewrite (handle_rule_logs_a_match event_type event_data rule b (m, w) Hb).
    cbn [fst snd]. rewrite IH.
    unfold match_lines. cbn [flat_map]. rewrite Hb.
    unfold emit_all. rewrite fold_left_app. destruct b; reflexivity.
Qed.

Lemma handle_event_over_rules (event_type : string) (event_data : value)
  (rules : list value) (s : st) :
  dict_get (config (fst s)) "triggers" = Some (VList rules) ->
  handle_event event_type event_data s
  = for_each rules (handle_rule event_type event_data) s.
Proof.
  intros Hrules. unfold handle_event, bind at 1, config_get, gets.
  rewrite Hrules. reflexivity.
Qed.

(** X19: every match is logged, in the order of the rules.  When each
    rule of the configuration can be compared with the event and, if it
    is the event's, evaluated, [handle_event] returns normally, the
    monitor is as before, and the world has gained exactly one line
    "[TRIGGER] ... matched" per matching rule, in the order in which the
    rules are configured. *)
Theorem matches_are_logged_in_rule_order (event_type : string) (event_data : value)
  (rules : list value) (m : t) (w : world) :
  dict_get (config m) "triggers" = Some (VList rules) ->
  Forall (fun rule => exists b, rule_matches event_type event_data rule = Ok b) rules ->
  handle_event event_type event_data (m, w)
  = (Ok tt, (m, emit_all (match_lines event_type event_data rules) w)).
Proof.
  intros Hrules Hall.
  rewrite (handle_event_over_rules event_type event_data rules (m, w) Hrules).
  apply handle_rules_log_matches. exact Hall.
Qed.

(** X20: the rules of other events are not evaluated.  When no rule of
    the configuration is for the event's category, [handle_event] changes
    nothing and raises nothing, whatever the rules hold otherwise: a rule
    that would raise if it were evaluated does not disturb the events of
    other categories. *)
Theorem rules_of_other_events_are_not_evaluated (event_type : string)
  (event_data : value) (rules : list value) (m : t) (w : world) :
  dict_get (config m) "triggers" = Some (VList rules) ->
  Forall (fun rule => exists ev, py_get rule "event" VNone = Ok ev
                                 /\ py_eq ev (VStr event_type) = false) rules ->
  handle_event event_type event_data (m, w) = (Ok tt, (m, w)).
Proof.
  intros Hrules Hall.
  rewrite (handle_event_over_rules event_type event_data rules (m, w) Hrules).
  assert (Hquiet : Forall (fun rule => rule_matches event_type event_data rule = Ok false)
                          rules).
  { eapply Forall_impl; [| exact Hall]. intros rule [ev [Hev Hne]].
    unfold rule_matches. rewrite Hev. cbn [and_then]. rewrite Hne. reflexivity. }
  rewrite handle_rules_log_matches
    by (eapply Forall_impl; [| exact Hquiet]; intros rule H; exists false; exact H).
  assert (Hnone : match_lines event_type event_data rules = []).
  { clear Hrules Hall. induction Hquiet as [| rule rules Hq _ IH]; [reflexivity |].
    unfold match_lines in *. cbn [flat_map]. rewrite Hq, IH. reflexivity. }
  rewrite Hnone. reflexivity.
Qed.

End Matches.

(** ** subscribe and the first connection *)

Section FirstConnection.
Context {rt : Runtime}.

Import MempoolMonitor.

(** X21: a request that could not be sent is not recorded.  When the
    monitor has no socket object, or one that is not connected,
    [subscribe] of a category that is not yet in the set raises and
    leaves the monitor and the world exactly as they were: the category
    does not enter the set, so a later call asks for it again. *)
Theorem failed_send_records_no_subscription (e : value) (m : t) (w : world) :
  set_mem e (subscriptions m) = Ok false ->
  (forall x, ws m = Some x -> SimpleWebSocket.connected x = false) ->
  exists err, subscribe e (m, w) = (Raise err, (m, w)) /\ is_Exception err = true.
Proof.
  intros Hnew Hdown.
  unfold subscribe, bind at 1, gets. cbn [fst].
  unfold bind at 1, lift at 1. rewrite Hnew.
  unfold bind at 1, on_ws. cbn [fst snd].
  destruct (ws m) as [x |] eqn:Hws.
  - exists NotConnected. split; [| reflexivity].
    unfold SimpleWebSocket.send, bind at 1, gets. rewrite (Hdown x eq_refl).
    cbn [negb raise]. rewrite (set_ws_same m x Hws). reflexivity.
  - exists AttributeError. split; reflexivity.
Qed.








End FirstConnection.

(** ** Routing what is not an object *)

Section Scalars.
Context {rt : Runtime}.

Import MempoolMonitor.

(** X23: only a JSON object is ever handled.  For a decoded message
    that is not an object, [route] hands nothing to [handle_event]: it
    either finds none of the keys and returns, or raises TypeError (at
    [key in data] for null, a boolean or a number; at [data[key]] for a
    string or a list in which a key was found); the monitor and the
    world are as before. *)
Theorem only_objects_are_routed (data : value) (s : st) :
  (forall d, data <> VDict d) ->
  route data s = (Ok tt, s) \/ route data s = (Raise TypeError, s).
Proof.
  intros Hobj. unfold route, EVENT_MAP. cbn [for_each].
  destruct data as [| b | z | f | x | l | d];
    try (right; reflexivity).
  - unfold bind, lift. cbn [py_in py_getitem].
    destruct (substringb "blocks" x); [right; reflexivity |].
    destruct (substringb "mempool" x); [right; reflexivity |].
    destruct (substringb "txs" x); [right; reflexivity |].
    destruct (substringb "transactions" x); [right; reflexivity |].
    left. reflexivity.
  - unfold bind, lift. cbn [py_in py_getitem].
    destruct (existsb _ l); [right; reflexivity |].
    destruct (existsb _ l); [right; reflexivity |].
    destruct (existsb _ l); [right; reflexivity |].
    destruct (existsb _ l); [right; reflexivity |].
    left. reflexivity.
  - exfalso. apply (Hobj d). reflexivity.
Qed.

(** X24: a delay that [time.sleep] rejects ends [run].  With the flag
    set, the first connection attempt fails, the error and the notice
    "Reconnecting in ..." are logged, and the exception [time.sleep]
    raises for the configured delay (a string, a negative number) leaves
    [run] from inside its handler: there is no second attempt. *)
Theorem rejected_delay_ends_run (fuel : nat) (m : t) (w : world) (e : exn) :
  running m = true ->
  sleep_check (reconnect_delay_of m) = Raise e ->
  run (S fuel) (m, w)
  = Some (Raise e,
          (set_ws (Some (SimpleWebSocket.init (feed_url m))) m,
           emit (Logged INFO (MsgReconnecting (reconnect_delay_of m)))
             (emit (Logged ERROR (MsgConnectionError ImportError))
                (emit (Logged INFO (MsgConnecting (feed_url m)))
                   (announced (config_path m) w))))).
Proof.
  intros Hrun Hsleep. rewrite run_prologue. fold (reconnect_delay_of m).
  cbn [run_loop fst]. rewrite Hrun, monitor_connect_raises.
  cbn [is_Exception].
  unfold on_connection_error, bind, error, info, on_world, zoom, time_sleep, bind, lift.
  cbn [fst snd log modify]. rewrite Hsleep. reflexivity.
Qed.

End Scalars.

(** ** load_config *)

Section Configuration.
Context {rt : Runtime}.

Import MempoolMonitor.

Lemma same_str (a : string) (k : value) :
  same (VStr a) k = match k with VStr s => String.eqb a s | _ => false end.
Proof. destruct k; reflexivity. Qed.

(** Lookup after an assignment, for [str] keys. *)
Lemma items_get_set (c : items) (a k : string) (v : value) :
  items_get (items_set c (VStr a) v) (VStr k)
  = if String.eqb a k then Some v else items_get c (VStr k).
Proof.
  induction c as [| [k' v'] c IH]; cbn [items_set items_get].
  - rewrite same_str, (String.eqb_sym k a). reflexivity.
  - rewrite (same_str a k'). destruct k' as [| b | z | f | s | l | d];
      cbn [items_get]; rewrite ?same_str; try exact IH.
    destruct (String.eqb a s) eqn:Has; cbn [items_get]; rewrite same_str.
    + apply String.eqb_eq in Has. subst s. rewrite (String.eqb_sym k a).
      destruct (String.eqb a k); reflexivity.
    + destruct (String.eqb k s) eqn:Hks; [| exact IH].
      apply String.eqb_eq in Hks. subst s. rewrite Has. reflexivity.
Qed.

(** What [d.get("...")] finds under [str] keys is what the items hold. *)
Lemma str_items_get (c : items) (k : string) :
  dict_get (str_items c) k = items_get c (VStr k).
Proof.
  induction c as [| [k' v'] c IH]; [reflexivity |].
  unfold str_items in *. cbn [flat_map fst snd items_get]. rewrite same_str.
  destruct k' as [| b | z | f | s | l | d]; cbn [app]; try exact IH.
  cbn [dict_get]. rewrite (String.eqb_sym s k).
  destruct (String.eqb k s); [reflexivity | exact IH].
Qed.

Lemma of_dict_get (d : dict) (k : string) :
  items_get (of_dict d) (VStr k) = dict_get d k.
Proof.
  induction d as [| [a v] d IH]; [reflexivity |].
  cbn [of_dict map fst snd items_get dict_get]. rewrite same_str, (String.eqb_sym k a).
  destruct (String.eqb a k); [reflexivity | exact IH].
Qed.

(** Merging a decoded object whose keys are distinct: each of its keys
    gets its value, the others keep theirs. *)
Lemma merge_lookup (loaded : dict) (c : items) (k : string) :
  NoDup (map fst loaded) ->
  items_get (fold_left (fun acc kv => items_set acc (VStr (fst kv)) (snd kv)) loaded c)
            (VStr k)
  = match dict_get loaded k with
    | Some v => Some v
    | None => items_get c (VStr k)
    end.
Proof.
  revert c. induction loaded as [| [a v] loaded IH]; intros c Hnodup; [reflexivity |].
  cbn [map fst] in Hnodup. inversion Hnodup as [| ? ? Hnotin Hrest]; subst.
  cbn [fold_left fst snd dict_get]. rewrite (IH _ Hrest), items_get_set.
  destruct (String.eqb a k) eqn:Hak; [| reflexivity].
  apply String.eqb_eq in Hak. subst k.
  destruct (dict_get loaded a) as [v' |] eqn:Hget; [| reflexivity].
  exfalso. apply Hnotin. clear - Hget.
  induction loaded as [| [b w] loaded IH]; [discriminate |].
  cbn [dict_get] in Hget. cbn [map fst].
  destruct (String.eqb b a) eqn:Hba.
  - left. apply String.eqb_eq. exact Hba.
  - right. apply IH. exact Hget.
Qed.

(** [load_config] when the file exists, is read, and decodes. *)
Lemma load_config_decoded (path text : string) (v : value) (fs : files) :
  present fs path = true ->
  contents fs path = Ok text ->
  json_loads text = Some v ->
  load_config path fs
  = match update v (of_dict DEFAULT_CONFIG) with
    | (Ok _, config) => (Ok config, fs)
    | (Raise e, config) =>
        if is_Exception e then (Ok config, load_failed e fs) else (Raise e, fs)
    | (Hang, config) => (Hang, fs)
    end.
Proof.
  intros Hpresent Htext Hjson.
  unfold load_config, bind at 1, zoom at 1, path_exists, gets. cbn [fst snd].
  rewrite Hpresent.
  unfold try_except, bind at 1, zoom at 1, json_load, bind at 1, read_text.
  cbn [fst snd]. rewrite Htext, Hjson. unfold ret at 1. cbn [fst snd].
  unfold zoom. cbn [fst snd].
  destruct (update v (of_dict DEFAULT_CONFIG)) as [[[] | e |] config]; try reflexivity.
  destruct (is_Exception e); reflexivity.
Qed.

(** X25: a configuration file merges over the defaults, key by key.
    When the file exists and holds a JSON object, [load_config] returns
    without logging anything, and in the configuration it returns every
    key of the file has the file's value and every other key its
    default: the merge is shallow, a key of the file replaces the whole
    default value. *)
Theorem load_config_merges_over_defaults (path text : string) (loaded : dict)
  (fs : files) :
  present fs path = true ->
  contents fs path = Ok text ->
  json_loads text = Some (VDict loaded) ->
  NoDup (map fst loaded) ->
  exists cfg,
    load_config path fs = (Ok cfg, fs)
    /\ forall k, dict_get (str_items cfg) k
                 = match dict_get loaded k with
                   | Some v => Some v
                   | None => dict_get DEFAULT_CONFIG k
                   end.
Proof.
  intros Hpresent Htext Hjson Hnodup.
  rewrite (load_config_decoded path text (VDict loaded) fs Hpresent Htext Hjson).
  cbn [update modify]. eexists. split; [reflexivity |].
  intros k. rewrite str_items_get, (merge_lookup loaded _ k Hnodup), of_dict_get.
  reflexivity.
Qed.

(** The ways in which [load_config] ends with the defaults. *)
Lemma load_config_fallbacks (path : string) (fs : files) :
  (present fs path = false ->
   load_config path fs = (Ok (of_dict DEFAULT_CONFIG), fs))
  /\ (forall e, present fs path = true -> contents fs path = Raise e ->
        is_Exception e = true ->
        load_config path fs = (Ok (of_dict DEFAULT_CONFIG), load_failed e fs))
  /\ (forall text, present fs path = true -> contents fs path = Ok text ->
        json_loads text = None ->
        load_config path fs
        = (Ok (of_dict DEFAULT_CONFIG), load_failed JSONDecodeError fs))
  /\ (forall text v, present fs path = true -> contents fs path = Ok text ->
        json_loads text = Some v -> is_scalar v = true ->
        load_config path fs = (Ok (of_dict DEFAULT_CONFIG), load_failed TypeError fs)).
Proof.
  split; [| split; [| split]].
  - intros Habsent. unfold load_config, bind at 1, zoom at 1, path_exists, gets.
    cbn [fst snd]. rewrite Habsent. reflexivity.
  - intros e Hpresent Hread Hexn.
    unfold load_config, bind at 1, zoom at 1, path_exists, gets. cbn [fst snd].
    rewrite Hpresent.
    unfold try_except, bind at 1, zoom at 1, json_load, bind at 1, read_text.
    cbn [fst snd]. rewrite Hread. cbn [fst snd]. rewrite Hexn. reflexivity.
  - intros text Hpresent Hread Hjson.
    unfold load_config, bind at 1, zoom at 1, path_exists, gets. cbn [fst snd].
    rewrite Hpresent.
    unfold try_except, bind at 1, zoom at 1, json_load, bind at 1, read_text.
    cbn [fst snd]. rewrite Hread, Hjson. reflexivity.
  - intros text v Hpresent Hread Hjson Hscalar.
    rewrite (load_config_decoded path text v fs Hpresent Hread Hjson).
    destruct v; try discriminate; reflexivity.
Qed.

(** X26: a file that cannot be used leaves the defaults.  Without a
    file, [load_config] returns the defaults and logs nothing.  With a
    file that cannot be read, that does not decode, or that decodes to
    null, a boolean or a number, it logs "Failed to load config" with the
    exception and returns the defaults: it does not raise. *)
Theorem unusable_config_file_leaves_the_defaults (path : string) (fs : files) :
  (present fs path = false ->
   load_config path fs = (Ok (of_dict DEFAULT_CONFIG), fs))
  /\ (forall e, present fs path = true -> contents fs path = Raise e ->
        is_Exception e = true ->
        load_config path fs = (Ok (of_dict DEFAULT_CONFIG), load_failed e fs))
  /\ (forall text, present fs path = true -> contents fs path = Ok text ->
        json_loads text = None ->
        load_config path fs
        = (Ok (of_dict DEFAULT_CONFIG), load_failed JSONDecodeError fs))
  /\ (forall text v, present fs path = true -> contents fs path = Ok text ->
        json_loads text = Some v -> is_scalar v = true ->
        load_config path fs = (Ok (of_dict DEFAULT_CONFIG), load_failed TypeError fs)).
Proof. exact (load_config_fallbacks path fs). Qed.

Lemma items_set_keeps (c : items) (k' v : value) (k : string) :
  items_get c (VStr k) <> None -> items_get (items_set c k' v) (VStr k) <> None.
Proof.
  induction c as [| [a w] c IH]; [intros H; contradiction H; reflexivity |].
  cbn [items_set items_get]. intros H.
  destruct (same k' a); cbn [items_get]; destruct (same (VStr k) a); try discriminate.
  - exact H.
  - apply IH. exact H.
Qed.

Lemma update_pairs_keeps (elems : list value) (c : items) (k : string) :
  items_get c (VStr k) <> None ->
  items_get (snd (update_pairs elems c)) (VStr k) <> None.
Proof.
  revert c. induction elems as [| elem elems IH]; intros c H; [exact H |].
  cbn [update_pairs]. unfold bind at 1, lift at 1.
  destruct (pair_of elem) as [[k' v] | e |]; try exact H.
  cbn [fst snd]. destruct (hashable k'); [| exact H].
  unfold bind, modify. apply IH. apply items_set_keeps. exact H.
Qed.

Lemma update_keeps (other : value) (c : items) (k : string) :
  items_get c (VStr k) <> None ->
  items_get (snd (update other c)) (VStr k) <> None.
Proof.
  intros H. destruct other as [| b | z | f | s | l | d]; try exact H.
  - apply update_pairs_keeps. exact H.
  - apply update_pairs_keeps. exact H.
  - cbn [update modify snd]. revert c H.
    induction d as [| [a v] d IH]; intros c H; [exact H |].
    cbn [fold_left]. apply IH. apply items_set_keeps. exact H.
Qed.

(** [update] returns or raises an [Exception]. *)
Lemma pair_of_outcome (elem : value) :
  match pair_of elem with
  | Ok _ => True
  | Raise e => is_Exception e = true
  | Hang => False
  end.
Proof.
  destruct elem as [| b | z | f | s | [| x [| y [| ? ?]]] | [| [? ?] [| [? ?] [| ? ?]]]];
    cbn [pair_of]; try exact I; try reflexivity.
  destruct (utf8_chars s) as [| ? [| ? [| ? ?]]]; try exact I; reflexivity.
Qed.

Lemma update_pairs_outcome (elems : list value) (c : items) :
  match fst (update_pairs elems c) with
  | Ok _ => True
  | Raise e => is_Exception e = true
  | Hang => False
  end.
Proof.
  revert c. induction elems as [| elem elems IH]; intros c; [exact I |].
  cbn [update_pairs]. unfold bind at 1, lift at 1.
  pose proof (pair_of_outcome elem) as Hpair.
  destruct (pair_of elem) as [[k' w] | e |]; cbn [fst snd]; try exact Hpair.
  destruct (hashable k'); [unfold bind, modify; apply IH | reflexivity].
Qed.

Lemma update_outcome (other : value) (c : items) :
  match fst (update other c) with
  | Ok _ => True
  | Raise e => is_Exception e = true
  | Hang => False
  end.
Proof.
  destruct other as [| b | z | f | s | l | d]; cbn [update];
    try reflexivity; apply update_pairs_outcome || exact I.
Qed.

(** X27: whatever the file holds, the defaults' keys are there.  For
    every file system, [load_config] returns a configuration (it raises
    only what reading the file raised that is no [Exception]), and that
    configuration holds a value for each of the four default keys, the
    file's or the default. *)
Theorem load_config_keeps_the_default_keys (path : string) (fs : files) :
  match fst (load_config path fs) with
  | Ok cfg => forall k v, dict_get DEFAULT_CONFIG k = Some v ->
                          exists v', dict_get (str_items cfg) k = Some v'
  | Raise e => contents fs path = Raise e /\ is_Exception e = false
  | Hang => contents fs path = Hang
  end.
Proof.
  assert (Hhas : forall (c : items) k v,
             (forall k', items_get (of_dict DEFAULT_CONFIG) (VStr k') <> None ->
                         items_get c (VStr k') <> None) ->
             dict_get DEFAULT_CONFIG k = Some v ->
             exists v', dict_get (str_items c) k = Some v').
  { intros c k v Hkeep Hk. rewrite str_items_get.
    destruct (items_get c (VStr k)) as [v' |] eqn:Hget; [exists v'; reflexivity |].
    exfalso. apply (Hkeep k); [| exact Hget]. rewrite of_dict_get, Hk. discriminate. }
  destruct (load_config_fallbacks path fs)
    as [Habsent [Hunread [Hundecoded _]]].
  destruct (present fs path) eqn:Hpresent.
  - destruct (contents fs path) as [text | e |] eqn:Hread.
    + destruct (json_loads text) as [v |] eqn:Hjson.
      * rewrite (load_config_decoded path text v fs Hpresent Hread Hjson).
        pose proof (fun k => update_keeps v (of_dict DEFAULT_CONFIG) k) as Hkeep.
        pose proof (update_outcome v (of_dict DEFAULT_CONFIG)) as Hout.
        destruct (update v (of_dict DEFAULT_CONFIG)) as [[[] | e |] config];
          cbn [fst snd] in Hkeep, Hout.
        -- intros k d. apply Hhas. exact Hkeep.
        -- rewrite Hout. intros k d. apply Hhas. exact Hkeep.
        -- contradiction.
      * rewrite (Hundecoded text eq_refl eq_refl Hjson). intros k d. apply Hhas. tauto.
    + destruct (is_Exception e) eqn:Hexn.
      * rewrite (Hunread e eq_refl eq_refl Hexn). intros k d. apply Hhas. tauto.
      * unfold load_config, bind at 1, zoom at 1, path_exists, gets. cbn [fst snd].
        rewrite Hpresent.
        unfold try_except, bind at 1, zoom at 1, json_load, bind at 1, read_text.
        cbn [fst snd]. rewrite Hread. cbn [fst snd]. rewrite Hexn. cbn [fst].
        split; (reflexivity || assumption).
    + unfold load_config, bind at 1, zoom at 1, path_exists, gets. cbn [fst snd].
      rewrite Hpresent.
      unfold try_except, bind at 1, zoom at 1, json_load, bind at 1, read_text.
      cbn [fst snd]. rewrite Hread. reflexivity.
  - rewrite (Habsent eq_refl). intros k d. apply Hhas. tauto.
Qed.

End Configuration.

(** ** The command line *)

Section CommandLine.

Lemma other_options_keep_the_path (opts : list (string * string)) (path : string) :
  forallb (fun oa => negb (names_config oa)) opts = true ->
  fold_left (fun config_path oa =>
               if String.eqb (fst oa) "-c" || String.eqb (fst oa) "--config"
               then snd oa else config_path) opts path
  = path.
Proof.
  revert path. induction opts as [| oa opts IH]; intros path H; [reflexivity |].
  cbn [forallb] in H. apply andb_true_iff in H. destruct H as [Hoa Hrest].
  cbn [fold_left]. unfold names_config in Hoa.
  apply negb_true_iff in Hoa. rewrite Hoa. apply IH. exact Hrest.
Qed.

(** X28: the last option that names the configuration file wins.  Of
    the options [getopt] returned, the argument of the last [-c] or
    [--config] is the path; with no such option, and when [getopt]
    refused the command line, the path is "config.json". *)
Theorem last_config_option_wins (before after : list (string * string))
  (opt arg : string) :
  names_config (opt, arg) = true ->
  forallb (fun oa => negb (names_config oa)) after = true ->
  config_path_of (Some (before ++ (opt, arg) :: after)) = arg
  /\ config_path_of (Some after) = "config.json"
  /\ config_path_of None = "config.json".
Proof.
  intros Hopt Hafter. unfold config_path_of. repeat split.
  - rewrite fold_left_app. cbn [fold_left fst snd].
    unfold names_config in Hopt. cbn [fst] in Hopt. rewrite Hopt.
    apply other_options_keep_the_path. exact Hafter.
  - apply other_options_keep_the_path. exact Hafter.
Qed.

End CommandLine.

(** ** The handshake: the key, and the wait for the response *)

Section Handshaking.

Import SimpleWebSocket.

(** X29: the handshake key.  When the system's entropy source
    delivers the 16 bytes asked for, [_create_websocket_key] returns
    their base64 text: 24 characters, of which the last two are the
    padding "==".  It uses up one draw of entropy and does nothing else
    to the world. *)
Theorem websocket_key_has_24_characters (w : world) :
  (16 <= List.length (urandom w (urandom_calls w)))%nat ->
  exists body,
    fst (_create_websocket_key w)
    = Ok (b64encode (firstn 16 (urandom w (urandom_calls w))))
    /\ b64encode (firstn 16 (urandom w (urandom_calls w))) = (body ++ "==")%string
    /\ String.length body = 22%nat
    /\ urandom_calls (snd (_create_websocket_key w)) = S (urandom_calls w)
    /\ trace (snd (_create_websocket_key w)) = trace w.
Proof.
  intros Hlen.
  destruct (urandom w (urandom_calls w))
    as [| b1 [| b2 [| b3 [| b4 [| b5 [| b6 [| b7 [| b8 [| b9 [| b10 [| b11 [| b12
        [| b13 [| b14 [| b15 [| b16 rest]]]]]]]]]]]]]]]] eqn:Hbytes;
    cbn [List.length] in Hlen; try lia.
  cbn [firstn b64encode].
  match goal with
  | |- exists body, _ /\ ?key = _ /\ _ =>
      exists (substring 0 22 key)
  end.
  cbn [substring].
  split; [| repeat split].
  unfold _create_websocket_key, bind, os_urandom, ret. cbn [fst]. rewrite Hbytes.
  reflexivity.
Qed.

Lemma string_of_bytes_app (a b : bytes) :
  string_of_list_byte (a ++ b)
  = (string_of_list_byte a ++ string_of_list_byte b)%string.
Proof.
  induction a as [| x a IH]; [reflexivity |].
  cbn [app]. unfold string_of_list_byte in *. cbn [map string_of_list_ascii].
  cbn [String.append]. rewrite IH. reflexivity.
Qed.

Lemma string_append_assoc (a b c : string) :
  ((a ++ b) ++ c = a ++ (b ++ c))%string.
Proof. induction a as [| x a IH]; cbn [String.append]; [reflexivity | now rewrite IH]. Qed.

(** What is not in a byte string is not in its beginning. *)
Lemma bytes_contains_prefix (pat a b : bytes) :
  bytes_contains pat (a ++ b) = false -> bytes_contains pat a = false.
Proof.
  unfold bytes_contains. intros H.
  destruct (substringb _ (string_of_list_byte a)) eqn:Ha; [| reflexivity].
  apply substringb_iff in Ha. destruct Ha as [pre [post Ha]].
  assert (Hab : substringb (string_of_list_byte pat) (string_of_list_byte (a ++ b)) = true).
  { apply substringb_iff. exists pre, (post ++ string_of_list_byte b)%string.
    rewrite string_of_bytes_app, Ha, !string_append_assoc. reflexivity. }
  congruence.
Qed.

(** A read takes bytes off the front of what the peer sent. *)
Lemma sock_recv_concat (n : Z) (s : socket) :
  fst (sock_recv n s) ++ List.concat (inbox (snd (sock_recv n s)))
  = List.concat (inbox s).
Proof.
  unfold sock_recv. destruct (inbox s) as [| chunk rest] eqn:Hbox.
  - cbn [fst snd]. rewrite Hbox. reflexivity.
  - destruct (len chunk <=? n); cbn [fst snd inbox List.concat]; [reflexivity |].
    rewrite app_assoc, firstn_skipn. reflexivity.
Qed.

Lemma read_response_waits (fuel : nat) (r : bytes) (s : socket) :
  bytes_contains terminator (r ++ List.concat (inbox s)) = false ->
  fst (read_response fuel r s) = Hang.
Proof.
  revert r s. induction fuel as [| fuel IH]; intros r s H;
    rewrite read_response_step, (bytes_contains_prefix _ _ _ H); [reflexivity |].
  pose proof (sock_recv_concat 1024 s) as Hcat.
  destruct (sock_recv 1024 s) as [chunk s']. cbn [fst snd] in Hcat.
  apply IH. rewrite <- app_assoc, Hcat. exact H.
Qed.

(** X30: the handshake waits for the blank line, for ever.  The loop
    that reads the server's response goes on until the response holds
    the blank line that ends the headers.  When what the peer sends
    before it closes does not hold one, the loop never ends: each read
    after the close returns nothing, and there is no timeout and no test
    for an empty read. *)
Theorem handshake_waits_for_the_blank_line (fuel : nat) (s : socket) :
  bytes_contains terminator (List.concat (inbox s)) = false ->
  fst (read_response fuel [] s) = Hang.
Proof.
  intros H. apply read_response_waits. exact H.
Qed.

End Handshaking.

(** ** Witnesses, once more *)

(** [recv_takes_exactly_the_frame_sent]: the text "block", with a
    second frame behind it. *)
Lemma recv_takes_exactly_the_frame_sent_witness :
  written_by_send "block" = frame_of "block"
  /\ SimpleWebSocket.recv (wire [written_by_send "block"; [x81; x00]])
     = (Ok "", wire [[x81; x00]]).
Proof.
  apply (recv_takes_exactly_the_frame_sent "block" [[x81; x00]]). reflexivity.
Defined.

(** [short_reads_break_the_framing]: a header that announces a 16-bit
    length, of which one byte has arrived. *)
Lemma short_reads_break_the_framing_witness :
  SimpleWebSocket.recv (wire [[x81]; [x00]]) = (Ok "", wire [[x00]])
  /\ fst (SimpleWebSocket.recv (wire [[x81; x7e; x01]; [x00]])) = Raise StructError.
Proof.
  apply (short_reads_break_the_framing x81 x7e [x01] _ 2); [reflexivity | cbn; lia].
Defined.

(** [closed_peer_is_never_noticed]: a monitor on a socket that has
    nothing more to deliver. *)
Lemma closed_peer_is_never_noticed_witness :
  SimpleWebSocket.recv (wire []) = (Ok "", wire [])
  /\ @MempoolMonitor.receive_once example_runtime (receiving (wire []), quiet_world)
     = (Ok true, (receiving (wire []), quiet_world))
  /\ @MempoolMonitor.receive_loop example_runtime 5 (receiving (wire []), quiet_world)
     = None.
Proof.
  apply (@closed_peer_is_never_noticed example_runtime 5 (receiving (wire [])) quiet_world
           (wire []) {| inbox := []; outbox := [] |}); reflexivity.
Defined.

(** [get_nested_composes]: "a" and "b" in [{"a": {"b": 5}}]. *)
Lemma get_nested_composes_witness :
  MempoolMonitor.get_nested nested_payload (VStr ("a" ++ "." ++ "b"))
  = (v <~ MempoolMonitor.get_nested nested_payload (VStr "a") ;;
     MempoolMonitor.get_nested v (VStr "b")).
Proof.
  apply (get_nested_composes nested_payload "a" "b"); discriminate.
Defined.

(** [get_nested_descends_objects_only]: the path "0" in a list. *)
Lemma get_nested_descends_objects_only_witness :
  MempoolMonitor.get_nested (VList [VInt 7]) (VStr "0") = Ok VNone.
Proof.
  apply (get_nested_descends_objects_only (VList [VInt 7]) "0"); discriminate.
Defined.

(** [numeric_rule_needs_a_value]: "height above" nothing. *)
Lemma numeric_rule_needs_a_value_witness :
  exists e, @MempoolMonitor.evaluate_rule example_runtime (VDict valueless_rule) a_block
            = Raise e
            /\ is_Exception e = true.
Proof.
  apply (@numeric_rule_needs_a_value example_runtime valueless_rule a_block (VInt 5) ">");
    [cbn; tauto | reflexivity | reflexivity | reflexivity].
Defined.

(** [absent_field_counts_as_zero]: "fee below 1" on a block, which has
    no fee. *)
Lemma absent_field_counts_as_zero_witness :
  (dict_get cheap_rule "operator" = Some (VStr "<")
   -> @MempoolMonitor.evaluate_rule example_runtime (VDict cheap_rule) a_block = Ok true)
  /\ (dict_get cheap_rule "operator" = Some (VStr "<=")
      -> @MempoolMonitor.evaluate_rule example_runtime (VDict cheap_rule) a_block = Ok true)
  /\ (dict_get cheap_rule "operator" = Some (VStr ">")
      -> @MempoolMonitor.evaluate_rule example_runtime (VDict cheap_rule) a_block = Ok false)
  /\ (dict_get cheap_rule "operator" = Some (VStr ">=")
      -> @MempoolMonitor.evaluate_rule example_runtime (VDict cheap_rule) a_block = Ok false).
Proof.
  apply (@absent_field_counts_as_zero example_runtime cheap_rule a_block VNone
           4503599627370496 (-52)); reflexivity.
Defined.

(** [equality_is_the_default_operator]: the rule [{"field": "fee"}] on
    a block, which has no fee. *)
Lemma equality_is_the_default_operator_witness :
  (dict_get bare_rule "operator" = None
   -> @MempoolMonitor.evaluate_rule example_runtime (VDict bare_rule) a_block
      = Ok (py_eq VNone (rule_target bare_rule)))
  /\ (dict_get bare_rule "operator" = Some (VStr "==")
      -> @MempoolMonitor.evaluate_rule example_runtime (VDict bare_rule) a_block
         = Ok (py_eq VNone (rule_target bare_rule)))
  /\ (dict_get bare_rule "operator" = Some (VStr "!=")
      -> @MempoolMonitor.evaluate_rule example_runtime (VDict bare_rule) a_block
         = Ok (negb (py_eq VNone (rule_target bare_rule))))
  /\ (dict_get bare_rule "operator" = None -> dict_get bare_rule "value" = None
      -> VNone = VNone
      -> @MempoolMonitor.evaluate_rule example_runtime (VDict bare_rule) a_block = Ok true).
Proof.
  apply (@equality_is_the_default_operator example_runtime bare_rule a_block VNone).
  reflexivity.
Defined.

(** [unknown_endpoint_is_only_warned]: the name "nowhere" when only
    "hook" is configured. *)
Lemma unknown_endpoint_is_only_warned_witness :
  @MempoolMonitor.send_webhook example_runtime (VStr "nowhere") a_block
    (monitor_with [] [("hook", a_hook)], quiet_world)
  = (Ok tt,
     (monitor_with [] [("hook", a_hook)],
      emit (Logged WARNING (MsgWebhookNotFound (VStr "nowhere"))) quiet_world)).
Proof.
  apply (@unknown_endpoint_is_only_warned example_runtime "nowhere" [("hook", a_hook)]);
    [reflexivity | discriminate].
Defined.

(** [plain_endpoint_request]: the endpoint "hook", and a server that
    answers 200. *)
Lemma plain_endpoint_request_witness :
  (forall status, Ok 200 = Ok status ->
     @MempoolMonitor.send_webhook example_runtime (VStr "hook") a_block
       (monitor_with [] [("hook", a_hook)], answering_world)
     = (Ok tt,
        (monitor_with [] [("hook", a_hook)],
         emit (Logged INFO (MsgWebhookStatus (VStr "hook")
                              (VStr "http://hooks.example/block") status))
           (answered (emit (Requested (@plain_request example_runtime
                                         (VStr "http://hooks.example/block") a_block))
                        answering_world)))))
  /\ (forall e, Ok 200 = Raise e -> is_Exception e = true ->
        @MempoolMonitor.send_webhook example_runtime (VStr "hook") a_block
          (monitor_with [] [("hook", a_hook)], answering_world)
        = (Ok tt,
           (monitor_with [] [("hook", a_hook)],
            emit (Logged ERROR (MsgWebhookFailed (VStr "hook") e))
              (answered (emit (Requested (@plain_request example_runtime
                                            (VStr "http://hooks.example/block") a_block))
                           answering_world))))).
Proof.
  apply (@plain_endpoint_request example_runtime "hook" (VStr "http://hooks.example/block")
           a_block [("hook", a_hook)] _ answering_world (Ok 200) []); reflexivity.
Defined.

(** [matches_are_logged_in_rule_order]: three rules, two of them on
    "block", and a block. *)
Lemma matches_are_logged_in_rule_order_witness :
  @MempoolMonitor.handle_event example_runtime "block" a_block
    (monitor_with three_rules [], quiet_world)
  = (Ok tt,
     (monitor_with three_rules [],
      emit_all (@match_lines example_runtime "block" a_block three_rules) quiet_world)).
Proof.
  apply (@matches_are_logged_in_rule_order example_runtime "block" a_block three_rules);
    [reflexivity |].
  repeat constructor; eexists; reflexivity.
Defined.

(** [rules_of_other_events_are_not_evaluated]: a rule on "block" that
    raises when it is evaluated, and an event of the category "tx". *)
Lemma rules_of_other_events_are_not_evaluated_witness :
  @MempoolMonitor.handle_event example_runtime "tx" a_block
    (monitor_with [extras_rule] [], quiet_world)
  = (Ok tt, (monitor_with [extras_rule] [], quiet_world)).
Proof.
  apply (@rules_of_other_events_are_not_evaluated example_runtime "tx" a_block [extras_rule]);
    [reflexivity |].
  repeat constructor. exists (VStr "block"). split; reflexivity.
Defined.

(** [failed_send_records_no_subscription]: a monitor that has never
    connected. *)
Lemma failed_send_records_no_subscription_witness :
  exists err,
    @MempoolMonitor.subscribe example_runtime (VStr "block")
      (monitor_with [] [], quiet_world)
    = (Raise err, (monitor_with [] [], quiet_world))
    /\ is_Exception err = true.
Proof.
  apply (@failed_send_records_no_subscription example_runtime (VStr "block"));
    [reflexivity | discriminate].
Defined.


(** [only_objects_are_routed]: the decoded message [["blocks"]]. *)
Lemma only_objects_are_routed_witness :
  @MempoolMonitor.route example_runtime (VList [VStr "blocks"]) block_watcher
  = (Ok tt, block_watcher)
  \/ @MempoolMonitor.route example_runtime (VList [VStr "blocks"]) block_watcher
     = (Raise TypeError, block_watcher).
Proof.
  apply (@only_objects_are_routed example_runtime (VList [VStr "blocks"])). discriminate.
Defined.

(** [rejected_delay_ends_run]: the delay "5", a string. *)
Lemma rejected_delay_ends_run_witness :
  @MempoolMonitor.run strict_runtime 3 (misconfigured_monitor, quiet_world)
  = Some (Raise TypeError,
          (MempoolMonitor.set_ws
             (Some (SimpleWebSocket.init (feed_url misconfigured_monitor)))
             misconfigured_monitor,
           emit (Logged INFO (MsgReconnecting (reconnect_delay_of misconfigured_monitor)))
             (emit (Logged ERROR (MsgConnectionError ImportError))
                (emit (Logged INFO (MsgConnecting (feed_url misconfigured_monitor)))
                   (announced (MempoolMonitor.config_path misconfigured_monitor)
                      quiet_world))))).
Proof.
  apply (@rejected_delay_ends_run strict_runtime 2 misconfigured_monitor quiet_world
           TypeError); reflexivity.
Defined.

(** [load_config_merges_over_defaults]: a file that sets the delay and
    the endpoints. *)
Lemma load_config_merges_over_defaults_witness :
  exists cfg,
    @MempoolMonitor.load_config (decoding_runtime (VDict a_config)) "config.json" a_disk
    = (Ok cfg, a_disk)
    /\ forall k, dict_get (str_items cfg) k
                 = match dict_get a_config k with
                   | Some v => Some v
                   | None => dict_get DEFAULT_CONFIG k
                   end.
Proof.
  apply (@load_config_merges_over_defaults (decoding_runtime (VDict a_config))
           "config.json" "{...}" a_config a_disk); try reflexivity.
  repeat constructor; cbn; intuition discriminate.
Defined.

(** [last_config_option_wins]: [-c a.json --config b.json]. *)
Lemma last_config_option_wins_witness :
  config_path_of (Some ([("-c", "a.json")] ++ [("--config", "b.json")])) = "b.json"
  /\ config_path_of (Some []) = "config.json"
  /\ config_path_of None = "config.json".
Proof.
  apply (last_config_option_wins [("-c", "a.json")] [] "--config" "b.json"); reflexivity.
Defined.

(** [websocket_key_has_24_characters]: the first draw of a seeded
    entropy source. *)
Lemma websocket_key_has_24_characters_witness :
  exists body,
    fst (SimpleWebSocket._create_websocket_key seeded_world)
    = Ok (b64encode (firstn 16 (urandom seeded_world (urandom_calls seeded_world))))
    /\ b64encode (firstn 16 (urandom seeded_world (urandom_calls seeded_world)))
       = (body ++ "==")%string
    /\ String.length body = 22%nat
    /\ urandom_calls (snd (SimpleWebSocket._create_websocket_key seeded_world))
       = S (urandom_calls seeded_world)
    /\ trace (snd (SimpleWebSocket._create_websocket_key seeded_world))
       = trace seeded_world.
Proof.
  apply (websocket_key_has_24_characters seeded_world). cbn. lia.
Defined.

(** [handshake_waits_for_the_blank_line]: a peer that sends a status
    line and closes. *)
Lemma handshake_waits_for_the_blank_line_witness :
  fst (SimpleWebSocket.read_response 3 []
         {| inbox := [list_byte_of_string "HTTP/1.1 400 Bad Request"]; outbox := [] |})
  = Hang.
Proof.
  apply (handshake_waits_for_the_blank_line 3). reflexivity.
Defined.
